(** * ActivitySim: network level-of-service (skim) management

    A shallow embedding of [activitysim/core/los.py] together with the
    part of the checkpoint pipeline exercised by
    [activitysim/abm/test/test_pipeline.py].

    Python values are modelled as follows.
    - [dict] and [OrderedDict] objects whose iteration order matters
      (the OMX manifest, the skim key tables) are association lists
      with Python's insertion-order semantics ([od_set]).
    - dictionaries used as plain maps (the data directory, the cache
      directory, the attribute dictionary of an object) are [gmap]s.
    - exceptions are values of type [error] carried by [result]. *)

From Stdlib Require Import ZArith List String Ascii Bool Lia Permutation.
From stdpp Require Import base tactics option list strings gmap.
Import ListNotations.

Local Open Scope string_scope.
Local Open Scope list_scope.

(** ** Exceptions *)

Inductive np_dtype := Float32 | Float64 | Int32 | Int64.

#[global] Instance np_dtype_eq_dec : EqDecision np_dtype.
Proof. solve_decision. Defined.

(** Every way in which the modelled functions stop with an exception.
    The comment gives the Python exception and the line of [los.py]. *)
Inductive error :=
| MissingFile (path : string)
    (* config.data_file_path / open on a file that does not exist *)
| ShapeMismatch
    (* AssertionError, line 229 *)
| DuplicateSkim (skim_name first_file this_file : string)
    (* AssertionError "duplicate skim ... found", line 232 *)
| OffsetMapLength
    (* AssertionError, line 240 *)
| MultipleMappings (offset_map_name : option string) (m : string)
    (* RuntimeError "Multiple different mappings in omx file", line 246 *)
| KeyError (key : string)
| TypeError
| UnrecognizedDtype (d : np_dtype)
    (* RuntimeError "allocate_skim_buffer unrecognized dtype", line 60 *)
| BufferLength
    (* AssertionError, line 77 *)
| CacheFileNotFound (path : string)
    (* AssertionError "read_skim_cache could not find", line 105 *)
| MmapLength
    (* ValueError "mmap length is greater than file size", raised by
       np.memmap: file shorter than the mapping *)
| MmapEmpty
    (* ValueError "cannot mmap an empty file", raised by np.memmap for
       a mapping of no bytes *)
| CacheDirNotFound (path : string)
    (* FileNotFoundError, np.memmap opening the file of line 132 in a
       directory that does not exist *)
| ReadAndWriteCache
    (* AssertionError, line 179 *)
| SettingsMissing
    (* AssertionError, line 379 *)
| UnrecognizedZoneSystem
    (* AssertionError "unrecognized zone_system", line 382 *)
| SkimsMissing
    (* AssertionError, line 386 *)
| SkimTagLoaded (skim_tag : string)
    (* AssertionError, line 451 *)
| TazMissing
    (* AssertionError, line 393 *)
| TableNotListed (table_name : string)
    (* AssertionError, lines 402, 414, 422 *)
| DuplicateIndex
    (* ValueError raised by set_index(verify_integrity=True), line 429 *)
| BroadcastError
    (* ValueError "operands could not be broadcast together" *)
| BuffersAllocated
    (* AssertionError, line 471 *)
| SkimDictMissing (skim_tag : string)
    (* AssertionError, line 479 *)
| AttributeError (attr : string)
| TableNotLoaded (table_name : string)
    (* AssertionError "get_table: table ... not loaded", line 483 *)
| SeedAfterFirstStep
    (* RuntimeError "... call set_rn_generator_base_seed before the
       first step", test_pipeline.py line 89 *)
| PipelineAlreadyOpen
| PipelineNotOpen
| UnknownCheckpoint (name : string)
| StepAlreadyRun (name : string).

Inductive result (A : Type) :=
| Ok (a : A)
| Err (e : error).
Arguments Ok {A} a.
Arguments Err {A} e.

Definition bind {A B} (c : result A) (k : A -> result B) : result B :=
  match c with
  | Ok a => k a
  | Err e => Err e
  end.

Notation "'let*' x ':=' c 'in' k" :=
  (bind c (fun x => k))
  (at level 10, x pattern, c at level 100, k at level 200).

Definition is_ok {A} (r : result A) : bool :=
  match r with Ok _ => true | Err _ => false end.

(** ** Insertion-ordered dictionaries *)

Section odict.
Context {K V : Type} `{EqDecision K}.

(** [d.get(k)] *)
Fixpoint od_get (k : K) (d : list (K * V)) : option V :=
  match d with
  | [] => None
  | (k', v) :: d' => if decide (k = k') then Some v else od_get k d'
  end.

(** [d[k] = v]: an existing key keeps its position, a new key goes last *)
Fixpoint od_set (k : K) (v : V) (d : list (K * V)) : list (K * V) :=
  match d with
  | [] => [(k, v)]
  | (k', v') :: d' =>
      if decide (k = k') then (k, v) :: d' else (k', v') :: od_set k v d'
  end.

Definition od_keys (d : list (K * V)) : list K := map fst d.
Definition od_values (d : list (K * V)) : list V := map snd d.

(** [k in d] *)
Definition od_mem (k : K) (d : list (K * V)) : bool :=
  match od_get k d with Some _ => true | None => false end.
End odict.

(** ** Strings *)

Fixpoint string_drop (n : nat) (s : string) : string :=
  match n, s with
  | O, _ => s
  | S n', String _ s' => string_drop n' s'
  | S _, EmptyString => EmptyString
  end.

(** Search for the first occurrence of [sep]: the text before it and the
    text after it. *)
Fixpoint find_sep (sep s : string) : option (string * string) :=
  if String.prefix sep s then Some (EmptyString, string_drop (String.length sep) s)
  else match s with
       | EmptyString => None
       | String c s' =>
           match find_sep sep s' with
           | Some (before, after) => Some (String c before, after)
           | None => None
           end
       end.

(** [s.partition(sep)] for a non-empty separator *)
Definition partition (sep s : string) : string * string * string :=
  match find_sep sep s with
  | Some (before, after) => (before, sep, after)
  | None => (s, EmptyString, EmptyString)
  end.

(** truth value of a [str] *)
Definition str_truthy (s : string) : bool :=
  match s with EmptyString => false | String _ _ => true end.

(** ** OMX matrix files *)

Record omx_file := {
  file_shape : nat * nat;                      (* omx_file.shape() *)
  file_matrices : list (string * np_dtype);    (* name and element type *)
  file_mappings : list (string * list Z);      (* index mappings *)
}.

Definition listMatrices (f : omx_file) : list string := map fst (file_matrices f).
Definition listMappings (f : omx_file) : list string := map fst (file_mappings f).
Definition mapentries (f : omx_file) (m : string) : list Z :=
  default [] (od_get m (file_mappings f)).

(** [skim_time_periods] setting: a non-empty dict with a [labels] entry *)
Record time_periods := { labels : list string }.

(** A skim key is the matrix name itself or the tuple (key1, key2) *)
Inductive skim_key :=
| Key1 (key : string)
| Key2 (key1 key2 : string).

#[global] Instance skim_key_eq_dec : EqDecision skim_key.
Proof. solve_decision. Defined.

Record skim_info := {
  skim_tag : string;
  omx_file_names : list string;
  omx_manifest : list (string * string);
  omx_shape : option (nat * nat);
  num_skims : nat;
  dtype : np_dtype;
  offset_map_name : option string;
  offset_map : option (list Z);
  omx_keys : list (skim_key * string);
  key1_block_offsets : list (string * nat);
  block_offsets : list (skim_key * nat);
}.

(** ** load_skim_info (los.py lines 193-316) *)

(** lines 231-234 *)
Fixpoint scan_matrices (omx_file_name : string) (names : list string)
    (manifest : list (string * string)) : result (list (string * string)) :=
  match names with
  | [] => Ok manifest
  | skim_name :: rest =>
      match od_get skim_name manifest with
      | Some first_file => Err (DuplicateSkim skim_name first_file omx_file_name)
      | None => scan_matrices omx_file_name rest (od_set skim_name omx_file_name manifest)
      end
  end.

(** lines 236-246; the pair is (offset_map, offset_map_name) *)
Fixpoint scan_mappings (f : omx_file) (ms : list string) (shape : nat * nat)
    (om : option (list Z)) (om_name : option string)
    : result (option (list Z) * option string) :=
  match ms with
  | [] => Ok (om, om_name)
  | m :: rest =>
      match om with
      | None =>
          let entries := mapentries f m in
          if decide (length entries = shape.1)
          then scan_mappings f rest shape (Some entries) (Some m)
          else Err OffsetMapLength
      | Some entries =>
          if decide (entries = mapentries f m)
          then scan_mappings f rest shape om om_name
          else Err (MultipleMappings om_name m)
      end
  end.

Record scan_state := {
  st_shape : option (nat * nat);
  st_offset_map : option (list Z);
  st_offset_map_name : option string;
  st_manifest : list (string * string);
}.

Definition scan_init : scan_state :=
  {| st_shape := None; st_offset_map := None; st_offset_map_name := None;
     st_manifest := [] |}.

(** lines 226-229 *)
Definition check_shape (seen : option (nat * nat)) (f : omx_file) : result (nat * nat) :=
  match seen with
  | None => Ok (file_shape f)
  | Some s => if decide (s = file_shape f) then Ok s else Err ShapeMismatch
  end.

(** the loop of lines 216-246 over the files of the data directory *)
Fixpoint scan_files (data : gmap string omx_file) (file_names : list string)
    (st : scan_state) : result scan_state :=
  match file_names with
  | [] => Ok st
  | omx_file_name :: rest =>
      match data !! omx_file_name with
      | None => Err (MissingFile omx_file_name)
      | Some f =>
          let* shape := check_shape (st_shape st) f in
          let* manifest := scan_matrices omx_file_name (listMatrices f) (st_manifest st) in
          let* maps := scan_mappings f (listMappings f) shape
                         (st_offset_map st) (st_offset_map_name st) in
          scan_files data rest
            {| st_shape := Some shape; st_offset_map := maps.1;
               st_offset_map_name := maps.2; st_manifest := manifest |}
      end
  end.

(** line 206: [skim_time_periods and skim_time_periods['labels']] *)
Definition tags_to_load_of (skim_time_periods : option time_periods) : option (list string) :=
  match skim_time_periods with
  | None => None
  | Some p => Some (labels p)
  end.

(** truth value of [tags_to_load]: [None] and the empty list are false *)
Definition tags_truthy (tags : option (list string)) : bool :=
  match tags with
  | Some (_ :: _) => true
  | _ => false
  end.

Definition tags_contain (tags : option (list string)) (key2 : string) : bool :=
  match tags with
  | Some l => bool_decide (key2 ∈ l)
  | None => false
  end.

(** line 259 *)
Definition skim_key_of (skim_name : string) : skim_key :=
  let '(key1, sep, key2) := partition "__" skim_name in
  if str_truthy sep then Key2 key1 key2 else Key1 key1.

(** line 256: the matrix is skipped *)
Definition skipped (tags : option (list string)) (skim_name : string) : bool :=
  let '(key1, sep, key2) := partition "__" skim_name in
  tags_truthy tags && str_truthy sep && negb (tags_contain tags key2).

(** lines 253-260: the body of the loop *)
Definition add_omx_key (tags : option (list string))
    (keys : list (skim_key * string)) (skim_name : string) : list (skim_key * string) :=
  if skipped tags skim_name then keys
  else od_set (skim_key_of skim_name) skim_name keys.

(** lines 251-260 *)
Definition build_omx_keys (tags : option (list string)) (names : list string)
    : list (skim_key * string) :=
  fold_left (add_omx_key tags) names [].

(** lines 269-272 and 290-293 *)
Definition split_key (k : skim_key) : string * string :=
  match k with
  | Key2 key1 key2 => (key1, key2)
  | Key1 key => (key, key)
  end.

(** lines 269-274: the body of the loop; [setdefault] creates the
    sub-dictionary of a new [key1] *)
Definition add_subkey (key1_subkeys : list (string * list (string * nat)))
    (k : skim_key) : list (string * list (string * nat)) :=
  let '(key1, key2) := split_key k in
  let key2_dict := default [] (od_get key1 key1_subkeys) in
  od_set key1 (od_set key2 (length key2_dict) key2_dict) key1_subkeys.

(** lines 267-274 *)
Definition build_key1_subkeys (keys : list skim_key)
    : list (string * list (string * nat)) :=
  fold_left add_subkey keys [].

(** lines 279-281: the body of the loop on (key1_block_offsets, offset) *)
Definition add_block (state : list (string * nat) * nat)
    (item : string * list (string * nat)) : list (string * nat) * nat :=
  let '(key1_block_offsets, offset) := state in
  let '(key1, v) := item in
  let num_subkeys := length v in
  (od_set key1 offset key1_block_offsets, offset + num_subkeys).

(** lines 276-281; the pair is (key1_block_offsets, offset) *)
Definition build_key1_block_offsets (subkeys : list (string * list (string * nat)))
    : list (string * nat) * nat :=
  fold_left add_block subkeys ([], 0).

(** lines 287-297 *)
Fixpoint build_block_offsets (keys : list skim_key)
    (subkeys : list (string * list (string * nat)))
    (key1_offsets : list (string * nat))
    (acc : list (skim_key * nat)) : result (list (skim_key * nat)) :=
  match keys with
  | [] => Ok acc
  | k :: rest =>
      let '(key1, key2) := split_key k in
      match od_get key1 key1_offsets with
      | None => Err (KeyError key1)
      | Some key1_offset =>
          match od_get key1 subkeys with
          | None => Err (AttributeError "get")
          | Some key2_dict =>
              match od_get key2 key2_dict with
              | None => Err TypeError
              | Some key2_relative_offset =>
                  build_block_offsets rest subkeys key1_offsets
                    (od_set k (key1_offset + key2_relative_offset) acc)
              end
          end
      end
  end.

Definition load_skim_info (data : gmap string omx_file) (tag : string)
    (file_names : list string) (skim_time_periods : option time_periods)
    : result skim_info :=
  let tags_to_load := tags_to_load_of skim_time_periods in
  let skim_dtype := Float32 in
  let* st := scan_files data file_names scan_init in
  let keys := build_omx_keys tags_to_load (od_keys (st_manifest st)) in
  let subkeys := build_key1_subkeys (od_keys keys) in
  let key1_offsets := (build_key1_block_offsets subkeys).1 in
  let* offsets := build_block_offsets (od_keys keys) subkeys key1_offsets [] in
  Ok {| skim_tag := tag;
        omx_file_names := file_names;
        omx_manifest := st_manifest st;
        omx_shape := st_shape st;
        num_skims := length keys;
        dtype := skim_dtype;
        offset_map_name := st_offset_map_name st;
        offset_map := st_offset_map st;
        omx_keys := keys;
        key1_block_offsets := key1_offsets;
        block_offsets := offsets |}.

(** ** Buffers (los.py lines 36-66) *)

Definition itemsize (d : np_dtype) : nat :=
  match d with
  | Float32 => 4
  | Float64 => 8
  | Int32 => 4
  | Int64 => 8
  end.

(** [np.issubdtype] between two concrete element types *)
Definition issubdtype (d base : np_dtype) : bool := bool_decide (d = base).

(** [reduce(mul, list_of_numbers)]; [reduce] of nothing is a TypeError *)
Definition multiply_large_numbers (list_of_numbers : option (list nat)) : result nat :=
  match list_of_numbers with
  | None => Err TypeError
  | Some [] => Err TypeError
  | Some (x :: rest) => Ok (fold_left Nat.mul rest x)
  end.

Definition shape_list (s : nat * nat) : list nat := [s.1; s.2].

Inductive skim_buffer :=
| RawArray (typecode : string) (raw : list Byte.byte)  (* multiprocessing.RawArray *)
| NpZeros (d : np_dtype) (raw : list Byte.byte).       (* np.zeros(buffer_size, dtype) *)

(** lines 54-60 *)
Definition select_typecode (skim_dtype : np_dtype) : result string :=
  if issubdtype skim_dtype Float64 then Ok "d"
  else if issubdtype skim_dtype Float32 then Ok "f"
  else Err (UnrecognizedDtype skim_dtype).

Definition typecode_size (typecode : string) : nat :=
  if decide (typecode = "d") then 8 else 4.

Definition allocate_skim_buffer (info : skim_info) (shared : bool) : result skim_buffer :=
  let skim_dtype := dtype info in
  let* cells := multiply_large_numbers (shape_list <$> omx_shape info) in
  let buffer_size := cells * num_skims info in
  if shared then
    let* typecode := select_typecode skim_dtype in
    Ok (RawArray typecode (repeat Byte.x00 (buffer_size * typecode_size typecode)))
  else
    Ok (NpZeros skim_dtype (repeat Byte.x00 (buffer_size * itemsize skim_dtype))).

(** ** Settings

    Modelled from the spec: the settings file and the injectables
    ([config.setting], [config.data_file_path], [inject.get_injectable])
    are defined outside los.py.  Section 6 of the specification lists
    the entries read here; a file of the data directory is found by its
    name. *)

Inductive file_spec :=
| OneFile (name : string)
| FileList (names : list string).

(** [[file_names] if isinstance(file_names, str) else file_names] *)
Definition as_file_list (f : file_spec) : list string :=
  match f with
  | OneFile name => [name]
  | FileList names => names
  end.

Record los_settings := {
  zone_system : option Z;
  skims : option (list (string * file_spec));
  tables : option (gmap string file_spec);
}.

(** A CSV file as [pd.read_csv] returns it: named integer columns *)
Record csv_file := {
  csv_columns : list string;
  csv_rows : list (list Z);
}.

Record config := {
  output_dir : string;
  skim_cache_dir : option string;
  skim_time_periods : option time_periods;
  network_los : option los_settings;
  omx_files : gmap string omx_file;
  csv_files : gmap string csv_file;
}.

(** ** The skim cache (los.py lines 83-133) *)

Record ndarray := {
  nd_shape : list nat;
  nd_dtype : np_dtype;
  nd_raw : list Byte.byte;
}.

Definition nd_size (a : ndarray) : nat := fold_right Nat.mul 1 (nd_shape a).
Definition nd_nbytes (a : ndarray) : nat := nd_size a * itemsize (nd_dtype a).

(** the raw buffer of an array holds exactly its elements *)
Definition nd_wf (a : ndarray) : Prop := length (nd_raw a) = nd_nbytes a.

Definition default_skim_cache_dir (cfg : config) : string := output_dir cfg.

Definition build_skim_cache_file_name (tag : string) : string :=
  "cached_" ++ tag ++ ".mmap".

Definition ends_with_slash (s : string) : bool :=
  match String.get (String.length s - 1) s with
  | Some c => bool_decide (c = "/"%char)
  | None => false
  end.

(** [os.path.join] of a directory and a name *)
Definition os_path_join (a b : string) : string :=
  if String.prefix "/" b then b
  else if bool_decide (a = "") || ends_with_slash a then a ++ b
  else a ++ "/" ++ b.

Definition skim_cache_path (cfg : config) (info : skim_info) : string :=
  let dir := default (default_skim_cache_dir cfg) (skim_cache_dir cfg) in
  os_path_join dir (build_skim_cache_file_name (skim_tag info)).

(** [os.path.dirname]: the path up to the last slash, without trailing
    slashes unless it consists of slashes only *)
Fixpoint up_to_last_slash (s : string) : option string :=
  match s with
  | EmptyString => None
  | String c s' =>
      match up_to_last_slash s' with
      | Some head => Some (String c head)
      | None => if decide (c = "/"%char) then Some (String c EmptyString) else None
      end
  end.

Fixpoint rstrip_slashes (s : string) : string :=
  match s with
  | EmptyString => EmptyString
  | String c s' =>
      match rstrip_slashes s' with
      | EmptyString => if decide (c = "/"%char) then EmptyString else String c EmptyString
      | rest => String c rest
      end
  end.

Definition os_path_dirname (p : string) : string :=
  match up_to_last_slash p with
  | None => ""
  | Some head =>
      match rstrip_slashes head with
      | EmptyString => head
      | stripped => stripped
      end
  end.

(** a file can be created where its directory exists; a path without a
    directory part is relative to the working directory *)
Definition can_create (dirs : gset string) (path : string) : bool :=
  bool_decide (os_path_dirname path = "") || bool_decide (os_path_dirname path ∈ dirs).

Section skim_cache.
(** numpy's conversion of the raw elements of an array from one
    element type to another, used by an assignment between arrays of
    different types *)
Variable convert : np_dtype -> np_dtype -> list Byte.byte -> list Byte.byte.

(** [dst[::] = src] for arrays of the same shape: the new raw contents
    of [dst] *)
Definition assign_raw (dst_dtype : np_dtype) (src : ndarray) : list Byte.byte :=
  if decide (nd_dtype src = dst_dtype) then nd_raw src
  else convert (nd_dtype src) dst_dtype (nd_raw src).

(** lines 116-133: the files after the call and its outcome, with
    [dirs] the directories that exist.  [np.memmap] with mode 'w+'
    creates or truncates the file before it maps it, and cannot map
    an array without elements: the empty file stays. *)
Definition write_skim_cache (cfg : config) (dirs : gset string)
    (fs : gmap string (list Byte.byte)) (info : skim_info) (skim_data : ndarray)
    : gmap string (list Byte.byte) * result unit :=
  let path := skim_cache_path cfg info in
  (* np.memmap(path, shape=skim_data.shape, dtype=dtype, mode='w+') *)
  if can_create dirs path then
    let nbytes := nd_size skim_data * itemsize (dtype info) in
    if decide (nbytes = 0) then (<[path := []]> fs, Err MmapEmpty)
    else
      let data := {| nd_shape := nd_shape skim_data; nd_dtype := dtype info;
                     nd_raw := repeat Byte.x00 nbytes |} in
      (<[path := assign_raw (nd_dtype data) skim_data]> fs, Ok tt)
  else (fs, Err (CacheDirNotFound path)).

(** lines 91-113: [skim_data] after the call *)
Definition read_skim_cache (cfg : config) (fs : gmap string (list Byte.byte))
    (info : skim_info) (skim_data : ndarray) : result ndarray :=
  let path := skim_cache_path cfg info in
  match fs !! path with
  | None => Err (CacheFileNotFound path)
  | Some contents =>
      (* np.memmap(path, shape=skim_data.shape, dtype=dtype, mode='r') *)
      let nbytes := nd_size skim_data * itemsize (dtype info) in
      if decide (nbytes = 0 /\ contents = []) then Err MmapEmpty
      else if decide (length contents < nbytes) then Err MmapLength
      else
        let data := {| nd_shape := nd_shape skim_data; nd_dtype := dtype info;
                       nd_raw := take nbytes contents |} in
        Ok {| nd_shape := nd_shape skim_data; nd_dtype := nd_dtype skim_data;
              nd_raw := assign_raw (nd_dtype skim_data) data |}
  end.
End skim_cache.

(** ** Zone-pair tables *)

Definition ONE_ZONE : Z := 1.
Definition TWO_ZONE : Z := 2.
Definition THREE_ZONE : Z := 3.

Definition REQUIRED_TWO_ZONE_TABLES : list string := ["maz_to_maz"; "maz_to_taz"].

(** a cell of a loaded table.  The cells read from a file are int64
    values; [NaN] marks a cell that no file filled, and the int64 cells
    of a column that pandas fills with NaN become float64 values *)
Inductive cell :=
| NaN
| Val (v : Z)     (* an int64 value *)
| FVal (v : Z).   (* a float64 value, the integer v *)

(** an index label: an int64 value, or the NaN that arithmetic with a
    NaN cardinality gives *)
Inductive label :=
| At (i : Z)
| NaNLabel.

#[global] Instance label_eq_dec : EqDecision label.
Proof. solve_decision. Defined.

(** a table with an index: column labels and, for every row, its
    label and its cells *)
Record frame := {
  fr_columns : list string;
  fr_rows : list (label * list cell);
}.

(** int64 arithmetic wraps around *)
Definition int64_wrap (z : Z) : Z := ((z + 2 ^ 63) mod 2 ^ 64 - 2 ^ 63)%Z.

(** [o * cardinality + d] on int64 values (lines 428 and 494) *)
Definition synthetic_index (cardinality o d : Z) : Z :=
  int64_wrap (int64_wrap (o * cardinality) + d).

(** the same expression when the cardinality may be NaN ([None]) *)
Definition synthetic_label (cardinality : option Z) (o d : Z) : label :=
  match cardinality with
  | Some cardinality => At (synthetic_index cardinality o d)
  | None => NaNLabel
  end.

(** the float64 value nearest to an integer, ties to the even
    significand: exact below 2^53 *)
Definition float64_of_int (z : Z) : Z :=
  let a := Z.abs z in
  if (a <? 2 ^ 53)%Z then z
  else
    let unit := (2 ^ (Z.log2 a - 52))%Z in
    let q := (a / unit)%Z in
    let r := (a mod unit)%Z in
    let rounded :=
      if (2 * r <? unit)%Z then q
      else if (unit <? 2 * r)%Z then (q + 1)%Z
      else if Z.even q then q else (q + 1)%Z in
    (Z.sgn z * (rounded * unit))%Z.

(** the conversion of a cell of a column that becomes float64 *)
Definition upcast (c : cell) : cell :=
  match c with
  | Val v => FVal (float64_of_int v)
  | _ => c
  end.

Fixpoint col_pos (name : string) (cols : list string) : option nat :=
  match cols with
  | [] => None
  | c :: cols' => if decide (name = c) then Some 0 else S <$> col_pos name cols'
  end.

(** [df.NAME]: the column of that name *)
Definition csv_column (name : string) (f : csv_file) : result (list Z) :=
  match col_pos name (csv_columns f) with
  | None => Err (AttributeError name)
  | Some p => Ok (map (fun row => nth p row 0%Z) (csv_rows f))
  end.

(** [column.max()]: the maximum of an empty column is NaN ([None]) *)
Definition column_max (l : list Z) : option Z :=
  match l with
  | [] => None
  | x :: rest => Some (fold_left Z.max rest x)
  end.

(** the columns removed by [set_index('i', drop=True)] and
    [drop(columns=['OMAZ', 'DMAZ'])] *)
Definition index_columns : list string := ["OMAZ"; "DMAZ"; "i"].

Definition kept_columns (cols : list string) : list string :=
  filter (fun c => c ∉ index_columns) cols.

Fixpoint kept_cells (cols : list string) (row : list Z) : list cell :=
  match cols with
  | [] => []
  | c :: cols' =>
      let rest := kept_cells cols' (tl row) in
      if decide (c ∈ index_columns) then rest else Val (hd 0%Z row) :: rest
  end.

(** lines 428-434: one maz_to_maz file, indexed by the synthetic index;
    [verify_integrity] rejects an index with a repeated label, and NaN
    labels count as repeated *)
Definition indexed_frame (cardinality : option Z) (df : csv_file) : result frame :=
  let* omaz := csv_column "OMAZ" df in
  let* dmaz := csv_column "DMAZ" df in
  let i := zip_with (synthetic_label cardinality) omaz dmaz in
  if decide (NoDup i) then
    Ok {| fr_columns := kept_columns (csv_columns df);
          fr_rows := zip i (map (kept_cells (csv_columns df)) (csv_rows df)) |}
  else Err DuplicateIndex.

Definition frame_row (fr : frame) (l : label) : list cell :=
  default (repeat NaN (length (fr_columns fr))) (od_get l (fr_rows fr)).

(** the table lacks one of the labels: aligning it to them fills its
    columns with NaN, which makes its int64 columns float64 *)
Definition needs_fill (labels : list label) (fr : frame) : bool :=
  negb (bool_decide (Forall (fun l => l ∈ od_keys (fr_rows fr)) labels)).

Definition upcast_cells (fill : bool) (cells : list cell) : list cell :=
  if fill then map upcast cells else cells.

(** the row of a table aligned to the labels *)
Definition aligned_row (labels : list label) (fr : frame) (l : label) : list cell :=
  upcast_cells (needs_fill labels fr) (frame_row fr l).

(** [pd.concat([a, b], axis=1)]: the rows are joined on their labels,
    a label missing on one side gets [NaN] there *)
Definition concat_columns (a b : frame) : frame :=
  let labels := od_keys (fr_rows a)
                ++ filter (fun l => l ∉ od_keys (fr_rows a)) (od_keys (fr_rows b)) in
  {| fr_columns := fr_columns a ++ fr_columns b;
     fr_rows := map (fun l => (l, aligned_row labels a l ++ aligned_row labels b l)) labels |}.

(** Modelled from the spec: [util.quick_loc_df] is defined outside
    los.py.  Section 4.5 describes it as a vectorized positional lookup
    against the table that returns the values aligned to the input
    order: for every label of [loc_list], the cell of the row with that
    label in the column [attribute]. *)
Definition quick_loc_df (loc_list : list label) (target_df : frame) (attribute : string)
    : result (list cell) :=
  match col_pos attribute (fr_columns target_df) with
  | None => Err (KeyError attribute)
  | Some p =>
      Ok (map (fun l =>
                 match od_get l (fr_rows target_df) with
                 | Some row => nth p row NaN
                 | None => NaN
                 end) loc_list)
  end.

(** elementwise operation on one-dimensional arrays; an array of length
    one is broadcast *)
Definition broadcast {A} (f : Z -> Z -> A) (a b : list Z) : result (list A) :=
  if decide (length a = length b) then Ok (zip_with f a b)
  else match a, b with
       | [x], _ => Ok (map (f x) b)
       | _, [y] => Ok (map (fun x => f x y) a)
       | _, _ => Err BroadcastError
       end.

Definition int64_add (x y : Z) : Z := int64_wrap (x + y).
Definition int64_mul (x y : Z) : Z := int64_wrap (x * y).

(** ** The Network_LOS object (los.py lines 356-498)

    An instance is its attribute dictionary.  A method is a function
    from the dictionary to the updated dictionary and the returned
    value or the exception: assignments made before an exception stay.

    The construction of a skim dictionary ([create_skim_dict], lines
    319-353) ends in [skim.SkimDict], and [load_skims] (lines 175-190)
    reads the matrix payloads; both are defined over data that this
    development does not describe, neither receives the object, and
    the object model takes them as parameters. *)

Section network_los.
Variable skim_dict : Type.
Variable create_skim_dict : string -> skim_info -> result skim_dict.
Variable load_skims : skim_info -> skim_buffer -> result unit.

Inductive pyval :=
| VNone
| VInt (z : Z)
| VNaN                         (* the float nan *)
| VTimePeriods (p : time_periods)
| VSkimInfo (d : list (string * skim_info))
| VSkimDicts (d : list (string * skim_dict))
| VSkimBuffers (d : list (string * skim_buffer))
| VTableInfo (d : gmap string file_spec)
| VCsv (df : csv_file)
| VFrame (df : frame)
| VTables (d : gmap string frame).

Definition M (A : Type) : Type :=
  gmap string pyval -> gmap string pyval * result A.

Definition ret {A} (a : A) : M A := fun self => (self, Ok a).
Definition raise {A} (e : error) : M A := fun self => (self, Err e).
Definition lift {A} (r : result A) : M A := fun self => (self, r).

Definition mbind {A B} (c : M A) (k : A -> M B) : M B :=
  fun self =>
    match c self with
    | (self', Ok a) => k a self'
    | (self', Err e) => (self', Err e)
    end.

Notation "'let!' x ':=' c 'in' k" :=
  (mbind c (fun x => k))
  (at level 10, x pattern, c at level 100, k at level 200).

(** [self.name] *)
Definition getattr (name : string) : M pyval :=
  fun self =>
    (self, match self !! name with
           | Some v => Ok v
           | None => Err (AttributeError name)
           end).

(** [self.name = v] *)
Definition setattr (name : string) (v : pyval) : M unit :=
  fun self => (<[name := v]> self, Ok tt).

Definition periods_val (p : option time_periods) : pyval :=
  match p with Some p => VTimePeriods p | None => VNone end.

Definition int_val (z : option Z) : pyval :=
  match z with Some z => VInt z | None => VNone end.

(** [v in [z1, z2, ...]] *)
Definition val_in (v : pyval) (l : list Z) : bool :=
  match v with
  | VInt z => bool_decide (z ∈ l)
  | _ => false
  end.

Definition get_skim_info : M (list (string * skim_info)) :=
  let! v := getattr "skim_info" in
  match v with VSkimInfo d => ret d | _ => raise TypeError end.

Definition get_table_info : M (gmap string file_spec) :=
  let! v := getattr "table_info" in
  match v with VTableInfo d => ret d | _ => raise TypeError end.

(** lines 445-452 *)
Definition load_skim_info_method (cfg : config) (tag : string)
    (file_names : list string) : M skim_info :=
  let! infos := get_skim_info in
  if od_mem tag infos then raise (SkimTagLoaded tag)
  else
    let! periods := getattr "skim_time_periods" in
    match periods with
    | VNone => lift (load_skim_info (omx_files cfg) tag file_names None)
    | VTimePeriods p => lift (load_skim_info (omx_files cfg) tag file_names (Some p))
    | _ => raise TypeError
    end.

(** lines 387-390 *)
Fixpoint load_all_skim_info (cfg : config) (items : list (string * file_spec)) : M unit :=
  match items with
  | [] => ret tt
  | (tag, file_names) :: rest =>
      let file_names := as_file_list file_names in
      let! info := load_skim_info_method cfg tag file_names in
      let! infos := get_skim_info in
      let! _ := setattr "skim_info" (VSkimInfo (od_set tag info infos)) in
      load_all_skim_info cfg rest
  end.

(** lines 401-403 *)
Fixpoint check_required_tables (names : list string) : M unit :=
  match names with
  | [] => ret tt
  | table_name :: rest =>
      let! table_info := get_table_info in
      match table_info !! table_name with
      | None => raise (TableNotListed table_name)
      | Some _ => check_required_tables rest
      end
  end.

(** lines 376-406 *)
Definition read_los_settings (cfg : config) : M unit :=
  match network_los cfg with
  | None => raise SettingsMissing
  | Some los =>
      let! _ := setattr "zone_system" (int_val (zone_system los)) in
      let! zs := getattr "zone_system" in
      if negb (val_in zs [ONE_ZONE; TWO_ZONE]) then raise UnrecognizedZoneSystem
      else
        match skims los with
        | None => raise SkimsMissing
        | Some skim_file_names =>
            let! _ := load_all_skim_info cfg skim_file_names in
            let! infos := get_skim_info in
            if negb (od_mem "taz" infos) then raise TazMissing
            else
              let! zs := getattr "zone_system" in
              let! _ :=
                if val_in zs [TWO_ZONE; THREE_ZONE] then
                  let! _ := setattr "table_info" (VTableInfo (default ∅ (tables los))) in
                  check_required_tables REQUIRED_TWO_ZONE_TABLES
                else ret tt in
              setattr "skim_time_periods" (periods_val (skim_time_periods cfg))
        end
  end.

(** lines 358-374 *)
Definition __init__ (cfg : config) : M unit :=
  let! _ := setattr "zone_system" VNone in
  let! _ := setattr "skim_time_periods" VNone in
  let! _ := setattr "skim_info" (VSkimInfo []) in
  let! _ := setattr "skim_dicts" (VSkimDicts []) in
  let! _ := setattr "skim_buffers" (VSkimBuffers []) in
  let! _ := setattr "table_info" (VTableInfo ∅) in
  let! _ := setattr "maz_to_taz_df" VNone in
  let! _ := setattr "maz_to_maz_df" VNone in
  let! _ := setattr "maz_to_maz_cardinality" VNone in
  let! _ := setattr "skim_time_periods" (periods_val (skim_time_periods cfg)) in
  read_los_settings cfg.

(** [Network_LOS()]: the new object, unless the constructor raises *)
Definition Network_LOS (cfg : config) : result (gmap string pyval) :=
  match __init__ cfg ∅ with
  | (self, Ok _) => Ok self
  | (_, Err e) => Err e
  end.

(** [column.max() + 1] (line 418): NaN for an empty column *)
Definition cardinality_val (top : option Z) : pyval :=
  match top with
  | Some top => VInt (int64_add top 1)
  | None => VNaN
  end.

(** [pd.read_csv(config.data_file_path(file_name, mandatory=True))] *)
Definition read_csv (cfg : config) (file_name : string) : result csv_file :=
  match csv_files cfg !! file_name with
  | Some df => Ok df
  | None => Err (MissingFile file_name)
  end.

(** lines 424-439 *)
Fixpoint load_maz_to_maz (cfg : config) (file_names : list string) : M unit :=
  match file_names with
  | [] => ret tt
  | file_name :: rest =>
      let! df := lift (read_csv cfg file_name) in
      let! cardinality := getattr "maz_to_maz_cardinality" in
      let! cardinality :=
        match cardinality with
        | VInt cardinality => ret (Some cardinality)
        | VNaN => ret None
        | _ => raise TypeError
        end in
      let! df := lift (indexed_frame cardinality df) in
      let! cur := getattr "maz_to_maz_df" in
      let! _ :=
        match cur with
        | VNone => setattr "maz_to_maz_df" (VFrame df)
        | VFrame cur => setattr "maz_to_maz_df" (VFrame (concat_columns cur df))
        | _ => raise TypeError
        end in
      load_maz_to_maz cfg rest
  end.

(** lines 408-443 *)
Definition load_all_tables (cfg : config) : M unit :=
  let! zs := getattr "zone_system" in
  if val_in zs [TWO_ZONE; THREE_ZONE] then
    let! table_info := get_table_info in
    match table_info !! "maz_to_taz" with
    | None => raise (TableNotListed "maz_to_taz")
    | Some (FileList _) => raise TypeError
    | Some (OneFile file_name) =>
        let! df := lift (read_csv cfg file_name) in
        let! _ := setattr "maz_to_taz_df" (VCsv df) in
        let! maz := lift (csv_column "MAZ" df) in
        let! _ := setattr "maz_to_maz_cardinality" (cardinality_val (column_max maz)) in
        let! table_info := get_table_info in
        match table_info !! "maz_to_maz" with
        | None => raise (TableNotListed "maz_to_maz")
        | Some file_names => load_maz_to_maz cfg (as_file_list file_names)
        end
    end
  else ret tt.

(** lines 454-455 *)
Definition create_skim_dict_method (tag : string) : M skim_dict :=
  let! infos := get_skim_info in
  match od_get tag infos with
  | None => raise (KeyError tag)
  | Some info => lift (create_skim_dict tag info)
  end.

Definition get_skim_dicts : M (list (string * skim_dict)) :=
  let! v := getattr "skim_dicts" in
  match v with VSkimDicts d => ret d | _ => raise TypeError end.

Definition get_skim_buffers : M (list (string * skim_buffer)) :=
  let! v := getattr "skim_buffers" in
  match v with VSkimBuffers d => ret d | _ => raise TypeError end.

Fixpoint load_skim_dicts (tags : list string) : M unit :=
  match tags with
  | [] => ret tt
  | tag :: rest =>
      let! sd := create_skim_dict_method tag in
      let! dicts := get_skim_dicts in
      let! _ := setattr "skim_dicts" (VSkimDicts (od_set tag sd dicts)) in
      load_skim_dicts rest
  end.

(** lines 457-459 *)
Definition load_all_skims : M unit :=
  let! infos := get_skim_info in
  load_skim_dicts (od_keys infos).

Fixpoint load_shared_buffers (shared_data_buffers : list (string * skim_buffer))
    (tags : list string) : M unit :=
  match tags with
  | [] => ret tt
  | tag :: rest =>
      let! infos := get_skim_info in
      match od_get tag infos, od_get tag shared_data_buffers with
      | Some info, Some buffer =>
          let! _ := lift (load_skims info buffer) in
          load_shared_buffers shared_data_buffers rest
      | _, _ => raise (KeyError tag)
      end
  end.

(** lines 461-463 *)
Definition load_shared_data (shared_data_buffers : list (string * skim_buffer)) : M unit :=
  let! infos := get_skim_info in
  load_shared_buffers shared_data_buffers (od_keys infos).

Fixpoint allocate_buffers (tags : list string) : M unit :=
  match tags with
  | [] => ret tt
  | tag :: rest =>
      let! infos := get_skim_info in
      match od_get tag infos with
      | None => raise (KeyError tag)
      | Some info =>
          let! buffer := lift (allocate_skim_buffer info true) in
          let! buffers := get_skim_buffers in
          let! _ := setattr "skim_buffers" (VSkimBuffers (od_set tag buffer buffers)) in
          allocate_buffers rest
      end
  end.

(** lines 469-476 *)
Definition allocate_shared_skim_buffers : M (list (string * skim_buffer)) :=
  let! buffers := get_skim_buffers in
  match buffers with
  | _ :: _ => raise BuffersAllocated
  | [] =>
      let! infos := get_skim_info in
      let! _ := allocate_buffers (od_keys infos) in
      get_skim_buffers
  end.

(** lines 478-480 *)
Definition get_skim_dict (tag : string) : M skim_dict :=
  let! dicts := get_skim_dicts in
  match od_get tag dicts with
  | None => raise (SkimDictMissing tag)
  | Some sd => ret sd
  end.

(** lines 482-484 *)
Definition get_table (table_name : string) : M (option frame) :=
  let! tables := getattr "tables" in
  match tables with
  | VTables d =>
      match d !! table_name with
      | None => raise (TableNotLoaded table_name)
      | Some _ =>
          let! tables := getattr "tables" in
          match tables with
          | VTables d => ret (d !! table_name)
          | _ => raise TypeError
          end
      end
  | _ => raise TypeError
  end.

(** lines 486-498 *)
Definition get_mazpairs (omaz dmaz : list Z) (attribute : string) : M (list cell) :=
  let! cardinality := getattr "maz_to_maz_cardinality" in
  let! i :=
    match cardinality with
    | VInt cardinality =>
        lift (broadcast (fun x d => At (int64_add x d))
                (map (fun o => int64_mul o cardinality) omaz) dmaz)
    | VNaN => lift (broadcast (fun _ _ => NaNLabel) omaz dmaz)
    | _ => raise TypeError
    end in
  let! df := getattr "maz_to_maz_df" in
  match df with
  | VFrame df => lift (quick_loc_df i df attribute)
  | _ => raise TypeError
  end.

(** A call of a method of the object *)
Inductive method_call :=
| Call_read_los_settings
| Call_load_all_tables
| Call_load_skim_info (tag : string) (file_names : list string)
| Call_create_skim_dict (tag : string)
| Call_load_all_skims
| Call_load_shared_data (shared_data_buffers : list (string * skim_buffer))
| Call_allocate_shared_skim_buffers
| Call_get_skim_dict (tag : string)
| Call_get_table (table_name : string)
| Call_get_mazpairs (omaz dmaz : list Z) (attribute : string).

(** the object after the call, whether it returned or raised *)
Definition after_call (cfg : config) (c : method_call)
    (self : gmap string pyval) : gmap string pyval :=
  match c with
  | Call_read_los_settings => (read_los_settings cfg self).1
  | Call_load_all_tables => (load_all_tables cfg self).1
  | Call_load_skim_info tag file_names => (load_skim_info_method cfg tag file_names self).1
  | Call_create_skim_dict tag => (create_skim_dict_method tag self).1
  | Call_load_all_skims => (load_all_skims self).1
  | Call_load_shared_data bufs => (load_shared_data bufs self).1
  | Call_allocate_shared_skim_buffers => (allocate_shared_skim_buffers self).1
  | Call_get_skim_dict tag => (get_skim_dict tag self).1
  | Call_get_table table_name => (get_table table_name self).1
  | Call_get_mazpairs omaz dmaz attribute => (get_mazpairs omaz dmaz attribute self).1
  end.

(** the objects that the constructor and the methods can produce *)
Inductive reachable (cfg : config) : gmap string pyval -> Prop :=
| reach_new self :
    Network_LOS cfg = Ok self -> reachable cfg self
| reach_call self c :
    reachable cfg self -> reachable cfg (after_call cfg c self).
End network_los.

Arguments VNone {skim_dict}.
Arguments VInt {skim_dict} z.
Arguments VNaN {skim_dict}.
Arguments VTimePeriods {skim_dict} p.
Arguments VSkimInfo {skim_dict} d.
Arguments VSkimDicts {skim_dict} d.
Arguments VSkimBuffers {skim_dict} d.
Arguments VTableInfo {skim_dict} d.
Arguments VCsv {skim_dict} df.
Arguments VFrame {skim_dict} df.
Arguments VTables {skim_dict} d.
Arguments periods_val {skim_dict} p.
Arguments int_val {skim_dict} z.
Arguments cardinality_val {skim_dict} top.
Arguments val_in {skim_dict} v l.
Arguments ret {skim_dict A} a.
Arguments raise {skim_dict A} e.
Arguments lift {skim_dict A} r.
Arguments mbind {skim_dict A B} c k.
Arguments getattr {skim_dict} name.
Arguments setattr {skim_dict} name v.
Arguments get_skim_info {skim_dict}.
Arguments get_table_info {skim_dict}.
Arguments get_skim_dicts {skim_dict}.
Arguments get_skim_buffers {skim_dict}.
Arguments load_skim_info_method {skim_dict} cfg tag file_names.
Arguments load_all_skim_info {skim_dict} cfg items.
Arguments check_required_tables {skim_dict} names.
Arguments read_los_settings {skim_dict} cfg.
Arguments __init__ {skim_dict} cfg.
Arguments Network_LOS {skim_dict} cfg.
Arguments load_maz_to_maz {skim_dict} cfg file_names.
Arguments load_all_tables {skim_dict} cfg.
Arguments create_skim_dict_method {skim_dict} create_skim_dict tag.
Arguments load_skim_dicts {skim_dict} create_skim_dict tags.
Arguments load_all_skims {skim_dict} create_skim_dict.
Arguments load_shared_buffers {skim_dict} load_skims shared_data_buffers tags.
Arguments load_shared_data {skim_dict} load_skims shared_data_buffers.
Arguments allocate_buffers {skim_dict} tags.
Arguments allocate_shared_skim_buffers {skim_dict}.
Arguments get_skim_dict {skim_dict} tag.
Arguments get_table {skim_dict} table_name.
Arguments get_mazpairs {skim_dict} omaz dmaz attribute.
Arguments after_call {skim_dict} create_skim_dict load_skims cfg c self.
Arguments reachable {skim_dict} create_skim_dict load_skims cfg _.

(** ** The checkpoint pipeline *)

Module Pipeline.













End Pipeline.

(** ** Notions used to state the properties *)

(** the files named by [file_names], when all of them exist *)
Fixpoint files_of (data : gmap string omx_file) (file_names : list string)
    : option (list omx_file) :=
  match file_names with
  | [] => Some []
  | name :: rest =>
      match data !! name, files_of data rest with
      | Some f, Some fs => Some (f :: fs)
      | _, _ => None
      end
  end.

(** every matrix name of the files, in the order of enumeration *)
Definition all_names (fs : list omx_file) : list string :=
  concat (map listMatrices fs).

(** every mapping of the files, in the order of enumeration *)
Definition all_mappings (fs : list omx_file) : list (list Z) :=
  concat (map (fun f => map (mapentries f) (listMappings f)) fs).

Definition all_mapping_names (fs : list omx_file) : list string :=
  concat (map listMappings fs).

(** all files report the shape [s] *)
Definition shapes_are (s : nat * nat) (fs : list omx_file) : Prop :=
  Forall (fun f => file_shape f = s) fs.

(** all files report the same shape *)
Definition shapes_agree (fs : list omx_file) : Prop :=
  match fs with
  | [] => True
  | f :: _ => shapes_are (file_shape f) fs
  end.

(** the names are pairwise distinct and none is a key of [manifest] *)
Definition names_fresh (manifest : list (string * string)) (names : list string) : Prop :=
  NoDup names /\ forall x, x ∈ names -> x ∉ od_keys manifest.

(** a first mapping, if it is to be adopted, has [rows] entries *)
Definition first_length_ok (rows : nat) (adopted : option (list Z))
    (maps : list (list Z)) : Prop :=
  match adopted, maps with
  | None, m :: _ => length m = rows
  | _, _ => True
  end.

(** the mappings equal the adopted one; without an adopted one, the
    first has [rows] entries and the later ones equal it *)
Definition maps_ok (rows : nat) (adopted : option (list Z))
    (maps : list (list Z)) : Prop :=
  match adopted with
  | Some m => Forall (fun m' => m' = m) maps
  | None =>
      match maps with
      | [] => True
      | m :: rest => length m = rows /\ Forall (fun m' => m' = m) rest
      end
  end.

(** the mapping adopted after [maps] *)
Definition maps_result (adopted : option (list Z)) (maps : list (list Z))
    : option (list Z) :=
  match adopted with
  | Some m => Some m
  | None => head maps
  end.

(** the first mapping of the files has one entry per matrix row and the
    later ones equal it *)
Definition mappings_agree (fs : list omx_file) : Prop :=
  match fs with
  | [] => True
  | f :: _ => maps_ok (file_shape f).1 None (all_mappings fs)
  end.

(** the manifest that the files produce: every matrix name with the
    name of its file *)
Definition manifest_of (file_names : list string) (fs : list omx_file)
    : list (string * string) :=
  concat (zip_with (fun name f => map (fun n => (n, name)) (listMatrices f)) file_names fs).

(** the first mapping of the files has one entry per matrix row *)
Definition first_mapping_fits (fs : list omx_file) : Prop :=
  match fs with
  | [] => True
  | f :: _ => first_length_ok (file_shape f).1 None (all_mappings fs)
  end.

(** the period label of a matrix name: the text after the first
    separator, if there is a separator *)
Definition period_of (skim_name : string) : option string :=
  match find_sep "__" skim_name with
  | Some (_, after) => Some after
  | None => None
  end.

(** the shape in effect while the files are scanned *)
Definition shape_in_effect (st : scan_state) (fs : list omx_file) : option (nat * nat) :=
  match st_shape st with
  | Some s => Some s
  | None => file_shape <$> head fs
  end.

(** the sub-dictionary of [key1] has an entry for [key2] *)
Definition has_subkey (subkeys : list (string * list (string * nat)))
    (key1 key2 : string) : Prop :=
  exists key2_dict, od_get key1 subkeys = Some key2_dict /\ is_Some (od_get key2 key2_dict).

(** ** Sample inputs *)

Module Sample.

(** two files contributing DIST, TIME__AM and TIME__PM *)
Definition dist_file : omx_file :=
  {| file_shape := (2, 2);
     file_matrices := [("DIST", Float64)];
     file_mappings := [("zone_number", [1; 2]%Z)] |}.

Definition time_file : omx_file :=
  {| file_shape := (2, 2);
     file_matrices := [("TIME__AM", Float64); ("TIME__PM", Float32)];
     file_mappings := [("zone_number", [1; 2]%Z)] |}.

Definition data : gmap string omx_file :=
  {[ "dist.omx" := dist_file; "time.omx" := time_file ]}.

Definition am_pm : option time_periods := Some {| labels := ["AM"; "PM"] |}.

Definition no_labels : option time_periods := Some {| labels := [] |}.

(** a file whose matrix names DIST and DIST__DIST share key1 and key2 *)
Definition dist_dist_file : omx_file :=
  {| file_shape := (2, 2);
     file_matrices := [("DIST", Float32); ("DIST__DIST", Float32)];
     file_mappings := [] |}.

Definition dist_dist_data : gmap string omx_file :=
  {[ "skims.omx" := dist_dist_file ]}.

(** a second file that repeats DIST and reports another shape *)
Definition other_shape_file : omx_file :=
  {| file_shape := (3, 3);
     file_matrices := [("DIST", Float64)];
     file_mappings := [] |}.

Definition other_shape_data : gmap string omx_file :=
  {[ "dist.omx" := dist_file; "dist3.omx" := other_shape_file ]}.

(** a second file that repeats DIST with the same shape *)
Definition repeated_data : gmap string omx_file :=
  {[ "dist.omx" := dist_file; "again.omx" := dist_file ]}.

(** a file with a second, different mapping *)
Definition two_maps_file : omx_file :=
  {| file_shape := (2, 2);
     file_matrices := [("COST", Float64)];
     file_mappings := [("zone_number", [1; 2]%Z); ("other", [7; 8]%Z)] |}.

Definition two_maps_data : gmap string omx_file :=
  {[ "dist.omx" := dist_file; "cost.omx" := two_maps_file ]}.

End Sample.

(** ** Statements that the code does not satisfy *)

(** the retention rule with every configured label set, the empty one
    included, applied as a filter *)
Definition retention_filters_with_any_label_set : Prop :=
  forall data tag names periods info,
    load_skim_info data tag names periods = Ok info ->
    forall x, x ∈ od_keys (omx_manifest info) ->
      (skim_key_of x, x) ∈ omx_keys info
      <-> match periods with
          | Some p => period_of x = None \/ exists q, period_of x = Some q /\ q ∈ labels p
          | None => True
          end.

(** a repeated matrix name always surfaces as the duplicate-skim error *)
Definition duplicate_error_iff_repeated_name : Prop :=
  forall data tag names periods fs,
    files_of data names = Some fs ->
    (exists x a b, load_skim_info data tag names periods = Err (DuplicateSkim x a b))
    <-> ~ NoDup (all_names fs).

(** ** Notions on methods *)

(** the method keeps the property [P] of the object, whether it
    returns or raises *)
Definition keeps {skim_dict A} (P : gmap string (pyval skim_dict) -> Prop)
    (m : M skim_dict A) : Prop :=
  forall self, P self -> P (m self).1.

(** the object has no attribute [tables] *)
Definition no_tables {skim_dict} (self : gmap string (pyval skim_dict)) : Prop :=
  self !! "tables" = None.

(** the method raises only exceptions that satisfy [Q] *)
Definition raises_only {skim_dict A} (Q : error -> Prop) (m : M skim_dict A) : Prop :=
  forall self e, (m self).2 = Err e -> Q e.

(** the exceptions of [load_skim_info] *)
Definition catalog_error (e : error) : Prop :=
  match e with
  | MissingFile _ | ShapeMismatch | DuplicateSkim _ _ _ | OffsetMapLength
  | MultipleMappings _ _ | KeyError _ | TypeError | AttributeError _ => True
  | _ => False
  end.

(** the exceptions that [read_los_settings] raises after the check of
    the zone system *)
Definition later_error (e : error) : Prop :=
  match e with
  | UnrecognizedZoneSystem | SettingsMissing => False
  | _ => True
  end.

Module SampleConfig.

Definition one_zone : los_settings :=
  {| zone_system := Some 1%Z;
     skims := Some [("taz", FileList ["dist.omx"; "time.omx"])];
     tables := None |}.

Definition three_zone : los_settings :=
  {| zone_system := Some 3%Z;
     skims := Some [("taz", FileList ["dist.omx"; "time.omx"])];
     tables := None |}.

Definition with_settings (los : los_settings) : config :=
  {| output_dir := "output";
     skim_cache_dir := None;
     skim_time_periods := Sample.am_pm;
     network_los := Some los;
     omx_files := Sample.data;
     csv_files := ∅ |}.

(** stand-ins for the construction of skim dictionaries *)
Definition no_skim_dict (tag : string) (info : skim_info) : result unit := Ok tt.
Definition no_load (info : skim_info) (buffer : skim_buffer) : result unit := Ok tt.

End SampleConfig.

(** the check of the zone system passes exactly for the values 1, 2, 3 *)
Definition zone_systems_1_2_3_accepted : Prop :=
  forall (cfg : config) (los : los_settings) (self : gmap string (pyval unit)),
    network_los cfg = Some los ->
    (read_los_settings cfg self).2 ≠ Err UnrecognizedZoneSystem
    <-> zone_system los ∈ [Some 1; Some 2; Some 3]%Z.

Module SampleCache.

(** the conversion between element types is not exercised *)
Definition no_convert (src dst : np_dtype) (raw : list Byte.byte) : list Byte.byte := raw.

Definition info : skim_info :=
  {| skim_tag := "taz"; omx_file_names := []; omx_manifest := [];
     omx_shape := Some (1, 1); num_skims := 2; dtype := Float32;
     offset_map_name := None; offset_map := None; omx_keys := [];
     key1_block_offsets := []; block_offsets := [] |}.

Definition cfg : config :=
  {| output_dir := "output"; skim_cache_dir := None; skim_time_periods := None;
     network_los := None; omx_files := ∅; csv_files := ∅ |}.

(** two float32 elements: 1.0 and a NaN with a payload *)
Definition skim_data : ndarray :=
  {| nd_shape := [1; 1; 2]; nd_dtype := Float32;
     nd_raw := [Byte.x00; Byte.x00; Byte.x80; Byte.x3f;
                Byte.x01; Byte.x00; Byte.xc0; Byte.x7f] |}.


(** the output directory exists *)
Definition dirs : gset string := {[ "output" ]}.


End SampleCache.


(** ** Notions on zone-pair tables *)

(** every row of the table has one cell per column *)
Definition rectangular (fr : frame) : Prop :=
  forall label, length (frame_row fr label) = length (fr_columns fr).

(** the table after one more file (lines 436-439) *)
Definition join_frame (cur : option frame) (df : frame) : option frame :=
  match cur with
  | None => Some df
  | Some cur => Some (concat_columns cur df)
  end.

Definition join_frames (cur : option frame) (dfs : list frame) : option frame :=
  fold_left join_frame dfs cur.

Definition frame_val {skim_dict} (cur : option frame) : pyval skim_dict :=
  match cur with
  | None => VNone
  | Some df => VFrame df
  end.

(** the stored cardinality: an int64 value, or NaN *)
Definition card_val {skim_dict} (cardinality : option Z) : pyval skim_dict :=
  match cardinality with
  | Some cardinality => VInt cardinality
  | None => VNaN
  end.

(** the cell that the joined table holds for the int64 value [v] of a
    file: the value itself, or the float64 value nearest to it when
    the table has a label that the file lacks *)
Definition stored_cell (table df : frame) (v : Z) : cell :=
  if needs_fill (od_keys (fr_rows table)) df then FVal (float64_of_int v) else Val v.

Module SampleTables.

Definition maz_to_taz : csv_file :=
  {| csv_columns := ["MAZ"; "TAZ"];
     csv_rows := [[0; 10]; [1; 10]; [2; 11]]%Z |}.

Definition walk : csv_file :=
  {| csv_columns := ["OMAZ"; "DMAZ"; "walk_dist"];
     csv_rows := [[0; 1; 5]; [1; 2; 7]]%Z |}.

Definition bike : csv_file :=
  {| csv_columns := ["OMAZ"; "DMAZ"; "bike_dist"];
     csv_rows := [[1; 2; 9]; [2; 0; 4]]%Z |}.

Definition two_zone : los_settings :=
  {| zone_system := Some 2%Z;
     skims := Some [("taz", FileList ["dist.omx"; "time.omx"])];
     tables := Some {[ "maz_to_taz" := OneFile "maz_to_taz.csv";
                       "maz_to_maz" := FileList ["walk.csv"; "bike.csv"] ]} |}.

Definition cfg : config :=
  {| output_dir := "output";
     skim_cache_dir := None;
     skim_time_periods := Sample.am_pm;
     network_los := Some two_zone;
     omx_files := Sample.data;
     csv_files := {[ "maz_to_taz.csv" := maz_to_taz;
                     "walk.csv" := walk; "bike.csv" := bike ]} |}.

(** the object that the constructor leaves *)
Definition new_object : gmap string (pyval unit) := (__init__ cfg ∅).1.

(** the object after [load_all_tables] *)
Definition loaded_object : gmap string (pyval unit) :=
  (load_all_tables cfg new_object).1.

End SampleTables.

(** ** Notions on the block layout *)

(** the number of sub-keys of all blocks *)
Definition total_subkeys (subkeys : list (string * list (string * nat))) : nat :=
  sum_list (map (fun item => length item.2) subkeys).

(** the block starts: cumulative sums of the block sizes *)
Fixpoint offsets_from (offset : nat) (subkeys : list (string * list (string * nat)))
    : list (string * nat) :=
  match subkeys with
  | [] => []
  | (key1, v) :: rest => (key1, offset) :: offsets_from (offset + length v) rest
  end.

(** no retained scalar key K stands next to the tuple key (K, K) *)
Definition no_collision (keys : list skim_key) : Prop :=
  forall k, Key1 k ∈ keys -> Key2 k k ∉ keys.

(** the table of sub-keys after the pairs [filed] have been filed: every
    sub-dictionary numbers its keys 0, 1, ... and holds exactly the
    second components filed under its first component *)
Definition subkeys_wf (subkeys : list (string * list (string * nat)))
    (filed : list (string * string)) : Prop :=
  NoDup (od_keys subkeys)
  /\ (forall key1 d, od_get key1 subkeys = Some d ->
        od_values d = seq 0 (length d)
        /\ forall key2, key2 ∈ od_keys d <-> (key1, key2) ∈ filed)
  /\ (forall key1 key2, (key1, key2) ∈ filed -> is_Some (od_get key1 subkeys))
  /\ total_subkeys subkeys = length filed.

(** the offset that lines 295-297 compute for a key *)
Definition block_offset_of (subkeys : list (string * list (string * nat)))
    (key1_offsets : list (string * nat)) (k : skim_key) (v : nat) : Prop :=
  exists o d i,
    od_get (split_key k).1 key1_offsets = Some o
    /\ od_get (split_key k).1 subkeys = Some d
    /\ od_get (split_key k).2 d = Some i
    /\ v = o + i.

(** * Further definitions *)

(** ** The constructed object *)

(** The attributes that a returned constructor leaves (lines 358-406),
    for the settings [los], the zone system [z] and the catalogs
    [infos]. *)
Record constructed {skim_dict} (cfg : config) (los : los_settings) (z : Z)
    (infos : list (string * skim_info))
    (self : gmap string (pyval skim_dict)) : Prop := {
  ctor_settings : network_los cfg = Some los;
  ctor_zone_setting : zone_system los = Some z;
  ctor_zone_system : self !! "zone_system" = Some (VInt z);
  ctor_skim_time_periods :
    self !! "skim_time_periods" = Some (periods_val (skim_time_periods cfg));
  ctor_skim_info : self !! "skim_info" = Some (VSkimInfo infos);
  ctor_skim_dicts : self !! "skim_dicts" = Some (VSkimDicts []);
  ctor_skim_buffers : self !! "skim_buffers" = Some (VSkimBuffers []);
  ctor_table_info :
    self !! "table_info"
    = Some (VTableInfo (if decide (z = TWO_ZONE) then default ∅ (tables los) else ∅));
  ctor_maz_to_taz_df : self !! "maz_to_taz_df" = Some VNone;
  ctor_maz_to_maz_df : self !! "maz_to_maz_df" = Some VNone;
  ctor_maz_to_maz_cardinality : self !! "maz_to_maz_cardinality" = Some VNone;
}.

(** the catalogs [infos] are those of the entries [items] of the
    setting [skims], one per entry and in their order *)
Definition catalogs_of (cfg : config) (items : list (string * file_spec))
    (infos : list (string * skim_info)) : Prop :=
  Forall2 (fun item entry =>
             entry.1 = item.1
             /\ load_skim_info (omx_files cfg) item.1 (as_file_list item.2)
                  (skim_time_periods cfg) = Ok entry.2)
    items infos.

Module SampleObject.

Definition cfg : config := SampleConfig.with_settings SampleConfig.one_zone.

(** the object that the constructor leaves for the one-zone settings *)
Definition one_zone_object : gmap string (pyval unit) := (__init__ cfg ∅).1.

End SampleObject.

Module SampleCaches.


(** an array of one float32 element *)
Definition one_skim : ndarray :=
  {| nd_shape := [1; 1; 1]; nd_dtype := Float32; nd_raw := repeat Byte.x00 4 |}.

End SampleCaches.

(** ** Views on buffers (los.py lines 69-80) *)

(** The exceptions of numpy's views, beside those of [error]. *)
Inductive view_error :=
| Raised (e : error)
| FrombufferSize
    (* ValueError "buffer size must be a multiple of element size",
       np.frombuffer, line 78 *)
| ReshapeSize.
    (* ValueError "cannot reshape array of size ... into shape ...",
       line 78 *)

Inductive view_result (A : Type) :=
| View (a : A)
| ViewErr (e : view_error).
Arguments View {A} a.
Arguments ViewErr {A} e.

(** [len(skim_buffer)]: the number of elements of the buffer *)
Definition buffer_len (b : skim_buffer) : nat :=
  match b with
  | RawArray typecode raw => length raw / typecode_size typecode
  | NpZeros d raw => length raw / itemsize d
  end.

(** the bytes that the buffer exposes *)
Definition buffer_raw (b : skim_buffer) : list Byte.byte :=
  match b with
  | RawArray _ raw => raw
  | NpZeros _ raw => raw
  end.

(** lines 69-80: the view shares the bytes of the buffer *)
Definition skim_data_from_buffer (info : skim_info) (skim_buffer : skim_buffer)
    : view_result ndarray :=
  let skim_dtype := dtype info in
  match omx_shape info with
  | None => ViewErr (Raised TypeError)
  | Some omx_shape =>
      let skims_shape := shape_list omx_shape ++ [num_skims info] in
      match multiply_large_numbers (Some skims_shape) with
      | Err e => ViewErr (Raised e)
      | Ok size =>
          if decide (buffer_len skim_buffer = size) then
            (* np.frombuffer(skim_buffer, dtype=skim_dtype).reshape(skims_shape) *)
            let raw := buffer_raw skim_buffer in
            if decide (length raw mod itemsize skim_dtype = 0) then
              if decide (length raw / itemsize skim_dtype = size) then
                View {| nd_shape := skims_shape; nd_dtype := skim_dtype; nd_raw := raw |}
              else ViewErr ReshapeSize
            else ViewErr FrombufferSize
          else ViewErr (Raised BufferLength)
      end
  end.

(** the number of elements of the skims of a catalog *)
Definition skims_size (info : skim_info) : option nat :=
  match omx_shape info with
  | Some (r, c) => Some (r * c * num_skims info)
  | None => None
  end.

(** * Properties *)

(** ** Insertion-ordered dictionaries *)

Section odict_facts.
Context {K V : Type} `{EqDecision K}.
Implicit Types (k : K) (v : V) (d : list (K * V)).

Lemma od_get_None k d : od_get k d = None <-> k ∉ od_keys d.
Proof.
  induction d as [|[k' v'] d IH]; simpl.
  - split; [intros _; apply not_elem_of_nil | done].
  - destruct (decide (k = k')) as [->|Hne].
    + split; [done | intros Hn; exfalso; apply Hn; left].
    + rewrite IH. rewrite not_elem_of_cons. tauto.
Qed.

Lemma od_get_Some_keys k v d : od_get k d = Some v -> k ∈ od_keys d.
Proof.
  intros Hget. destruct (decide (k ∈ od_keys d)) as [|Hn]; [done|].
  apply od_get_None in Hn. congruence.
Qed.

Lemma od_get_is_Some k d : is_Some (od_get k d) <-> k ∈ od_keys d.
Proof.
  split.
  - intros [v Hv]. by eapply od_get_Some_keys.
  - intros Hin. destruct (od_get k d) eqn:E; [eauto|].
    apply od_get_None in E. done.
Qed.

Lemma od_get_app k d1 d2 :
  od_get k (d1 ++ d2) = match od_get k d1 with Some v => Some v | None => od_get k d2 end.
Proof.
  induction d1 as [|[k' v'] d1 IH]; simpl; [done|].
  by destruct (decide (k = k')).
Qed.

Lemma od_set_absent k v d : od_get k d = None -> od_set k v d = d ++ [(k, v)].
Proof.
  induction d as [|[k' v'] d IH]; simpl; [done|].
  destruct (decide (k = k')); [done|]. intros Hget. by rewrite IH.
Qed.

Lemma od_get_set_eq k v d : od_get k (od_set k v d) = Some v.
Proof.
  induction d as [|[k' v'] d IH]; simpl.
  - by rewrite decide_True.
  - destruct (decide (k = k')) as [->|Hne]; simpl.
    + by rewrite decide_True.
    + by rewrite decide_False.
Qed.

Lemma od_get_set_ne k k' v d : k' ≠ k -> od_get k' (od_set k v d) = od_get k' d.
Proof.
  intros Hne. induction d as [|[k0 v0] d IH]; simpl.
  - by rewrite decide_False.
  - destruct (decide (k = k0)) as [->|Hne0]; simpl.
    + by rewrite !decide_False.
    + destruct (decide (k' = k0)); [done | apply IH].
Qed.

Lemma od_keys_set_present k v d : k ∈ od_keys d -> od_keys (od_set k v d) = od_keys d.
Proof.
  induction d as [|[k' v'] d IH]; simpl.
  - intros Hin. by apply elem_of_nil in Hin.
  - intros Hin. destruct (decide (k = k')) as [->|Hne]; simpl; [done|].
    f_equal. apply IH. apply elem_of_cons in Hin as [?|?]; done.
Qed.

Lemma od_keys_set_absent k v d : k ∉ od_keys d -> od_keys (od_set k v d) = od_keys d ++ [k].
Proof.
  intros Hn. apply od_get_None in Hn. rewrite (od_set_absent _ _ _ Hn).
  unfold od_keys. by rewrite map_app.
Qed.

Lemma od_keys_set_NoDup k v d : NoDup (od_keys d) -> NoDup (od_keys (od_set k v d)).
Proof.
  intros Hnd. destruct (decide (k ∈ od_keys d)) as [Hin|Hn].
  - by rewrite od_keys_set_present.
  - rewrite od_keys_set_absent by done.
    apply NoDup_app. split_and!; [done | | apply NoDup_singleton].
    intros x Hx Hx'. apply list_elem_of_singleton in Hx'. by subst.
Qed.

Lemma od_keys_set_elem k k' v d :
  k' ∈ od_keys (od_set k v d) <-> k' = k \/ k' ∈ od_keys d.
Proof.
  destruct (decide (k ∈ od_keys d)) as [Hin|Hn].
  - rewrite od_keys_set_present by done. split; [by right | intros [->|?]; done].
  - rewrite od_keys_set_absent by done. rewrite elem_of_app, list_elem_of_singleton. tauto.
Qed.

Lemma od_set_length_present k v d : k ∈ od_keys d -> length (od_set k v d) = length d.
Proof.
  intros Hin. pose proof (od_keys_set_present k v d Hin) as Hlen.
  apply (f_equal length) in Hlen.
  unfold od_keys in Hlen. by rewrite !length_map in Hlen.
Qed.

Lemma od_set_length_absent k v d : k ∉ od_keys d -> length (od_set k v d) = S (length d).
Proof.
  intros Hn. apply od_get_None in Hn. rewrite (od_set_absent _ _ _ Hn).
  rewrite length_app. simpl. lia.
Qed.

Lemma od_get_elem_of k v d : od_get k d = Some v -> (k, v) ∈ d.
Proof.
  induction d as [|[k' v'] d IH]; simpl; [done|].
  destruct (decide (k = k')) as [->|Hne].
  - intros [= ->]. left.
  - intros Hget. right. by apply IH.
Qed.

Lemma od_get_NoDup k v d : NoDup (od_keys d) -> (k, v) ∈ d -> od_get k d = Some v.
Proof.
  induction d as [|[k' v'] d IH]; simpl.
  - intros _ Hin. by apply elem_of_nil in Hin.
  - intros Hnd Hin. apply NoDup_cons in Hnd as [Hk' Hnd].
    apply elem_of_cons in Hin as [[= -> ->]|Hin].
    + by rewrite decide_True.
    + destruct (decide (k = k')) as [->|Hne]; [|by apply IH].
      exfalso. apply Hk'. apply list_elem_of_fmap. by exists (k', v).
Qed.
End odict_facts.

(** ** Scanning the source files *)

Lemma names_fresh_nil manifest : names_fresh manifest [].
Proof. split; [apply NoDup_nil_2 | intros x Hx; by apply elem_of_nil in Hx]. Qed.

Lemma names_fresh_cons manifest x file rest :
  names_fresh manifest (x :: rest)
  <-> (x ∉ od_keys manifest) /\ names_fresh (manifest ++ [(x, file)]) rest.
Proof.
  unfold names_fresh, od_keys. rewrite NoDup_cons, map_app. simpl.
  setoid_rewrite elem_of_cons. setoid_rewrite elem_of_app.
  setoid_rewrite list_elem_of_singleton. split.
  - intros ([Hx Hnd] & Hall). split_and!; [by apply Hall; left | done |].
    intros y Hy [Hin| ->]; [eapply Hall; [right|]; done | done].
  - intros (Hx & Hnd & Hall). split_and!.
    + intros Hin. eapply Hall; [done | by right].
    + done.
    + intros y [->|Hy]; [done|]. intros Hin. eapply Hall; [done | by left].
Qed.

Lemma names_fresh_app manifest file l1 l2 :
  names_fresh manifest (l1 ++ l2)
  <-> names_fresh manifest l1
      /\ names_fresh (manifest ++ map (fun x => (x, file)) l1) l2.
Proof.
  revert manifest. induction l1 as [|x l1 IH]; intros manifest; simpl.
  - rewrite app_nil_r. pose proof (names_fresh_nil manifest). tauto.
  - rewrite !(names_fresh_cons _ x file). rewrite IH.
    rewrite <- app_assoc. simpl. tauto.
Qed.

Lemma scan_matrices_spec file names manifest :
  match scan_matrices file names manifest with
  | Ok manifest' =>
      names_fresh manifest names
      /\ manifest' = manifest ++ map (fun x => (x, file)) names
  | Err e =>
      (exists x first, e = DuplicateSkim x first file)
      /\ ~ names_fresh manifest names
  end.
Proof.
  revert manifest. induction names as [|x names IH]; intros manifest; simpl.
  - split; [apply names_fresh_nil | by rewrite app_nil_r].
  - destruct (od_get x manifest) as [first|] eqn:Hget.
    + split; [by eauto|]. rewrite (names_fresh_cons _ x file).
      intros [Hx _]. apply od_get_None in Hx. congruence.
    + rewrite (od_set_absent _ _ _ Hget). specialize (IH (manifest ++ [(x, file)])).
      apply od_get_None in Hget.
      destruct (scan_matrices file names (manifest ++ [(x, file)])) as [m'|e].
      * destruct IH as [Hfresh ->]. split.
        -- by apply (names_fresh_cons _ x file).
        -- by rewrite <- app_assoc.
      * destruct IH as [He Hn]. split; [done|].
        rewrite (names_fresh_cons _ x file). tauto.
Qed.

Lemma maps_ok_app rows adopted l1 l2 :
  maps_ok rows adopted (l1 ++ l2)
  <-> maps_ok rows adopted l1 /\ maps_ok rows (maps_result adopted l1) l2.
Proof.
  destruct adopted as [m|]; simpl.
  - apply Forall_app.
  - destruct l1 as [|m l1]; simpl; [tauto|]. rewrite Forall_app. tauto.
Qed.

Lemma maps_result_app adopted l1 l2 :
  maps_result adopted (l1 ++ l2) = maps_result (maps_result adopted l1) l2.
Proof. destruct adopted; [done|]. by destruct l1. Qed.

Lemma maps_ok_first_length rows adopted l :
  maps_ok rows adopted l -> first_length_ok rows adopted l.
Proof. destruct adopted, l; simpl; tauto. Qed.

Lemma first_length_ok_app rows adopted l1 l2 :
  first_length_ok rows adopted (l1 ++ l2)
  <-> first_length_ok rows adopted l1
      /\ first_length_ok rows (maps_result adopted l1) l2.
Proof.
  destruct adopted as [m|]; simpl.
  - destruct (l1 ++ l2), l1; simpl; tauto.
  - destruct l1 as [|m l1]; simpl; [tauto|]. destruct l2; tauto.
Qed.

Lemma scan_mappings_spec f ms shape adopted name :
  match scan_mappings f ms shape adopted name with
  | Ok r =>
      maps_ok shape.1 adopted (map (mapentries f) ms)
      /\ r.1 = maps_result adopted (map (mapentries f) ms)
  | Err e =>
      (e = OffsetMapLength
       /\ ~ first_length_ok shape.1 adopted (map (mapentries f) ms))
      \/ ((exists a b, e = MultipleMappings a b)
          /\ first_length_ok shape.1 adopted (map (mapentries f) ms)
          /\ ~ maps_ok shape.1 adopted (map (mapentries f) ms))
  end.
Proof.
  revert adopted name. induction ms as [|m ms IH]; intros adopted name; simpl.
  - destruct adopted; simpl; split; done.
  - destruct adopted as [entries|].
    + destruct (decide (entries = mapentries f m)) as [Heq|Hne].
      * specialize (IH (Some entries) name).
        destruct (scan_mappings f ms shape (Some entries) name) as [r|e]; simpl in *.
        -- destruct IH as [Hall ->]. split; [|done]. by apply Forall_cons.
        -- destruct IH as [[-> Hn]|(He & _ & Hn)]; [done|].
           right. split_and!; [done.. |]. rewrite Forall_cons. tauto.
      * right. split_and!; [by eauto | done |]. simpl. rewrite Forall_cons.
        intros [? _]. done.
    + destruct (decide (length (mapentries f m) = shape.1)) as [Hlen|Hlen].
      * specialize (IH (Some (mapentries f m)) (Some m)).
        destruct (scan_mappings f ms shape (Some (mapentries f m)) (Some m)) as [r|e];
          simpl in *.
        -- destruct IH as [Hall ->]. done.
        -- destruct IH as [[-> Hn]|(He & _ & Hn)]; [done|].
           right. split_and!; [done.. |]. tauto.
      * left. done.
Qed.

Lemma all_names_cons f fs : all_names (f :: fs) = listMatrices f ++ all_names fs.
Proof. done. Qed.

Lemma all_mappings_cons f fs :
  all_mappings (f :: fs) = map (mapentries f) (listMappings f) ++ all_mappings fs.
Proof. done. Qed.

Lemma manifest_of_cons name names f fs :
  manifest_of (name :: names) (f :: fs)
  = map (fun x => (x, name)) (listMatrices f) ++ manifest_of names fs.
Proof. done. Qed.

Lemma files_of_length data names fs :
  files_of data names = Some fs -> length fs = length names.
Proof.
  revert fs. induction names as [|n names IH]; intros fs; simpl.
  - by intros [= <-].
  - destruct (data !! n); [|done]. destruct (files_of data names); [|done].
    intros [= <-]. simpl. f_equal. by apply IH.
Qed.

(** The scan of the files, from any state: what a success establishes
    and what each failure refutes. *)
Lemma scan_files_spec data names fs st s :
  files_of data names = Some fs ->
  shape_in_effect st fs = Some s ->
  match scan_files data names st with
  | Ok st' =>
      shapes_are s fs
      /\ names_fresh (st_manifest st) (all_names fs)
      /\ maps_ok s.1 (st_offset_map st) (all_mappings fs)
      /\ st_shape st' = Some s
      /\ st_manifest st' = st_manifest st ++ manifest_of names fs
      /\ st_offset_map st' = maps_result (st_offset_map st) (all_mappings fs)
  | Err e =>
      (e = ShapeMismatch /\ ~ shapes_are s fs)
      \/ ((exists x a b, e = DuplicateSkim x a b)
          /\ ~ names_fresh (st_manifest st) (all_names fs))
      \/ (e = OffsetMapLength
          /\ ~ first_length_ok s.1 (st_offset_map st) (all_mappings fs))
      \/ ((exists a b, e = MultipleMappings a b)
          /\ first_length_ok s.1 (st_offset_map st) (all_mappings fs)
          /\ ~ maps_ok s.1 (st_offset_map st) (all_mappings fs))
  end.
Proof.
  revert fs st. induction names as [|name names IH]; intros fs st; simpl.
  - intros [= <-]. unfold shape_in_effect. simpl.
    destruct (st_shape st) as [s0|] eqn:Hs; [|done]. intros [= ->].
    split_and!.
    + apply Forall_nil_2.
    + apply names_fresh_nil.
    + destruct (st_offset_map st); simpl; [apply Forall_nil_2 | done].
    + done.
    + unfold manifest_of. simpl. by rewrite app_nil_r.
    + by destruct (st_offset_map st).
  - destruct (data !! name) as [f|]; [|done].
    destruct (files_of data names) as [fs'|] eqn:Hfs; [|done].
    intros [= <-] Heff.
    assert (check_shape (st_shape st) f = Ok s
            \/ (check_shape (st_shape st) f = Err ShapeMismatch /\ file_shape f ≠ s))
      as [Hshape|[Hshape Hne]].
    { unfold shape_in_effect in Heff. unfold check_shape.
      destruct (st_shape st) as [s0|]; simpl in Heff.
      - injection Heff as ->. destruct (decide (s = file_shape f)); [by left | right].
        split; [done | congruence].
      - injection Heff as ->. by left. }
    2:{ rewrite Hshape. simpl. left. split; [done|].
        unfold shapes_are. rewrite Forall_cons. tauto. }
    rewrite Hshape. simpl.
    assert (file_shape f = s) as Hf.
    { unfold shape_in_effect in Heff. unfold check_shape in Hshape.
      destruct (st_shape st) as [s0|]; simpl in Heff.
      - destruct (decide (s0 = file_shape f)); congruence.
      - congruence. }
    rewrite all_names_cons, all_mappings_cons, manifest_of_cons.
    assert (shapes_are s (f :: fs') <-> shapes_are s fs') as Hsh.
    { unfold shapes_are. rewrite Forall_cons. tauto. }
    pose proof (names_fresh_app (st_manifest st) name (listMatrices f) (all_names fs'))
      as Hnf.
    pose proof (maps_ok_app s.1 (st_offset_map st)
                  (map (mapentries f) (listMappings f)) (all_mappings fs')) as Hmo.
    pose proof (first_length_ok_app s.1 (st_offset_map st)
                  (map (mapentries f) (listMappings f)) (all_mappings fs')) as Hfl.
    pose proof (scan_matrices_spec name (listMatrices f) (st_manifest st)) as Hmat.
    destruct (scan_matrices name (listMatrices f) (st_manifest st)) as [manifest|e];
      simpl.
    2:{ destruct Hmat as [(x & first & ->) Hn]. right. left.
        split; [by eauto | tauto]. }
    destruct Hmat as [Hfresh ->].
    pose proof (scan_mappings_spec f (listMappings f) s (st_offset_map st)
                  (st_offset_map_name st)) as Hmap.
    destruct (scan_mappings f (listMappings f) s (st_offset_map st)
                (st_offset_map_name st)) as [r|e]; simpl.
    2:{ destruct Hmap as [[-> Hn]|(He & Hlen & Hn)].
        - right. right. left. split; [done | tauto].
        - right. right. right. split_and!; [done | | tauto].
          apply Hfl. split; [done|].
          (* the remaining mappings are only compared with the adopted one *)
          destruct (st_offset_map st) as [m|]; simpl in *.
          + by destruct (all_mappings fs').
          + destruct (map (mapentries f) (listMappings f)); simpl; [tauto|].
            by destruct (all_mappings fs'). }
    destruct Hmap as [Hok Hr].
    specialize (IH fs'
      {| st_shape := Some s; st_offset_map := r.1; st_offset_map_name := r.2;
         st_manifest := st_manifest st ++ map (fun x => (x, name)) (listMatrices f) |}
      eq_refl eq_refl).
    simpl in IH. rewrite <- Hr in Hmo, Hfl.
    destruct (scan_files data names _) as [st'|e]; simpl.
    + destruct IH as (H1 & H2 & H3 & H4 & H5 & H6).
      split_and!; [tauto | tauto | tauto | done | |].
      * by rewrite H5, <- app_assoc.
      * by rewrite maps_result_app, <- Hr.
    + pose proof (maps_ok_first_length s.1 _ _ Hok) as Hlen1.
      destruct IH as [[-> Hn]|[[He Hn]|[[-> Hn]|(He & Hlen & Hn)]]].
      * left. tauto.
      * right. left. tauto.
      * right. right. left. tauto.
      * right. right. right. tauto.
Qed.

(** The scan from the initial state. *)
Lemma scan_init_spec data names fs :
  files_of data names = Some fs ->
  match scan_files data names scan_init with
  | Ok st =>
      shapes_agree fs /\ NoDup (all_names fs) /\ mappings_agree fs
      /\ st_shape st = file_shape <$> head fs
      /\ st_manifest st = manifest_of names fs
      /\ st_offset_map st = head (all_mappings fs)
  | Err e =>
      (e = ShapeMismatch /\ ~ shapes_agree fs)
      \/ ((exists x a b, e = DuplicateSkim x a b) /\ ~ NoDup (all_names fs))
      \/ (e = OffsetMapLength /\ ~ first_mapping_fits fs)
      \/ ((exists a b, e = MultipleMappings a b)
          /\ first_mapping_fits fs /\ ~ mappings_agree fs)
  end.
Proof.
  intros Hfs. destruct fs as [|f fs].
  - destruct names as [|name names]; simpl in *.
    + split_and!; try done. apply NoDup_nil_2.
    + destruct (data !! name); [|done]. by destruct (files_of data names).
  - pose proof (scan_files_spec data names (f :: fs) scan_init (file_shape f) Hfs eq_refl)
      as Hspec.
    assert (forall l, names_fresh [] l <-> NoDup l) as Hfresh.
    { intros l. unfold names_fresh. split; [tauto|].
      intros Hnd. split; [done|]. intros x _. apply not_elem_of_nil. }
    destruct (scan_files data names scan_init) as [st|e]; simpl in *.
    + destruct Hspec as (H1 & H2 & H3 & H4 & H5 & H6).
      split_and!; [done | by apply (proj1 (Hfresh _)) | done..].
    + rewrite Hfresh in Hspec. done.
Qed.

(** ** Matrix names and skim keys *)

Lemma prefix_split sep s :
  String.prefix sep s = true -> s = sep +:+ string_drop (String.length sep) s.
Proof.
  revert s. induction sep as [|c sep IH]; intros s; simpl; [done|].
  destruct s as [|c' s]; [done|]. simpl.
  destruct (Ascii.ascii_dec c c') as [->|]; [|done].
  intros Hp. change (String c' s = String c' (sep +:+ string_drop (String.length sep) s)).
  f_equal. by apply IH.
Qed.

Lemma prefix_app sep s : String.prefix sep (sep +:+ s) = true.
Proof.
  induction sep as [|c sep IH]; simpl; [by destruct s|].
  destruct (Ascii.ascii_dec c c); done.
Qed.

Lemma find_sep_unfold sep s :
  find_sep sep s
  = if String.prefix sep s then Some (EmptyString, string_drop (String.length sep) s)
    else match s with
         | EmptyString => None
         | String c s' =>
             match find_sep sep s' with
             | Some (before, after) => Some (String c before, after)
             | None => None
             end
         end.
Proof. by destruct s. Qed.

Lemma find_sep_Some sep s before after :
  find_sep sep s = Some (before, after) -> s = before +:+ sep +:+ after.
Proof.
  revert before. induction s as [|c s IH]; intros before; rewrite find_sep_unfold.
  - destruct (String.prefix sep "") eqn:Hp; [|done].
    intros [= <- <-]. by apply prefix_split in Hp.
  - destruct (String.prefix sep (String c s)) eqn:Hp.
    + intros [= <- <-]. by apply prefix_split in Hp.
    + destruct (find_sep sep s) as [[b a]|] eqn:Hfind; [|done].
      intros [= <- <-].
      change (String c s = String c (b +:+ sep +:+ a)). f_equal. by apply IH.
Qed.

(** [find_sep] finds a separator whenever there is one. *)
Lemma find_sep_None sep s before after :
  find_sep sep s = None -> s ≠ before +:+ sep +:+ after.
Proof.
  revert before. induction s as [|c s IH]; intros before; rewrite find_sep_unfold.
  - destruct (String.prefix sep "") eqn:Hp; [done|]. intros _ Heq.
    destruct before; [|done].
    change (EmptyString = sep +:+ after) in Heq.
    rewrite Heq, prefix_app in Hp. done.
  - destruct (String.prefix sep (String c s)) eqn:Hp; [done|].
    destruct (find_sep sep s) as [[b a]|] eqn:Hfind; [done|]. intros _ Heq.
    destruct before as [|c' before].
    + change (String c s = sep +:+ after) in Heq.
      rewrite Heq, prefix_app in Hp. done.
    + change (String c s = String c' (before +:+ sep +:+ after)) in Heq.
      injection Heq as -> Heq. by eapply IH.
Qed.

Lemma skim_key_of_cases skim_name :
  (exists key1 key2,
      find_sep "__" skim_name = Some (key1, key2)
      /\ skim_key_of skim_name = Key2 key1 key2
      /\ skim_name = key1 +:+ "__" +:+ key2)
  \/ (find_sep "__" skim_name = None /\ skim_key_of skim_name = Key1 skim_name).
Proof.
  unfold skim_key_of, partition.
  destruct (find_sep "__" skim_name) as [[key1 key2]|] eqn:Hfind.
  - left. exists key1, key2. split_and!; [done.. |]. by apply find_sep_Some.
  - right. done.
Qed.

Lemma skim_key_of_inj a b : skim_key_of a = skim_key_of b -> a = b.
Proof.
  destruct (skim_key_of_cases a) as [(a1 & a2 & _ & -> & ->)|[_ ->]],
           (skim_key_of_cases b) as [(b1 & b2 & _ & -> & ->)|[_ ->]];
    intros [=]; by subst.
Qed.

(** whether line 256 skips the matrix, in terms of its period label *)
Lemma skipped_spec tags skim_name :
  skipped tags skim_name = true
  <-> tags_truthy tags = true
      /\ exists p, period_of skim_name = Some p /\ tags_contain tags p = false.
Proof.
  unfold skipped, period_of, partition.
  destruct (find_sep "__" skim_name) as [[key1 key2]|]; simpl.
  - rewrite andb_true_r. rewrite andb_true_iff, negb_true_iff. split.
    + intros [? ?]. eauto.
    + intros [? (p & [= <-] & ?)]. done.
  - rewrite andb_false_r. split; [done|]. intros [_ (p & ? & _)]. done.
Qed.

(** ** The key tables *)

Lemma build_omx_keys_acc tags names acc :
  NoDup names ->
  (forall x, x ∈ names -> skim_key_of x ∉ od_keys acc) ->
  fold_left (add_omx_key tags) names acc
  = acc ++ map (fun x => (skim_key_of x, x))
             (filter (fun x => skipped tags x = false) names).
Proof.
  revert acc. induction names as [|x names IH]; intros acc Hnd Hfresh; simpl.
  - by rewrite app_nil_r.
  - apply NoDup_cons in Hnd as [Hx Hnd]. unfold add_omx_key at 2.
    destruct (skipped tags x) eqn:Hskip.
    + rewrite filter_cons_False by (rewrite Hskip; done).
      apply IH; [done|]. intros y Hy. apply Hfresh. by right.
    + rewrite filter_cons_True by done. simpl.
      rewrite od_set_absent by (apply od_get_None, Hfresh; left).
      rewrite IH; [by rewrite <- app_assoc | done |].
      intros y Hy. unfold od_keys. rewrite map_app, elem_of_app. simpl.
      rewrite list_elem_of_singleton. intros [Hin|Heq].
      * eapply Hfresh; [by right | done].
      * apply skim_key_of_inj in Heq. by subst.
Qed.

(** The retained keys, in the order of the manifest. *)
Lemma build_omx_keys_spec tags names :
  NoDup names ->
  build_omx_keys tags names
  = map (fun x => (skim_key_of x, x)) (filter (fun x => skipped tags x = false) names).
Proof.
  intros Hnd. unfold build_omx_keys. rewrite build_omx_keys_acc; [done.. |].
  intros x _. apply not_elem_of_nil.
Qed.

Lemma has_subkey_step subkeys k key1 key2 :
  (has_subkey subkeys key1 key2 \/ split_key k = (key1, key2)) ->
  has_subkey (add_subkey subkeys k) key1 key2.
Proof.
  intros Hcase. unfold add_subkey. destruct (split_key k) as [k1 k2] eqn:Hk.
  destruct (decide (k1 = key1)) as [->|Hne1].
  - eexists. split; [apply od_get_set_eq|].
    destruct (decide (k2 = key2)) as [->|Hne2].
    + rewrite od_get_set_eq. by eexists.
    + rewrite od_get_set_ne by done.
      destruct Hcase as [(d & Hd & Hin)|[= ]]; [|done]. by rewrite Hd.
  - destruct Hcase as [(d & Hd & Hin)|[= ]]; [|done].
    exists d. by rewrite od_get_set_ne.
Qed.

Lemma build_key1_subkeys_has keys acc key1 key2 :
  (has_subkey acc key1 key2 \/ exists k, k ∈ keys /\ split_key k = (key1, key2)) ->
  has_subkey (fold_left add_subkey keys acc) key1 key2.
Proof.
  revert acc. induction keys as [|k keys IH]; intros acc Hcase; simpl.
  - destruct Hcase as [?|(k & Hk & _)]; [done|]. by apply elem_of_nil in Hk.
  - apply IH. destruct Hcase as [Hacc|(k' & Hk' & Hsplit)].
    + left. apply has_subkey_step. by left.
    + apply elem_of_cons in Hk' as [->|Hk'].
      * left. apply has_subkey_step. by right.
      * right. eauto.
Qed.

Lemma build_key1_block_offsets_acc subkeys acc offset (key1 : string) :
  (is_Some (od_get key1 acc) \/ is_Some (od_get key1 subkeys)) ->
  is_Some (od_get key1 (fold_left add_block subkeys (acc, offset)).1).
Proof.
  revert acc offset. induction subkeys as [|[k v] subkeys IH]; intros acc offset Hcase.
  - simpl in *. destruct Hcase as [?|[? ?]]; done.
  - simpl. apply IH. simpl in Hcase.
    destruct (decide (key1 = k)) as [->|Hne].
    + left. rewrite od_get_set_eq. by eexists.
    + rewrite od_get_set_ne by done. done.
Qed.

Lemma od_keys_fold_ext (keys : list skim_key) (a b : list (skim_key * nat)) :
  od_keys a = od_keys b ->
  od_keys (fold_left (fun acc k => od_set k 0 acc) keys a)
  = od_keys (fold_left (fun acc k => od_set k 0 acc) keys b).
Proof.
  revert a b. induction keys as [|k keys IH]; intros a b Hab; simpl; [done|].
  apply IH. destruct (decide (k ∈ od_keys a)) as [Hin|Hn].
  - rewrite !od_keys_set_present; [done | by rewrite <- Hab | done].
  - rewrite !od_keys_set_absent; [by rewrite Hab | by rewrite <- Hab | done].
Qed.

Lemma build_block_offsets_ok keys subkeys key1_offsets acc :
  (forall k, k ∈ keys ->
     has_subkey subkeys (split_key k).1 (split_key k).2
     /\ is_Some (od_get (split_key k).1 key1_offsets)) ->
  exists offsets,
    build_block_offsets keys subkeys key1_offsets acc = Ok offsets
    /\ od_keys offsets = od_keys (fold_left (fun acc k => od_set k 0 acc) keys acc).
Proof.
  revert acc. induction keys as [|k keys IH]; intros acc Hall; simpl.
  - eauto.
  - destruct (Hall k) as [(d & Hd & [i Hi]) [o Ho]]; [left|].
    destruct (split_key k) as [key1 key2]. simpl in *.
    rewrite Ho, Hd, Hi.
    destruct (IH (od_set k (o + i) acc)) as (offsets & Hoff & Hkeys).
    { intros k' Hk'. apply Hall. by right. }
    exists offsets. split; [done|]. rewrite Hkeys.
    apply od_keys_fold_ext. destruct (decide (k ∈ od_keys acc)) as [Hin|Hn].
    + by rewrite !od_keys_set_present.
    + by rewrite !od_keys_set_absent.
Qed.

Lemma od_keys_manifest_of names fs :
  length fs = length names -> od_keys (manifest_of names fs) = all_names fs.
Proof.
  revert fs. induction names as [|name names IH]; intros [|f fs]; simpl; try done.
  intros [= Hlen]. rewrite manifest_of_cons, all_names_cons.
  unfold od_keys in *. rewrite map_app, IH by done. f_equal.
  rewrite map_map. simpl. apply map_id.
Qed.

Lemma od_keys_fold_fresh (keys : list skim_key) (acc : list (skim_key * nat)) :
  NoDup keys -> (forall k, k ∈ keys -> k ∉ od_keys acc) ->
  od_keys (fold_left (fun acc k => od_set k 0 acc) keys acc) = od_keys acc ++ keys.
Proof.
  revert acc. induction keys as [|k keys IH]; intros acc Hnd Hfresh; simpl.
  - by rewrite app_nil_r.
  - apply NoDup_cons in Hnd as [Hk Hnd].
    rewrite IH; [| done |].
    + rewrite od_keys_set_absent by (apply Hfresh; left). by rewrite <- app_assoc.
    + intros k' Hk'. rewrite od_keys_set_elem. intros [->|Hin]; [done|].
      eapply Hfresh; [by right | done].
Qed.

Lemma retained_keys_NoDup tags names :
  NoDup names ->
  NoDup (map skim_key_of (filter (fun x => skipped tags x = false) names)).
Proof.
  intros Hnd. apply NoDup_fmap_2; [|by apply NoDup_filter].
  intros a b. apply skim_key_of_inj.
Qed.

(** What [load_skim_info] establishes when it returns, and what each of
    its failures refutes, for source files that all exist. *)
Lemma load_skim_info_spec data tag names periods fs :
  files_of data names = Some fs ->
  match load_skim_info data tag names periods with
  | Ok info =>
      shapes_agree fs /\ NoDup (all_names fs) /\ mappings_agree fs
      /\ skim_tag info = tag /\ omx_file_names info = names
      /\ dtype info = Float32
      /\ omx_shape info = file_shape <$> head fs
      /\ omx_manifest info = manifest_of names fs
      /\ offset_map info = head (all_mappings fs)
      /\ omx_keys info
         = map (fun x => (skim_key_of x, x))
             (filter (fun x => skipped (tags_to_load_of periods) x = false) (all_names fs))
      /\ num_skims info = length (omx_keys info)
      /\ od_keys (block_offsets info) = od_keys (omx_keys info)
      /\ key1_block_offsets info
         = (build_key1_block_offsets (build_key1_subkeys (od_keys (omx_keys info)))).1
      /\ build_block_offsets (od_keys (omx_keys info))
           (build_key1_subkeys (od_keys (omx_keys info))) (key1_block_offsets info) []
         = Ok (block_offsets info)
  | Err e =>
      (e = ShapeMismatch /\ ~ shapes_agree fs)
      \/ ((exists x a b, e = DuplicateSkim x a b) /\ ~ NoDup (all_names fs))
      \/ (e = OffsetMapLength /\ ~ first_mapping_fits fs)
      \/ ((exists a b, e = MultipleMappings a b)
          /\ first_mapping_fits fs /\ ~ mappings_agree fs)
  end.
Proof.
  intros Hfs. unfold load_skim_info.
  pose proof (scan_init_spec data names fs Hfs) as Hscan.
  destruct (scan_files data names scan_init) as [st|e]; simpl; [|done].
  destruct Hscan as (Hshape & Hnd & Hmaps & Hst1 & Hst2 & Hst3).
  rewrite Hst2, od_keys_manifest_of by (by eapply files_of_length).
  rewrite build_omx_keys_spec by done.
  set (keys := map (fun x => (skim_key_of x, x)) _).
  set (subkeys := build_key1_subkeys (od_keys keys)).
  destruct (build_block_offsets_ok (od_keys keys) subkeys
              (build_key1_block_offsets subkeys).1 []) as (offsets & Hoff & Hkeys).
  { intros k Hk. assert (has_subkey subkeys (split_key k).1 (split_key k).2) as Hhas.
    { apply build_key1_subkeys_has. right. exists k. split; [done|].
      by destruct (split_key k). }
    split; [done|]. apply build_key1_block_offsets_acc. right.
    destruct Hhas as (d & -> & _). by eexists. }
  rewrite Hoff. simpl. split_and!; try done.
  rewrite Hkeys, od_keys_fold_fresh; [done | |].
  - unfold keys, od_keys. rewrite map_map. simpl. by apply retained_keys_NoDup.
  - intros k _. apply not_elem_of_nil.
Qed.

Lemma scan_files_exist data names st st' :
  scan_files data names st = Ok st' -> is_Some (files_of data names).
Proof.
  revert st. induction names as [|name names IH]; intros st; simpl; [by eauto|].
  destruct (data !! name) as [f|]; [|done].
  destruct (check_shape (st_shape st) f) as [shape|]; simpl; [|done].
  destruct (scan_matrices name (listMatrices f) (st_manifest st)); simpl; [|done].
  destruct (scan_mappings f (listMappings f) shape (st_offset_map st)
              (st_offset_map_name st)); simpl; [|done].
  intros Hscan. apply IH in Hscan as [fs ->]. by eexists.
Qed.

Lemma load_skim_info_files_exist data tag names periods info :
  load_skim_info data tag names periods = Ok info ->
  exists fs, files_of data names = Some fs.
Proof.
  unfold load_skim_info.
  destruct (scan_files data names scan_init) as [st|] eqn:Hscan; [|done].
  intros _. by apply scan_files_exist in Hscan.
Qed.

(** [load_skim_info] returns as soon as the three checks hold. *)
Lemma load_skim_info_ok data tag names periods fs :
  files_of data names = Some fs ->
  shapes_agree fs -> NoDup (all_names fs) -> mappings_agree fs ->
  exists info, load_skim_info data tag names periods = Ok info.
Proof.
  intros Hfs Hshape Hnd Hmaps.
  pose proof (load_skim_info_spec data tag names periods fs Hfs) as Hspec.
  destruct (load_skim_info data tag names periods) as [info|e]; [by eauto|].
  destruct Hspec as [[_ Hn]|[[_ Hn]|[[_ Hn]|(_ & _ & Hn)]]]; try done.
  exfalso. apply Hn. unfold mappings_agree, first_mapping_fits in *.
  destruct fs; [done|]. by apply maps_ok_first_length.
Qed.

Lemma manifest_of_elem names fs x name :
  (x, name) ∈ manifest_of names fs
  <-> exists i f, names !! i = Some name /\ fs !! i = Some f /\ x ∈ listMatrices f.
Proof.
  revert fs. induction names as [|n names IH]; intros fs.
  - unfold manifest_of. simpl. split.
    + intros Hin. by apply elem_of_nil in Hin.
    + intros (i & f & Hi & _). by rewrite lookup_nil in Hi.
  - destruct fs as [|f fs].
    + unfold manifest_of. simpl. split.
      * intros Hin. by apply elem_of_nil in Hin.
      * intros (i & f & _ & Hi & _). by rewrite lookup_nil in Hi.
    + rewrite manifest_of_cons, elem_of_app, IH, list_elem_of_fmap. split.
      * intros [(y & [= -> ->] & Hy)|(i & f' & Hn & Hf & Hx)].
        -- exists 0, f. done.
        -- exists (S i), f'. done.
      * intros (i & f' & Hn & Hf & Hx). destruct i as [|i]; simpl in *.
        -- injection Hn as ->. injection Hf as ->. left. by exists x.
        -- right. by exists i, f'.
Qed.

(** * The claims *)

(** ** C1: density of the block offsets *)

(** C1, the code at an input where the claim fails: for one source file
    that lists the matrices DIST and DIST__DIST, [load_skim_info]
    returns a catalog of two skims whose block offsets are both 1, so
    the offsets are not the integers 0 .. num_skims - 1. *)
Theorem block_offsets_collide :
  exists info,
    load_skim_info Sample.dist_dist_data "taz" ["skims.omx"] None = Ok info
    /\ num_skims info = 2
    /\ block_offsets info = [(Key1 "DIST", 1); (Key2 "DIST" "DIST", 1)]
    /\ ~ Permutation (od_values (block_offsets info)) (seq 0 (num_skims info)).
Proof.
  eexists. split; [vm_compute; reflexivity|]. simpl.
  split_and!; [done.. |]. intros Hperm.
  apply Permutation_sym in Hperm.
  apply (Permutation_in 0) in Hperm; [|by left].
  destruct Hperm as [?|[?|[]]]; done.
Qed.

(** ** The block layout without colliding keys *)

Lemma add_block_fold subkeys acc offset :
  NoDup (od_keys subkeys) ->
  (forall k, k ∈ od_keys subkeys -> k ∉ od_keys acc) ->
  fold_left add_block subkeys (acc, offset)
  = (acc ++ offsets_from offset subkeys, offset + total_subkeys subkeys).
Proof.
  revert acc offset. induction subkeys as [|[key1 v] rest IH]; intros acc offset Hnd Hfresh.
  - simpl. rewrite app_nil_r. unfold total_subkeys. simpl. f_equal. lia.
  - change (NoDup (key1 :: od_keys rest)) in Hnd.
    apply NoDup_cons in Hnd as [Hkey1 Hnd]. simpl.
    rewrite od_set_absent by (apply od_get_None, Hfresh; left).
    rewrite IH; [|done|].
    + rewrite <- app_assoc. unfold total_subkeys. simpl. f_equal. lia.
    + intros k Hk. unfold od_keys. rewrite map_app, elem_of_app. simpl.
      rewrite list_elem_of_singleton. intros [Hin| ->]; [|done].
      eapply Hfresh; [by right | done].
Qed.

Lemma total_subkeys_set key1 v subkeys :
  total_subkeys (od_set key1 v subkeys) + length (default [] (od_get key1 subkeys))
  = total_subkeys subkeys + length v.
Proof.
  unfold total_subkeys.
  induction subkeys as [|[k d] rest IH]; simpl.
  - lia.
  - destruct (decide (key1 = k)) as [->|Hne]; simpl; lia.
Qed.

Lemma add_subkey_wf subkeys filed k :
  subkeys_wf subkeys filed -> split_key k ∉ filed ->
  subkeys_wf (add_subkey subkeys k) (filed ++ [split_key k]).
Proof.
  intros (Hnd & Hdict & Hsome & Htotal) Hfresh. unfold add_subkey.
  destruct (split_key k) as [key1 key2].
  set (d0 := default [] (od_get key1 subkeys)).
  assert (od_values d0 = seq 0 (length d0)
          /\ forall key2', key2' ∈ od_keys d0 <-> (key1, key2') ∈ filed) as [Hvals Hkeys].
  { unfold d0. destruct (od_get key1 subkeys) as [d|] eqn:Hget; simpl.
    - by apply Hdict.
    - split; [done|]. intros key2'. split.
      + intros Hin. by apply elem_of_nil in Hin.
      + intros Hin. apply Hsome in Hin as [d Hd]. congruence. }
  assert (od_set key2 (length d0) d0 = d0 ++ [(key2, length d0)]) as Hset.
  { apply od_set_absent, od_get_None. by rewrite Hkeys. }
  rewrite Hset. split_and!.
  - by apply od_keys_set_NoDup.
  - intros key1' d. destruct (decide (key1' = key1)) as [->|Hne].
    + rewrite od_get_set_eq. intros [= <-]. split.
      * unfold od_values in *. rewrite map_app, Hvals, length_app. simpl.
        by rewrite Nat.add_1_r, seq_S.
      * intros key2'. unfold od_keys in *. rewrite map_app, !elem_of_app, Hkeys. simpl.
        rewrite !list_elem_of_singleton. split; intros [?|?]; (by left) || right; congruence.
    + rewrite od_get_set_ne by done. intros Hget.
      destruct (Hdict key1' d Hget) as [Hv Hk]. split; [done|].
      intros key2'. rewrite Hk, elem_of_app, list_elem_of_singleton.
      split; [by left | intros [?|[= ? _]]; done].
  - intros k1 k2. rewrite elem_of_app, list_elem_of_singleton.
    intros [Hin|[= -> ->]].
    + destruct (decide (k1 = key1)) as [->|Hne].
      * rewrite od_get_set_eq. by eexists.
      * rewrite od_get_set_ne by done. by eapply Hsome.
    + rewrite od_get_set_eq. by eexists.
  - pose proof (total_subkeys_set key1 (d0 ++ [(key2, length d0)]) subkeys) as Ht.
    fold d0 in Ht. rewrite !length_app in *. simpl in *. lia.
Qed.

Lemma build_key1_subkeys_wf keys subkeys filed :
  subkeys_wf subkeys filed ->
  NoDup (filed ++ map split_key keys) ->
  subkeys_wf (fold_left add_subkey keys subkeys) (filed ++ map split_key keys).
Proof.
  revert subkeys filed. induction keys as [|k keys IH]; intros subkeys filed Hwf Hnd; simpl.
  - by rewrite app_nil_r.
  - simpl in Hnd.
    replace (filed ++ split_key k :: map split_key keys)
      with ((filed ++ [split_key k]) ++ map split_key keys) in *
      by (by rewrite <- app_assoc).
    apply IH; [|done]. apply add_subkey_wf; [done|].
    apply NoDup_app in Hnd as (Hnd & _ & _). apply NoDup_app in Hnd as (_ & Hdisj & _).
    intros Hin. apply (Hdisj _ Hin). left.
Qed.

Lemma subkeys_wf_nil : subkeys_wf [] [].
Proof.
  split_and!; [apply NoDup_nil_2 | done | | done].
  intros key1 key2 Hin. by apply elem_of_nil in Hin.
Qed.

Lemma split_key_inj keys a b :
  no_collision keys -> a ∈ keys -> b ∈ keys -> split_key a = split_key b -> a = b.
Proof.
  intros Hno Ha Hb. destruct a as [x|x1 x2], b as [y|y1 y2]; simpl.
  - by intros [= ->].
  - intros [= -> ->]. exfalso. by apply (Hno y2).
  - intros [= -> ->]. exfalso. by apply (Hno y).
  - by intros [= -> ->].
Qed.

(** the offsets of the keys of a well-formed table, from a start
    offset: they stay within the table and differ for different keys *)
Lemma offsets_from_range subkeys s key1 key2 o d i :
  NoDup (od_keys subkeys) ->
  (forall k v, od_get k subkeys = Some v -> od_values v = seq 0 (length v)) ->
  od_get key1 (offsets_from s subkeys) = Some o ->
  od_get key1 subkeys = Some d -> od_get key2 d = Some i ->
  s <= o + i < s + total_subkeys subkeys.
Proof.
  revert s. induction subkeys as [|[k v] rest IH]; intros s Hnd Hvals; simpl; [done|].
  apply NoDup_cons in Hnd as [Hk Hnd].
  assert (total_subkeys ((k, v) :: rest) = length v + total_subkeys rest) as ->.
  { done. }
  destruct (decide (key1 = k)) as [->|Hne].
  - intros [= <-] [= <-] Hi.
    assert (i ∈ seq 0 (length v)) as Hin.
    { rewrite <- (Hvals k v) by (simpl; by rewrite decide_True).
      apply list_elem_of_fmap. exists (key2, i). split; [done|]. by apply od_get_elem_of. }
    apply elem_of_seq in Hin. lia.
  - intros Ho Hd Hi.
    assert (s + length v <= o + i < s + length v + total_subkeys rest); [|lia].
    apply IH; [done | | done..].
    intros k' v' Hget. apply (Hvals k' v'). simpl. rewrite decide_False; [done|].
    intros ->. apply Hk. by eapply od_get_Some_keys.
Qed.

Lemma od_get_value_inj (d : list (string * nat)) key2 key2' i :
  NoDup (od_values d) -> od_get key2 d = Some i -> od_get key2' d = Some i ->
  key2 = key2'.
Proof.
  intros Hnd H1 H2. apply od_get_elem_of in H1, H2.
  apply list_elem_of_lookup in H1 as [a Ha]. apply list_elem_of_lookup in H2 as [b Hb].
  assert (a = b) as ->.
  { eapply NoDup_lookup; [done | |].
    - unfold od_values. by rewrite list_lookup_fmap, Ha.
    - unfold od_values. by rewrite list_lookup_fmap, Hb. }
  congruence.
Qed.

Lemma offsets_from_inj subkeys s key1 key2 o d i key1' key2' o' d' i' :
  NoDup (od_keys subkeys) ->
  (forall k v, od_get k subkeys = Some v -> od_values v = seq 0 (length v)) ->
  od_get key1 (offsets_from s subkeys) = Some o ->
  od_get key1 subkeys = Some d -> od_get key2 d = Some i ->
  od_get key1' (offsets_from s subkeys) = Some o' ->
  od_get key1' subkeys = Some d' -> od_get key2' d' = Some i' ->
  o + i = o' + i' -> (key1, key2) = (key1', key2').
Proof.
  revert s. induction subkeys as [|[k v] rest IH]; intros s Hnd Hvals; [done|].
  assert (forall k' v', od_get k' rest = Some v' -> od_values v' = seq 0 (length v'))
    as Hvals'.
  { intros k' v' Hget. apply (Hvals k' v'). simpl. rewrite decide_False; [done|].
    intros ->. apply NoDup_cons in Hnd as [Hk _]. apply Hk. by eapply od_get_Some_keys. }
  pose proof Hnd as Hnd0. apply NoDup_cons in Hnd as [Hk Hnd].
  intros Ho Hd Hi Ho' Hd' Hi' Heq.
  pose proof (offsets_from_range _ s _ _ _ _ _ Hnd0 Hvals Ho Hd Hi) as Hr.
  pose proof (offsets_from_range _ s _ _ _ _ _ Hnd0 Hvals Ho' Hd' Hi') as Hr'.
  simpl in Ho, Hd, Ho', Hd'.
  destruct (decide (key1 = k)) as [->|Hne], (decide (key1' = k)) as [->|Hne'].
  - injection Ho as <-. injection Hd as <-. injection Ho' as <-. injection Hd' as <-.
    assert (i = i') as <- by lia. f_equal.
    eapply od_get_value_inj; [|done..].
    rewrite (Hvals k v) by (simpl; by rewrite decide_True). apply NoDup_seq.
  - injection Ho as <-. injection Hd as <-.
    pose proof (offsets_from_range _ _ _ _ _ _ _ Hnd Hvals' Ho' Hd' Hi') as Hr2.
    assert (i ∈ seq 0 (length v)) as Hin.
    { rewrite <- (Hvals k v) by (simpl; by rewrite decide_True).
      apply list_elem_of_fmap. exists (key2, i). split; [done|]. by apply od_get_elem_of. }
    apply elem_of_seq in Hin. lia.
  - injection Ho' as <-. injection Hd' as <-.
    pose proof (offsets_from_range _ _ _ _ _ _ _ Hnd Hvals' Ho Hd Hi) as Hr2.
    assert (i' ∈ seq 0 (length v)) as Hin.
    { rewrite <- (Hvals k v) by (simpl; by rewrite decide_True).
      apply list_elem_of_fmap. exists (key2', i'). split; [done|]. by apply od_get_elem_of. }
    apply elem_of_seq in Hin. lia.
  - by eapply (IH (s + length v)).
Qed.

(** the offsets that [build_block_offsets] stores, for keys that are
    pairwise distinct and new to the accumulator *)
Lemma build_block_offsets_values keys subkeys key1_offsets acc offsets :
  build_block_offsets keys subkeys key1_offsets acc = Ok offsets ->
  NoDup keys -> (forall k, k ∈ keys -> k ∉ od_keys acc) ->
  exists vals,
    offsets = acc ++ zip keys vals
    /\ Forall2 (block_offset_of subkeys key1_offsets) keys vals.
Proof.
  revert acc. induction keys as [|k keys IH]; intros acc; simpl.
  - intros [= <-] _ _. exists []. split; [by rewrite app_nil_r | apply Forall2_nil_2].
  - intros Hbuild Hnd Hfresh. apply NoDup_cons in Hnd as [Hk Hnd].
    destruct (split_key k) as [key1 key2] eqn:Hsplit.
    destruct (od_get key1 key1_offsets) as [o|] eqn:Ho; [|done].
    destruct (od_get key1 subkeys) as [d|] eqn:Hd; [|done].
    destruct (od_get key2 d) as [i|] eqn:Hi; [|done].
    rewrite od_set_absent in Hbuild by (apply od_get_None, Hfresh; left).
    apply IH in Hbuild as (vals & -> & Hall); [|done|].
    + exists (o + i :: vals). split; [by rewrite <- app_assoc|].
      apply Forall2_cons. split; [|done].
      exists o, d, i. rewrite Hsplit. done.
    + intros k' Hk'. unfold od_keys. rewrite map_app, elem_of_app. simpl.
      rewrite list_elem_of_singleton. intros [Hin| ->]; [|done].
      eapply Hfresh; [by right | done].
Qed.

(** X1: density of the block offsets.  In every catalog whose retained
    keys do not pair a scalar key K with the tuple key (K, K), the
    block offsets, one per retained key, are the integers
    0 .. num_skims - 1 in some order. *)
Lemma block_offsets_dense data tag names periods info :
  load_skim_info data tag names periods = Ok info ->
  no_collision (od_keys (omx_keys info)) ->
  od_keys (block_offsets info) = od_keys (omx_keys info)
  /\ NoDup (od_keys (block_offsets info))
  /\ od_values (block_offsets info) ≡ₚ seq 0 (num_skims info).
Proof.
  intros Hload Hno.
  destruct (load_skim_info_files_exist _ _ _ _ _ Hload) as [fs Hfs].
  pose proof (load_skim_info_spec data tag names periods fs Hfs) as Hspec.
  rewrite Hload in Hspec.
  destruct Hspec as (_ & Hnd & _ & _ & _ & _ & _ & _ & _ & Hkeys & Hnum & Hbk & Hk1 & Hbuild).
  set (keys := od_keys (omx_keys info)) in *.
  assert (NoDup keys) as Hndk.
  { unfold keys. rewrite Hkeys. unfold od_keys. rewrite map_map. simpl.
    by apply retained_keys_NoDup. }
  assert (length keys = num_skims info) as Hlen.
  { unfold keys, od_keys. by rewrite length_map. }
  set (subkeys := build_key1_subkeys keys) in *.
  assert (subkeys_wf subkeys (map split_key keys)) as (Hsnd & Hdict & _ & Htotal).
  { apply (build_key1_subkeys_wf keys [] [] subkeys_wf_nil). simpl.
    apply NoDup_fmap_2_strong; [|done]. intros a b. by apply split_key_inj. }
  rewrite length_map in Htotal.
  assert (key1_block_offsets info = offsets_from 0 subkeys) as Hoffsets.
  { rewrite Hk1. unfold build_key1_block_offsets.
    rewrite add_block_fold; [done | done |]. intros k _. apply not_elem_of_nil. }
  rewrite Hoffsets in Hbuild.
  apply build_block_offsets_values in Hbuild as (vals & Hvals & Hall); [|done|].
  2:{ intros k _. apply not_elem_of_nil. }
  simpl in Hvals. pose proof (Forall2_length _ _ _ Hall) as Hlenv.
  assert (od_values (block_offsets info) = vals) as Hv.
  { rewrite Hvals. apply snd_zip. lia. }
  assert (forall k v, od_get k subkeys = Some v -> od_values v = seq 0 (length v))
    as Henum.
  { intros k v Hget. by apply (Hdict k v). }
  split_and!; [done | by rewrite Hbk |].
  rewrite Hv. apply submseteq_length_Permutation.
  - apply NoDup_submseteq.
    + apply NoDup_alt. intros a b x Ha Hb.
      destruct (Forall2_lookup_r _ _ _ _ _ Hall Ha) as (ka & Hka & o & d & i & H1 & H2 & H3 & ->).
      destruct (Forall2_lookup_r _ _ _ _ _ Hall Hb)
        as (kb & Hkb & o' & d' & i' & H1' & H2' & H3' & Heq).
      assert (split_key ka = split_key kb) as Hsplit.
      { pose proof (offsets_from_inj subkeys 0 _ _ _ _ _ _ _ _ _ _
                      Hsnd Henum H1 H2 H3 H1' H2' H3' Heq) as Hpair.
        by destruct (split_key ka), (split_key kb). }
      apply split_key_inj with (keys := keys) in Hsplit;
        [| done | by eapply list_elem_of_lookup_2 | by eapply list_elem_of_lookup_2].
      subst kb. exact (NoDup_lookup keys a b ka Hndk Hka Hkb).
    + intros x Hx. apply list_elem_of_lookup in Hx as [a Ha].
      destruct (Forall2_lookup_r _ _ _ _ _ Hall Ha) as (ka & Hka & o & d & i & H1 & H2 & H3 & ->).
      pose proof (offsets_from_range subkeys 0 _ _ _ _ _ Hsnd Henum H1 H2 H3) as Hr.
      apply elem_of_seq. lia.
  - rewrite length_seq. lia.
Qed.

(** ** C10: the element type of a catalog *)

(** C10: every catalog that [load_skim_info] returns has element type
    float32, whatever the element types of the matrices in the source
    files; the type code selection of [allocate_skim_buffer] then takes
    the float32 branch, the call never raises the unrecognized-dtype
    error, and with a known matrix shape the shared allocation returns
    a RawArray of type code 'f'. *)
Theorem catalog_dtype_float32 data tag names periods info :
  load_skim_info data tag names periods = Ok info ->
  dtype info = Float32
  /\ select_typecode (dtype info) = Ok "f"
  /\ (forall shared d, allocate_skim_buffer info shared <> Err (UnrecognizedDtype d))
  /\ (forall rows cols,
        omx_shape info = Some (rows, cols) ->
        allocate_skim_buffer info true
        = Ok (RawArray "f" (repeat Byte.x00 (rows * cols * num_skims info * 4)))).
Proof.
  intros Hload.
  assert (dtype info = Float32) as Hdtype.
  { unfold load_skim_info in Hload.
    destruct (scan_files data names scan_init); simpl in Hload; [|done].
    destruct (build_block_offsets _ _ _ _); simpl in Hload; [|done].
    by injection Hload as <-. }
  split_and!; [done | by rewrite Hdtype | |].
  - intros shared d. unfold allocate_skim_buffer. rewrite Hdtype.
    destruct (omx_shape info) as [[rows cols]|]; simpl; [|done].
    by destruct shared.
  - intros rows cols Hshape. unfold allocate_skim_buffer. by rewrite Hshape, Hdtype.
Qed.

Lemma catalog_dtype_float32_witness :
  exists info,
    load_skim_info Sample.data "taz" ["dist.omx"; "time.omx"] Sample.am_pm = Ok info
    /\ dtype info = Float32
    /\ allocate_skim_buffer info true = Ok (RawArray "f" (repeat Byte.x00 48)).
Proof.
  eexists. split; [vm_compute; reflexivity|].
  pose proof (catalog_dtype_float32 Sample.data "taz" ["dist.omx"; "time.omx"]
                Sample.am_pm _ eq_refl) as (H1 & _ & _ & H4).
  split; [exact H1|]. exact (H4 2 2 eq_refl).
Defined.

(** ** C4: which matrices are retained *)

Lemma skipped_false tags x :
  skipped tags x = false
  <-> match tags with
      | Some (l0 :: l) =>
          period_of x = None \/ exists q, period_of x = Some q /\ q ∈ l0 :: l
      | _ => True
      end.
Proof.
  rewrite <- not_true_iff_false, skipped_spec.
  destruct tags as [[|l0 l]|]; simpl.
  - split; [done|]. intros _ [? _]. done.
  - split.
    + intros Hn. destruct (period_of x) as [q|]; [|by left]. right.
      exists q. split; [done|].
      destruct (decide (q ∈ l0 :: l)) as [|Hq]; [done|]. exfalso. apply Hn.
      split; [done|]. exists q. split; [done|]. by apply bool_decide_eq_false.
    + intros [Hnone|(q & Hq & Hin)] [_ (p & Hp & Hc)].
      * congruence.
      * rewrite Hq in Hp. injection Hp as <-.
        by apply bool_decide_eq_false in Hc.
  - split; [done|]. intros _ [? _]. done.
Qed.

(** C4 (as amended): when a non-empty list of period labels is
    configured, [load_skim_info] retains a matrix name exactly if it has
    no separator or its period label is in the list; when no time
    periods are configured or the list of labels is empty, every matrix
    name is retained.  Every retained key is the key of a matrix of the
    manifest.  For the two files contributing DIST, TIME__AM and
    TIME__PM with the labels AM and PM, the block offsets are DIST: 0,
    (TIME, AM): 1, (TIME, PM): 2 and num_skims is 3. *)
Theorem retention_by_period :
  (forall data tag names periods info,
     load_skim_info data tag names periods = Ok info ->
     (forall x, x ∈ od_keys (omx_manifest info) ->
        (skim_key_of x, x) ∈ omx_keys info
        <-> match periods with
            | Some p =>
                labels p = [] \/ period_of x = None
                \/ exists q, period_of x = Some q /\ q ∈ labels p
            | None => True
            end)
     /\ (forall k x, (k, x) ∈ omx_keys info ->
           x ∈ od_keys (omx_manifest info) /\ k = skim_key_of x))
  /\ (exists info,
        load_skim_info Sample.data "taz" ["dist.omx"; "time.omx"] Sample.am_pm = Ok info
        /\ block_offsets info
           = [(Key1 "DIST", 0); (Key2 "TIME" "AM", 1); (Key2 "TIME" "PM", 2)]
        /\ num_skims info = 3).
Proof.
  split; [|eexists; split; [vm_compute; reflexivity | done]].
  intros data tag names periods info Hload.
  destruct (load_skim_info_files_exist _ _ _ _ _ Hload) as [fs Hfs].
  pose proof (load_skim_info_spec data tag names periods fs Hfs) as Hspec.
  rewrite Hload in Hspec.
  destruct Hspec as (_ & Hnd & _ & _ & _ & _ & _ & Hman & _ & Hkeys & _).
  rewrite Hman, od_keys_manifest_of, Hkeys by (by eapply files_of_length).
  split.
  - intros x Hx. rewrite list_elem_of_fmap. split.
    + intros (y & [= Hk ->] & Hy). apply list_elem_of_filter in Hy as [Hskip _].
      apply skipped_false in Hskip.
      destruct periods as [[l]|]; simpl in *; [|done].
      destruct l; [by left | by right].
    + intros Hret. exists x. split; [done|]. apply list_elem_of_filter.
      split; [|done]. apply skipped_false.
      destruct periods as [[l]|]; simpl in *; [|done].
      destruct l as [|l0 l]; [done|]. destruct Hret as [?|?]; done.
  - intros k x Hin. apply list_elem_of_fmap in Hin as (y & [= -> ->] & Hy).
    apply list_elem_of_filter in Hy as [_ Hy]. done.
Qed.

Lemma retention_by_period_witness :
  exists info,
    load_skim_info Sample.data "taz" ["dist.omx"; "time.omx"]
      (Some {| labels := ["AM"] |}) = Ok info
    /\ (skim_key_of "TIME__AM", "TIME__AM") ∈ omx_keys info
    /\ (skim_key_of "TIME__PM", "TIME__PM") ∉ omx_keys info.
Proof.
  eexists. split; [vm_compute; reflexivity|].
  pose proof (proj1 retention_by_period Sample.data "taz" ["dist.omx"; "time.omx"]
                (Some {| labels := ["AM"] |}) _ eq_refl) as [Hret _].
  split.
  - apply Hret; [vm_compute; right; left|]. right. right. exists "AM".
    split; [reflexivity | left].
  - intros Hin. apply Hret in Hin; [|vm_compute; right; right; left].
    destruct Hin as [Hl|[Hp|(q & Hq & Hin)]]; [done | done |].
    vm_compute in Hq. injection Hq as <-.
    apply list_elem_of_singleton in Hin. done.
Defined.

(** C4 as stated fails: with an empty list of labels configured,
    TIME__AM is retained although its period label is not in the list. *)
Lemma retention_with_empty_label_list : ~ retention_filters_with_any_label_set.
Proof.
  intros Hclaim.
  assert (exists info,
    load_skim_info Sample.data "taz" ["dist.omx"; "time.omx"] Sample.no_labels = Ok info
    /\ (skim_key_of "TIME__AM", "TIME__AM") ∈ omx_keys info
    /\ "TIME__AM" ∈ od_keys (omx_manifest info)) as (info & Hload & Hin & Hman).
  { eexists. split; [vm_compute; reflexivity|].
    split; vm_compute; right; left. }
  apply (Hclaim _ _ _ _ _ Hload _ Hman) in Hin.
  destruct Hin as [Hp|(q & Hq & Hin)]; [done|]. simpl in Hin.
  by apply elem_of_nil in Hin.
Qed.

(** ** C6: duplicate matrix names *)

(** C6 (as amended): for source files that all exist, the
    duplicate-skim error implies that some matrix name occurs more than
    once across the files; a name that occurs more than once makes
    [load_skim_info] fail, with the duplicate-skim error unless the
    shape check or a mapping check stops the load, and hence with the
    duplicate-skim error whenever the shapes and the mappings agree;
    when all names are distinct and the shapes and mappings agree, the
    load returns and the manifest maps every matrix name to the file
    that contributed it. *)
Theorem duplicate_skim_detection data tag names periods fs :
  files_of data names = Some fs ->
  ((exists x a b, load_skim_info data tag names periods = Err (DuplicateSkim x a b)) ->
   ~ NoDup (all_names fs))
  /\ (~ NoDup (all_names fs) ->
      exists e, load_skim_info data tag names periods = Err e
        /\ ((exists x a b, e = DuplicateSkim x a b)
            \/ (e = ShapeMismatch /\ ~ shapes_agree fs)
            \/ (e = OffsetMapLength /\ ~ first_mapping_fits fs)
            \/ ((exists a b, e = MultipleMappings a b) /\ ~ mappings_agree fs)))
  /\ (shapes_agree fs -> mappings_agree fs -> ~ NoDup (all_names fs) ->
      exists x a b, load_skim_info data tag names periods = Err (DuplicateSkim x a b))
  /\ (shapes_agree fs -> mappings_agree fs -> NoDup (all_names fs) ->
      exists info,
        load_skim_info data tag names periods = Ok info
        /\ omx_manifest info = manifest_of names fs
        /\ od_keys (omx_manifest info) = all_names fs
        /\ forall i name f x,
             names !! i = Some name -> fs !! i = Some f -> x ∈ listMatrices f ->
             od_get x (omx_manifest info) = Some name).
Proof.
  intros Hfs.
  pose proof (load_skim_info_spec data tag names periods fs Hfs) as Hspec.
  assert (~ NoDup (all_names fs) ->
      exists e, load_skim_info data tag names periods = Err e
        /\ ((exists x a b, e = DuplicateSkim x a b)
            \/ (e = ShapeMismatch /\ ~ shapes_agree fs)
            \/ (e = OffsetMapLength /\ ~ first_mapping_fits fs)
            \/ ((exists a b, e = MultipleMappings a b) /\ ~ mappings_agree fs)))
    as Hfail.
  { intros Hdup. destruct (load_skim_info data tag names periods) as [info|e].
    - destruct Hspec as (_ & Hnd & _). done.
    - exists e. split; [done|].
      destruct Hspec as [?|[[? _]|[?|(? & _ & ?)]]]; eauto. }
  split_and!.
  - intros (x & a & b & Hload). rewrite Hload in Hspec.
    destruct Hspec as [[? _]|[[_ ?]|[[? _]|[(? & ? & ?) _]]]]; done.
  - done.
  - intros Hshape Hmaps Hdup. destruct (Hfail Hdup) as (e & -> & He).
    destruct He as [(x & a & b & ->)|[[_ ?]|[[_ Hn]|[_ ?]]]]; [by eauto | done | | done].
    exfalso. apply Hn. unfold mappings_agree, first_mapping_fits in *.
    destruct fs; [done|]. by apply maps_ok_first_length.
  - intros Hshape Hmaps Hnd.
    destruct (load_skim_info_ok data tag names periods fs) as [info Hload]; [done.. |].
    rewrite Hload in Hspec. exists info.
    destruct Hspec as (_ & _ & _ & _ & _ & _ & _ & Hman & _).
    assert (od_keys (omx_manifest info) = all_names fs) as Hkeys.
    { rewrite Hman. apply od_keys_manifest_of. by eapply files_of_length. }
    split_and!; [done.. |].
    intros i name f x Hi Hf Hx. apply od_get_NoDup; [by rewrite Hkeys|].
    rewrite Hman. apply manifest_of_elem. eauto.
Qed.

Lemma duplicate_skim_detection_witness :
  load_skim_info Sample.repeated_data "taz" ["dist.omx"; "again.omx"] None
  = Err (DuplicateSkim "DIST" "dist.omx" "again.omx")
  /\ ~ NoDup (all_names [Sample.dist_file; Sample.dist_file]).
Proof.
  split; [vm_compute; reflexivity|].
  apply (proj1 (duplicate_skim_detection Sample.repeated_data "taz"
                  ["dist.omx"; "again.omx"] None
                  [Sample.dist_file; Sample.dist_file] eq_refl)).
  do 3 eexists. vm_compute. reflexivity.
Defined.

(** C6 as stated fails: DIST occurs in two files, yet the load stops at
    the shape check of the second file and the duplicate-skim error is
    not raised. *)
Lemma duplicate_hidden_by_shape_mismatch : ~ duplicate_error_iff_repeated_name.
Proof.
  intros Hclaim.
  destruct (Hclaim Sample.other_shape_data "taz" ["dist.omx"; "dist3.omx"] None
              [Sample.dist_file; Sample.other_shape_file] eq_refl) as [_ Hdup].
  destruct Hdup as (x & a & b & Hload).
  - vm_compute. intros Hnd. apply NoDup_cons in Hnd as [Hn _].
    apply Hn. left.
  - vm_compute in Hload. done.
Qed.

(** ** C7: the offset mapping *)

(** C7: for source files that all exist, a catalog returned by
    [load_skim_info] carries no offset map when no file provides a
    mapping, and otherwise the first mapping encountered, which has one
    entry per matrix row and which every later mapping equals; the load
    returns whenever that holds (and shapes and names pass their
    checks); a later mapping with different entries makes the load
    fail, with the multiple-mappings error when everything else passes;
    a first mapping of another length makes it fail. *)
Theorem offset_map_single data tag names periods fs :
  files_of data names = Some fs ->
  (forall info,
     load_skim_info data tag names periods = Ok info ->
     match all_mappings fs with
     | [] => offset_map info = None
     | m :: rest =>
         offset_map info = Some m
         /\ (exists s, omx_shape info = Some s /\ length m = s.1)
         /\ Forall (fun m' => m' = m) rest
     end)
  /\ (shapes_agree fs -> NoDup (all_names fs) -> mappings_agree fs ->
      exists info, load_skim_info data tag names periods = Ok info)
  /\ (~ mappings_agree fs ->
      exists e, load_skim_info data tag names periods = Err e)
  /\ (shapes_agree fs -> NoDup (all_names fs) ->
      first_mapping_fits fs -> ~ mappings_agree fs ->
      exists a b, load_skim_info data tag names periods = Err (MultipleMappings a b))
  /\ (shapes_agree fs -> NoDup (all_names fs) -> ~ first_mapping_fits fs ->
      load_skim_info data tag names periods = Err OffsetMapLength).
Proof.
  intros Hfs.
  pose proof (load_skim_info_spec data tag names periods fs Hfs) as Hspec.
  split_and!.
  - intros info Hload. rewrite Hload in Hspec.
    destruct Hspec as (_ & _ & Hmaps & _ & _ & _ & Hshape & _ & Hom & _).
    rewrite Hom. unfold mappings_agree in Hmaps.
    destruct fs as [|f fs]; [done|]. simpl in Hmaps.
    destruct (all_mappings (f :: fs)) as [|m rest]; [done|].
    destruct Hmaps as [Hlen Hall]. split_and!; [done | | done].
    exists (file_shape f). by rewrite Hshape.
  - by apply load_skim_info_ok.
  - intros Hn. destruct (load_skim_info data tag names periods) as [info|e]; [|by eauto].
    destruct Hspec as (_ & _ & ? & _). done.
  - intros Hshape Hnd Hfits Hn.
    destruct (load_skim_info data tag names periods) as [info|e].
    + destruct Hspec as (_ & _ & ? & _). done.
    + destruct Hspec as [[_ ?]|[[_ ?]|[[_ ?]|[(a & b & ->) _]]]]; [done.. |]. eauto.
  - intros Hshape Hnd Hn.
    destruct (load_skim_info data tag names periods) as [info|e].
    + destruct Hspec as (_ & _ & Hmaps & _). exfalso. apply Hn.
      unfold mappings_agree, first_mapping_fits in *.
      destruct fs; [done|]. by apply maps_ok_first_length.
    + destruct Hspec as [[_ ?]|[[_ ?]|[[-> _]|(_ & ? & _)]]]; done.
Qed.

Lemma offset_map_single_witness :
  exists info,
    load_skim_info Sample.data "taz" ["dist.omx"; "time.omx"] None = Ok info
    /\ offset_map info = Some [1; 2]%Z.
Proof.
  eexists. split; [vm_compute; reflexivity|].
  pose proof (proj1 (offset_map_single Sample.data "taz" ["dist.omx"; "time.omx"] None
                       [Sample.dist_file; Sample.time_file] eq_refl) _ eq_refl) as Hmap.
  exact (proj1 Hmap).
Defined.

(** ** C9: the attribute [tables] *)

Section keeps_facts.
Context {skim_dict : Type}.
Variable P : gmap string (pyval skim_dict) -> Prop.

Lemma keeps_ret {A} (a : A) : keeps P (ret a).
Proof. by intros self. Qed.

Lemma keeps_raise {A} e : keeps P (raise (A:=A) e).
Proof. by intros self. Qed.

Lemma keeps_lift {A} (r : result A) : keeps P (lift r).
Proof. by intros self. Qed.

Lemma keeps_getattr name : keeps P (getattr name).
Proof. by intros self. Qed.

Lemma keeps_bind {A B} (c : M skim_dict A) (k : A -> M skim_dict B) :
  keeps P c -> (forall a, keeps P (k a)) -> keeps P (mbind c k).
Proof.
  intros Hc Hk self HP. unfold mbind. specialize (Hc self HP).
  destruct (c self) as [self' [a|e]]; simpl in *; [by apply Hk | done].
Qed.
End keeps_facts.

Lemma keeps_setattr {skim_dict} name (v : pyval skim_dict) :
  name ≠ "tables" -> keeps no_tables (setattr name v).
Proof.
  intros Hne self Hself. unfold no_tables, setattr. simpl.
  by rewrite lookup_insert_ne.
Qed.

(** one step of a proof that a method assigns no attribute [tables] *)
Ltac keeps_step :=
  first
    [ apply keeps_ret
    | apply keeps_raise
    | apply keeps_lift
    | apply keeps_getattr
    | apply keeps_setattr; discriminate
    | apply keeps_bind; [|intros ?]
    | match goal with
      | |- keeps _ (match ?x with _ => _ end) => destruct x
      | |- keeps _ (if ?b then _ else _) => destruct b
      end ].

Section no_tables_facts.
Context {skim_dict : Type}.
Variable create_skim_dict : string -> skim_info -> result skim_dict.
Variable load_skims : skim_info -> skim_buffer -> result unit.
Abbreviation keeps_none := (keeps (skim_dict:=skim_dict) no_tables).

Lemma keeps_get_skim_info : keeps_none get_skim_info.
Proof. unfold get_skim_info. repeat keeps_step. Qed.

Lemma keeps_get_table_info : keeps_none get_table_info.
Proof. unfold get_table_info. repeat keeps_step. Qed.

Lemma keeps_get_skim_dicts : keeps_none get_skim_dicts.
Proof. unfold get_skim_dicts. repeat keeps_step. Qed.

Lemma keeps_get_skim_buffers : keeps_none get_skim_buffers.
Proof. unfold get_skim_buffers. repeat keeps_step. Qed.

Lemma keeps_load_skim_info_method cfg tag file_names :
  keeps_none (load_skim_info_method cfg tag file_names).
Proof.
  unfold load_skim_info_method.
  apply keeps_bind; [apply keeps_get_skim_info | intros ?]. repeat keeps_step.
Qed.

Lemma keeps_load_all_skim_info cfg items : keeps_none (load_all_skim_info cfg items).
Proof.
  induction items as [|[tag file_names] items IH]; simpl; [apply keeps_ret|].
  apply keeps_bind; [apply keeps_load_skim_info_method | intros ?].
  apply keeps_bind; [apply keeps_get_skim_info | intros ?].
  apply keeps_bind; [apply keeps_setattr; discriminate | intros ?]. done.
Qed.

Lemma keeps_check_required_tables names : keeps_none (check_required_tables names).
Proof.
  induction names as [|name names IH]; simpl; [apply keeps_ret|].
  apply keeps_bind; [apply keeps_get_table_info | intros table_info].
  destruct (table_info !! name); [done | apply keeps_raise].
Qed.

Lemma keeps_read_los_settings cfg : keeps_none (read_los_settings cfg).
Proof.
  unfold read_los_settings. destruct (network_los cfg) as [los|]; [|apply keeps_raise].
  apply keeps_bind; [apply keeps_setattr; discriminate | intros ?].
  apply keeps_bind; [apply keeps_getattr | intros zs].
  destruct (negb _); [apply keeps_raise|].
  destruct (skims los) as [skim_file_names|]; [|apply keeps_raise].
  apply keeps_bind; [apply keeps_load_all_skim_info | intros ?].
  apply keeps_bind; [apply keeps_get_skim_info | intros infos].
  destruct (negb _); [apply keeps_raise|].
  apply keeps_bind; [apply keeps_getattr | intros zs'].
  apply keeps_bind; [|intros ?; apply keeps_setattr; discriminate].
  destruct (val_in _ _); [|apply keeps_ret].
  apply keeps_bind; [apply keeps_setattr; discriminate | intros ?].
  apply keeps_check_required_tables.
Qed.

Lemma keeps_init cfg : keeps_none (__init__ cfg).
Proof.
  unfold __init__.
  repeat (apply keeps_bind; [apply keeps_setattr; discriminate | intros ?]).
  apply keeps_read_los_settings.
Qed.

Lemma keeps_load_maz_to_maz cfg file_names : keeps_none (load_maz_to_maz cfg file_names).
Proof.
  induction file_names as [|file_name file_names IH]; simpl; [apply keeps_ret|].
  apply keeps_bind; [apply keeps_lift | intros df].
  apply keeps_bind; [apply keeps_getattr | intros cardinality].
  apply keeps_bind; [destruct cardinality; repeat keeps_step | intros c].
  apply keeps_bind; [apply keeps_lift | intros df'].
  apply keeps_bind; [apply keeps_getattr | intros cur].
  apply keeps_bind; [|intros ?; apply IH].
  destruct cur; repeat keeps_step.
Qed.

Lemma keeps_load_all_tables cfg : keeps_none (load_all_tables cfg).
Proof.
  unfold load_all_tables.
  apply keeps_bind; [apply keeps_getattr | intros zs].
  destruct (val_in _ _); [|apply keeps_ret].
  apply keeps_bind; [apply keeps_get_table_info | intros table_info].
  destruct (table_info !! "maz_to_taz") as [[file_name|]|]; try apply keeps_raise.
  apply keeps_bind; [apply keeps_lift | intros df].
  apply keeps_bind; [apply keeps_setattr; discriminate | intros ?].
  apply keeps_bind; [apply keeps_lift | intros maz].
  apply keeps_bind; [apply keeps_setattr; discriminate | intros ?].
  apply keeps_bind; [apply keeps_get_table_info | intros table_info'].
  destruct (table_info' !! "maz_to_maz"); [apply keeps_load_maz_to_maz | apply keeps_raise].
Qed.

Lemma keeps_create_skim_dict_method tag :
  keeps_none (create_skim_dict_method create_skim_dict tag).
Proof.
  unfold create_skim_dict_method.
  apply keeps_bind; [apply keeps_get_skim_info | intros infos]. repeat keeps_step.
Qed.

Lemma keeps_load_skim_dicts tags : keeps_none (load_skim_dicts create_skim_dict tags).
Proof.
  induction tags as [|tag tags IH]; simpl; [apply keeps_ret|].
  apply keeps_bind; [apply keeps_create_skim_dict_method | intros sd].
  apply keeps_bind; [apply keeps_get_skim_dicts | intros dicts].
  apply keeps_bind; [apply keeps_setattr; discriminate | intros ?]. done.
Qed.

Lemma keeps_load_all_skims : keeps_none (load_all_skims create_skim_dict).
Proof.
  unfold load_all_skims.
  apply keeps_bind; [apply keeps_get_skim_info | intros infos].
  apply keeps_load_skim_dicts.
Qed.

Lemma keeps_load_shared_buffers bufs tags :
  keeps_none (load_shared_buffers load_skims bufs tags).
Proof.
  induction tags as [|tag tags IH]; simpl; [apply keeps_ret|].
  apply keeps_bind; [apply keeps_get_skim_info | intros infos].
  destruct (od_get tag infos); [|apply keeps_raise].
  destruct (od_get tag bufs); [|apply keeps_raise].
  apply keeps_bind; [apply keeps_lift | intros ?]. done.
Qed.

Lemma keeps_load_shared_data bufs : keeps_none (load_shared_data load_skims bufs).
Proof.
  unfold load_shared_data.
  apply keeps_bind; [apply keeps_get_skim_info | intros infos].
  apply keeps_load_shared_buffers.
Qed.

Lemma keeps_allocate_buffers tags : keeps_none (allocate_buffers tags).
Proof.
  induction tags as [|tag tags IH]; simpl; [apply keeps_ret|].
  apply keeps_bind; [apply keeps_get_skim_info | intros infos].
  destruct (od_get tag infos); [|apply keeps_raise].
  apply keeps_bind; [apply keeps_lift | intros buffer].
  apply keeps_bind; [apply keeps_get_skim_buffers | intros buffers].
  apply keeps_bind; [apply keeps_setattr; discriminate | intros ?]. done.
Qed.

Lemma keeps_allocate_shared_skim_buffers : keeps_none allocate_shared_skim_buffers.
Proof.
  unfold allocate_shared_skim_buffers.
  apply keeps_bind; [apply keeps_get_skim_buffers | intros buffers].
  destruct buffers; [|apply keeps_raise].
  apply keeps_bind; [apply keeps_get_skim_info | intros infos].
  apply keeps_bind; [apply keeps_allocate_buffers | intros ?].
  apply keeps_get_skim_buffers.
Qed.

Lemma keeps_get_skim_dict tag : keeps_none (get_skim_dict tag).
Proof.
  unfold get_skim_dict.
  apply keeps_bind; [apply keeps_get_skim_dicts | intros dicts]. repeat keeps_step.
Qed.

Lemma keeps_get_table table_name : keeps_none (get_table table_name).
Proof. unfold get_table. repeat keeps_step. Qed.

Lemma keeps_get_mazpairs omaz dmaz attribute :
  keeps_none (get_mazpairs omaz dmaz attribute).
Proof. unfold get_mazpairs. repeat keeps_step. Qed.

(** No object that the constructor and the methods produce has an
    attribute [tables]. *)
Lemma reachable_no_tables cfg self :
  reachable create_skim_dict load_skims cfg self -> no_tables self.
Proof.
  induction 1 as [self Hnew|self c Hreach IH].
  - unfold Network_LOS in Hnew.
    pose proof (keeps_init cfg ∅ (lookup_empty _)) as Hinit.
    destruct (__init__ cfg ∅) as [self' [[]|e]]; [|done].
    by injection Hnew as <-.
  - destruct c; simpl.
    + by apply keeps_read_los_settings.
    + by apply keeps_load_all_tables.
    + by apply keeps_load_skim_info_method.
    + by apply keeps_create_skim_dict_method.
    + by apply keeps_load_all_skims.
    + by apply keeps_load_shared_data.
    + by apply keeps_allocate_shared_skim_buffers.
    + by apply keeps_get_skim_dict.
    + by apply keeps_get_table.
    + by apply keeps_get_mazpairs.
Qed.
End no_tables_facts.

(** C9: on every object that the constructor and the methods of
    Network_LOS can produce, [get_table] raises for every table name:
    the attribute [tables] that it reads is never assigned, so the
    call ends in an AttributeError and returns no table. *)
Theorem get_table_always_fails {skim_dict}
    (create_skim_dict : string -> skim_info -> result skim_dict)
    (load_skims : skim_info -> skim_buffer -> result unit)
    cfg self table_name :
  reachable create_skim_dict load_skims cfg self ->
  get_table table_name self = (self, Err (AttributeError "tables")).
Proof.
  intros Hreach. apply reachable_no_tables in Hreach.
  unfold get_table, mbind, getattr. by rewrite Hreach.
Qed.

Lemma get_table_always_fails_witness :
  exists self : gmap string (pyval unit),
    Network_LOS (SampleConfig.with_settings SampleConfig.one_zone) = Ok self
    /\ get_table "maz_to_maz" self = (self, Err (AttributeError "tables")).
Proof.
  eexists. split; [vm_compute; reflexivity|].
  apply (get_table_always_fails SampleConfig.no_skim_dict SampleConfig.no_load
           (SampleConfig.with_settings SampleConfig.one_zone)).
  apply reach_new. vm_compute. reflexivity.
Defined.

(** ** C5: the zone system *)

Lemma scan_files_errors data names st e :
  scan_files data names st = Err e -> catalog_error e.
Proof.
  revert st. induction names as [|name names IH]; intros st; simpl; [done|].
  destruct (data !! name) as [f|]; [|by intros [= <-]].
  unfold check_shape.
  destruct (st_shape st) as [s|]; simpl.
  1: destruct (decide (s = file_shape f)); simpl; [|by intros [= <-]].
  all: match goal with
       | |- context [scan_matrices ?a ?b ?c] =>
           pose proof (scan_matrices_spec a b c) as Hmat;
           destruct (scan_matrices a b c); simpl;
           [|destruct Hmat as [(? & ? & ->) _]; by intros [= <-]]
       end.
  all: match goal with
       | |- context [scan_mappings ?a ?b ?c ?d ?e] =>
           pose proof (scan_mappings_spec a b c d e) as Hmap;
           destruct (scan_mappings a b c d e); simpl;
           [apply IH
           |destruct Hmap as [[-> _]|[(? & ? & ->) _]]; by intros [= <-]]
       end.
Qed.

Lemma build_block_offsets_errors keys subkeys key1_offsets acc e :
  build_block_offsets keys subkeys key1_offsets acc = Err e -> catalog_error e.
Proof.
  revert acc. induction keys as [|k keys IH]; intros acc; simpl; [done|].
  destruct (split_key k) as [key1 key2].
  destruct (od_get key1 key1_offsets); [|by intros [= <-]].
  destruct (od_get key1 subkeys) as [d|]; [|by intros [= <-]].
  destruct (od_get key2 d); [apply IH | by intros [= <-]].
Qed.

Lemma load_skim_info_errors data tag names periods e :
  load_skim_info data tag names periods = Err e -> catalog_error e.
Proof.
  unfold load_skim_info.
  destruct (scan_files data names scan_init) as [st|e'] eqn:Hscan; simpl.
  - destruct (build_block_offsets _ _ _ _) eqn:Hoff; simpl; [done|].
    intros [= <-]. by eapply build_block_offsets_errors.
  - intros [= <-]. by eapply scan_files_errors.
Qed.

Section raises_only_facts.
Context {skim_dict : Type}.
Variable Q : error -> Prop.

Lemma raises_only_ret {A} (a : A) : raises_only (skim_dict:=skim_dict) Q (ret a).
Proof. by intros self e. Qed.

Lemma raises_only_raise {A} e : Q e -> raises_only (skim_dict:=skim_dict) Q (raise (A:=A) e).
Proof. intros He self e' [= <-]. done. Qed.

Lemma raises_only_lift {A} (r : result A) :
  (forall e, r = Err e -> Q e) -> raises_only (skim_dict:=skim_dict) Q (lift r).
Proof. intros Hr self e He. by apply Hr. Qed.

Lemma raises_only_getattr name :
  Q (AttributeError name) -> raises_only (skim_dict:=skim_dict) Q (getattr name).
Proof.
  intros HQ self e. unfold getattr. simpl.
  destruct (self !! name); [done|]. by intros [= <-].
Qed.

Lemma raises_only_setattr name (v : pyval skim_dict) : raises_only Q (setattr name v).
Proof. by intros self e. Qed.

Lemma raises_only_bind {A B} (c : M skim_dict A) (k : A -> M skim_dict B) :
  raises_only Q c -> (forall a, raises_only Q (k a)) -> raises_only Q (mbind c k).
Proof.
  intros Hc Hk self e. unfold mbind. specialize (Hc self).
  destruct (c self) as [self' [a|e']]; simpl in *.
  - apply Hk.
  - intros [= <-]. by apply Hc.
Qed.
End raises_only_facts.

(** one step of a proof that a method raises only later errors *)
Ltac later_step :=
  first
    [ apply raises_only_ret
    | apply raises_only_setattr
    | apply raises_only_raise; exact I
    | apply raises_only_getattr; exact I
    | apply raises_only_bind; [|intros ?]
    | match goal with
      | |- raises_only _ (match ?x with _ => _ end) => destruct x
      | |- raises_only _ (if ?b then _ else _) => destruct b
      end ].

Lemma later_catalog_error e : catalog_error e -> later_error e.
Proof. by destruct e. Qed.

Lemma later_load_all_skim_info {skim_dict} cfg items :
  raises_only (skim_dict:=skim_dict) later_error (load_all_skim_info cfg items).
Proof.
  induction items as [|[tag file_names] items IH]; simpl; [apply raises_only_ret|].
  apply raises_only_bind; [|intros info; unfold get_skim_info; repeat later_step; done].
  unfold load_skim_info_method, get_skim_info.
  repeat later_step;
    apply raises_only_lift; intros e He;
    by apply load_skim_info_errors, later_catalog_error in He.
Qed.

Lemma later_check_required_tables {skim_dict} names :
  raises_only (skim_dict:=skim_dict) later_error (check_required_tables names).
Proof.
  induction names as [|name names IH]; simpl; [apply raises_only_ret|].
  unfold get_table_info. apply raises_only_bind; [repeat later_step | intros table_info].
  destruct (table_info !! name); [done | by apply raises_only_raise].
Qed.

(** C5 (as amended): when the network_los settings are present,
    [read_los_settings] fails its zone-system validation (the
    "unrecognized zone_system" assertion) if and only if zone_system is
    neither 1 (ONE_ZONE) nor 2 (TWO_ZONE); the value 3 (THREE_ZONE) is
    rejected like every other value. *)
Theorem zone_system_validation {skim_dict} cfg los
    (self : gmap string (pyval skim_dict)) :
  network_los cfg = Some los ->
  (read_los_settings cfg self).2 = Err UnrecognizedZoneSystem
  <-> (zone_system los ≠ Some ONE_ZONE /\ zone_system los ≠ Some TWO_ZONE).
Proof.
  intros Hlos. unfold read_los_settings. rewrite Hlos.
  unfold mbind at 1. unfold setattr at 1.
  unfold mbind at 1. unfold getattr at 1. rewrite lookup_insert_eq.
  destruct (val_in (int_val (zone_system los)) [ONE_ZONE; TWO_ZONE]) eqn:Hin; simpl.
  - split.
    + intros Herr. exfalso. revert Herr.
      match goal with
      | |- (?m ?s).2 = _ -> _ =>
          assert (raises_only later_error m) as Hlater; [|by intros ?%Hlater]
      end.
      destruct (skims los); [|by apply raises_only_raise].
      apply raises_only_bind; [apply later_load_all_skim_info | intros ?].
      unfold get_skim_info, get_table_info. repeat later_step.
    + intros [H1 H2]. destruct (zone_system los) as [z|]; simpl in Hin; [|done].
      apply bool_decide_eq_true in Hin.
      apply elem_of_cons in Hin as [->|Hin]; [done|].
      apply list_elem_of_singleton in Hin as ->. done.
  - split; [|done]. intros _.
    destruct (zone_system los) as [z|]; simpl in Hin; [|done].
    apply bool_decide_eq_false in Hin. split; intros [= ->]; apply Hin.
    + left.
    + right. left.
Qed.

Lemma zone_system_validation_witness :
  (read_los_settings (skim_dict:=unit)
     (SampleConfig.with_settings SampleConfig.three_zone) ∅).2
  = Err UnrecognizedZoneSystem.
Proof.
  apply (zone_system_validation (SampleConfig.with_settings SampleConfig.three_zone)
           SampleConfig.three_zone ∅ eq_refl).
  split; discriminate.
Defined.

(** C5 as stated fails: zone_system 3 (THREE_ZONE) does not pass the
    validation. *)
Lemma three_zone_rejected : ~ zone_systems_1_2_3_accepted.
Proof.
  intros Hclaim.
  destruct (Hclaim (SampleConfig.with_settings SampleConfig.three_zone)
              SampleConfig.three_zone ∅ eq_refl) as [_ Hpass].
  apply Hpass; [|vm_compute; reflexivity].
  simpl. right. right. left.
Qed.

(** ** C3: the skim cache *)




(** ** C8: the seed of the random number generator *)




(** ** C2: zone-pair lookups *)

Lemma mbind_Ok {skim_dict A B} (c : M skim_dict A) (k : A -> M skim_dict B)
    self self' b :
  mbind c k self = (self', Ok b) ->
  exists a self1, c self = (self1, Ok a) /\ k a self1 = (self', Ok b).
Proof.
  unfold mbind. destruct (c self) as [self1 [a|e]]; [by eauto | done].
Qed.

Lemma col_pos_None name cols : col_pos name cols = None <-> name ∉ cols.
Proof.
  induction cols as [|c cols IH]; simpl.
  - split; [intros _; apply not_elem_of_nil | done].
  - destruct (decide (name = c)) as [->|Hne].
    + split; [done|]. intros Hn. exfalso. apply Hn. left.
    + rewrite not_elem_of_cons. destruct (col_pos name cols); simpl.
      * split; [done|]. intros [_ Hn]. by apply IH in Hn.
      * split; [|done]. intros _. split; [done|]. by apply IH.
Qed.

Lemma col_pos_Some_lt name cols p : col_pos name cols = Some p -> p < length cols.
Proof.
  revert p. induction cols as [|c cols IH]; intros p; simpl; [done|].
  destruct (decide (name = c)).
  - intros [= <-]. lia.
  - destruct (col_pos name cols) as [q|]; simpl; [|done].
    intros [= <-]. specialize (IH q eq_refl). lia.
Qed.

Lemma col_pos_app name l1 l2 :
  col_pos name (l1 ++ l2)
  = match col_pos name l1 with
    | Some p => Some p
    | None => (fun p => length l1 + p) <$> col_pos name l2
    end.
Proof.
  induction l1 as [|c l1 IH]; simpl.
  - by destruct (col_pos name l2).
  - destruct (decide (name = c)); [done|]. rewrite IH.
    destruct (col_pos name l1); simpl; [done|].
    by destruct (col_pos name l2).
Qed.

Lemma kept_columns_cons c cols :
  kept_columns (c :: cols)
  = if decide (c ∈ index_columns) then kept_columns cols else c :: kept_columns cols.
Proof.
  unfold kept_columns. rewrite filter_cons.
  destruct (decide (c ∈ index_columns)); destruct (decide (c ∉ index_columns)); done.
Qed.

Lemma kept_cells_length cols row :
  length (kept_cells cols row) = length (kept_columns cols).
Proof.
  revert row. induction cols as [|c cols IH]; intros row; simpl; [done|].
  rewrite kept_columns_cons. destruct (decide (c ∈ index_columns)); simpl; by rewrite IH.
Qed.

Lemma nth_tl (row : list Z) p : nth p (tl row) 0%Z = nth (S p) row 0%Z.
Proof. destruct row; [by destruct p | done]. Qed.

(** the cell kept for an attribute column is the cell of the CSV row *)
Lemma kept_cells_nth cols row name p :
  col_pos name cols = Some p -> name ∉ index_columns ->
  exists q, col_pos name (kept_columns cols) = Some q
            /\ nth q (kept_cells cols row) NaN = Val (nth p row 0%Z).
Proof.
  revert row p. induction cols as [|c cols IH]; intros row p; simpl; [done|].
  rewrite kept_columns_cons.
  destruct (decide (name = c)) as [->|Hne].
  - intros [= <-] Hkeep. rewrite decide_False by done. exists 0. simpl.
    rewrite decide_True by done. split; [done|].
    destruct (decide (c ∈ index_columns)); [done|]. by destruct row.
  - destruct (col_pos name cols) as [p'|] eqn:Hpos; simpl; [|done].
    intros [= <-] Hkeep. destruct (IH (tl row) p' eq_refl Hkeep) as (q & Hq & Hnth).
    rewrite nth_tl in Hnth.
    destruct (decide (c ∈ index_columns)).
    + exists q. done.
    + exists (S q). simpl. rewrite decide_False by done. rewrite Hq.
      split; [done|]. destruct (decide (c ∈ index_columns)); done.
Qed.

Lemma od_get_map_self {V} (g : label -> V) (labels : list label) l :
  od_get l (map (fun l => (l, g l)) labels)
  = if decide (l ∈ labels) then Some (g l) else None.
Proof.
  induction labels as [|l' labels IH]; simpl; [done|].
  destruct (decide (l = l')) as [->|Hne].
  - rewrite decide_True; [done | left].
  - rewrite IH. destruct (decide (l ∈ labels)).
    + rewrite decide_True; [done | by right].
    + rewrite decide_False; [done|]. rewrite not_elem_of_cons. done.
Qed.

Lemma concat_columns_keys a b :
  od_keys (fr_rows (concat_columns a b))
  = od_keys (fr_rows a)
    ++ filter (fun l => l ∉ od_keys (fr_rows a)) (od_keys (fr_rows b)).
Proof. unfold concat_columns, od_keys. simpl. rewrite map_map. simpl. by rewrite map_id. Qed.

Lemma concat_columns_labels a b l :
  l ∈ od_keys (fr_rows (concat_columns a b))
  <-> l ∈ od_keys (fr_rows a) \/ l ∈ od_keys (fr_rows b).
Proof.
  rewrite concat_columns_keys, elem_of_app, list_elem_of_filter.
  destruct (decide (l ∈ od_keys (fr_rows a))); tauto.
Qed.

Lemma concat_columns_NoDup a b :
  NoDup (od_keys (fr_rows a)) -> NoDup (od_keys (fr_rows b)) ->
  NoDup (od_keys (fr_rows (concat_columns a b))).
Proof.
  intros Ha Hb. rewrite concat_columns_keys.
  apply NoDup_app. split_and!; [done | | by apply NoDup_filter].
  intros l Hl Hl'. apply list_elem_of_filter in Hl' as [Hn _]. done.
Qed.

Lemma upcast_idemp c : upcast (upcast c) = upcast c.
Proof. by destruct c. Qed.

Lemma upcast_cells_length fill cells : length (upcast_cells fill cells) = length cells.
Proof. destruct fill; simpl; [apply length_map | done]. Qed.

Lemma upcast_cells_app fill l1 l2 :
  upcast_cells fill (l1 ++ l2) = upcast_cells fill l1 ++ upcast_cells fill l2.
Proof. destruct fill; simpl; [apply map_app | done]. Qed.

Lemma upcast_cells_compose b1 b2 cells :
  upcast_cells b1 (upcast_cells b2 cells) = upcast_cells (b1 || b2) cells.
Proof.
  destruct b1, b2; simpl; try done.
  rewrite map_map. apply map_ext. intros c. apply upcast_idemp.
Qed.

Lemma upcast_cells_NaN fill n : upcast_cells fill (repeat NaN n) = repeat NaN n.
Proof.
  destruct fill; simpl; [|done]. induction n as [|n IH]; simpl; [done | by rewrite IH].
Qed.

Lemma upcast_cells_nth fill cells q :
  nth q (upcast_cells fill cells) NaN
  = if fill then upcast (nth q cells NaN) else nth q cells NaN.
Proof.
  destruct fill; simpl; [|done]. change NaN with (upcast NaN) at 1. apply map_nth.
Qed.

Lemma needs_fill_true labels fr :
  needs_fill labels fr = true <-> exists l, l ∈ labels /\ l ∉ od_keys (fr_rows fr).
Proof.
  unfold needs_fill. rewrite negb_true_iff, bool_decide_eq_false. split.
  - intros Hn. apply not_Forall_Exists in Hn; [|apply _].
    apply Exists_exists in Hn as (l & Hin & Hn). by exists l.
  - intros (l & Hin & Hn) Hall. eapply Forall_forall in Hall; done.
Qed.

Lemma needs_fill_self fr : needs_fill (od_keys (fr_rows fr)) fr = false.
Proof.
  apply not_true_iff_false. rewrite needs_fill_true. intros (l & Hin & Hn). done.
Qed.

(** aligning twice: a table [x] whose labels are among those of [c],
    which are among [labels] *)
Lemma needs_fill_compose labels c x :
  (forall l, l ∈ od_keys (fr_rows x) -> l ∈ od_keys (fr_rows c)) ->
  (forall l, l ∈ od_keys (fr_rows c) -> l ∈ labels) ->
  needs_fill labels c || needs_fill (od_keys (fr_rows c)) x = needs_fill labels x.
Proof.
  intros Hxc Hcl. apply eq_true_iff_eq.
  rewrite orb_true_iff, !needs_fill_true. split.
  - intros [(l & Hin & Hn)|(l & Hin & Hn)].
    + exists l. split; [done|]. intros Hx. apply Hn. by apply Hxc.
    + exists l. split; [by apply Hcl | done].
  - intros (l & Hin & Hn).
    destruct (decide (l ∈ od_keys (fr_rows c))) as [Hc|Hc].
    + right. by exists l.
    + left. by exists l.
Qed.

Lemma frame_row_length_default fr l :
  od_get l (fr_rows fr) = None -> frame_row fr l = repeat NaN (length (fr_columns fr)).
Proof. intros Hget. unfold frame_row. by rewrite Hget. Qed.

Lemma frame_row_concat a b l :
  frame_row (concat_columns a b) l
  = aligned_row (od_keys (fr_rows (concat_columns a b))) a l
    ++ aligned_row (od_keys (fr_rows (concat_columns a b))) b l.
Proof.
  rewrite concat_columns_keys.
  unfold frame_row at 1. unfold concat_columns. simpl. rewrite od_get_map_self.
  destruct (decide (l ∈ _)) as [Hin|Hn]; simpl; [done|].
  rewrite elem_of_app, list_elem_of_filter in Hn.
  assert (l ∉ od_keys (fr_rows a)) as Ha by tauto.
  assert (l ∉ od_keys (fr_rows b)) as Hb by tauto.
  apply od_get_None in Ha, Hb. unfold aligned_row.
  rewrite (frame_row_length_default a l Ha), (frame_row_length_default b l Hb).
  rewrite !upcast_cells_NaN. by rewrite length_app, repeat_app.
Qed.

Lemma concat_columns_rectangular a b :
  rectangular a -> rectangular b -> rectangular (concat_columns a b).
Proof.
  intros Ha Hb l. rewrite frame_row_concat, length_app. unfold aligned_row.
  rewrite !upcast_cells_length, Ha, Hb.
  unfold concat_columns. simpl. by rewrite length_app.
Qed.

Lemma zip_with_map_map {A B C D} (f : B -> C -> D) (g : A -> B) (h : A -> C) l :
  zip_with f (map g l) (map h l) = map (fun x => f (g x) (h x)) l.
Proof. induction l as [|x l IH]; simpl; [done | by rewrite IH]. Qed.

(** what a successful [indexed_frame] returns *)
Lemma indexed_frame_Ok cardinality f df :
  indexed_frame cardinality f = Ok df ->
  exists po pd,
    col_pos "OMAZ" (csv_columns f) = Some po
    /\ col_pos "DMAZ" (csv_columns f) = Some pd
    /\ NoDup (map (fun row => synthetic_label cardinality (nth po row 0%Z) (nth pd row 0%Z))
                (csv_rows f))
    /\ df = {| fr_columns := kept_columns (csv_columns f);
               fr_rows :=
                 map (fun row =>
                        (synthetic_label cardinality (nth po row 0%Z) (nth pd row 0%Z),
                         kept_cells (csv_columns f) row))
                   (csv_rows f) |}.
Proof.
  unfold indexed_frame, csv_column.
  destruct (col_pos "OMAZ" (csv_columns f)) as [po|]; simpl; [|done].
  destruct (col_pos "DMAZ" (csv_columns f)) as [pd|]; simpl; [|done].
  rewrite !zip_with_map_map.
  destruct (decide (NoDup _)) as [Hnd|]; [|done].
  intros [= <-]. exists po, pd. done.
Qed.

Lemma indexed_frame_facts cardinality f df :
  indexed_frame cardinality f = Ok df ->
  rectangular df /\ NoDup (od_keys (fr_rows df))
  /\ fr_columns df = kept_columns (csv_columns f)
  /\ forall row po pd,
       row ∈ csv_rows f ->
       col_pos "OMAZ" (csv_columns f) = Some po ->
       col_pos "DMAZ" (csv_columns f) = Some pd ->
       frame_row df (synthetic_label cardinality (nth po row 0%Z) (nth pd row 0%Z))
       = kept_cells (csv_columns f) row.
Proof.
  intros Hdf. apply indexed_frame_Ok in Hdf as (po & pd & Hpo & Hpd & Hnd & ->).
  assert (od_keys (map (fun row =>
            (synthetic_label cardinality (nth po row 0%Z) (nth pd row 0%Z),
             kept_cells (csv_columns f) row)) (csv_rows f))
          = map (fun row => synthetic_label cardinality (nth po row 0%Z) (nth pd row 0%Z))
              (csv_rows f)) as Hkeys.
  { unfold od_keys. by rewrite map_map. }
  split_and!.
  - intros l. unfold frame_row. simpl.
    destruct (od_get l _) as [cells|] eqn:Hget; simpl.
    + apply od_get_elem_of, list_elem_of_fmap in Hget as (row & [= _ ->] & _).
      apply kept_cells_length.
    + apply repeat_length.
  - simpl. by rewrite Hkeys.
  - done.
  - intros row po' pd' Hrow Hpo' Hpd'. rewrite Hpo in Hpo'. rewrite Hpd in Hpd'.
    injection Hpo' as <-. injection Hpd' as <-.
    unfold frame_row. simpl. erewrite od_get_NoDup; [done | by rewrite Hkeys |].
    apply list_elem_of_fmap. by exists row.
Qed.

Lemma quick_loc_value (table : frame) l p :
  match od_get l (fr_rows table) with
  | Some row => nth p row NaN
  | None => NaN
  end = nth p (frame_row table l) NaN.
Proof.
  unfold frame_row. destruct (od_get l (fr_rows table)); simpl; [done|].
  by rewrite nth_repeat.
Qed.

(** the table joined from the tables of the files: every table is
    aligned to the labels of the result *)
Lemma join_frames_spec cur dfs table :
  join_frames cur dfs = Some table ->
  (forall c, cur = Some c -> rectangular c /\ NoDup (od_keys (fr_rows c))) ->
  Forall (fun df => rectangular df /\ NoDup (od_keys (fr_rows df))) dfs ->
  rectangular table /\ NoDup (od_keys (fr_rows table))
  /\ fr_columns table
     = match cur with Some c => fr_columns c | None => [] end
       ++ concat (map fr_columns dfs)
  /\ (forall c l, cur = Some c -> l ∈ od_keys (fr_rows c) -> l ∈ od_keys (fr_rows table))
  /\ Forall (fun df => forall l, l ∈ od_keys (fr_rows df) -> l ∈ od_keys (fr_rows table))
       dfs
  /\ forall l,
       frame_row table l
       = match cur with
         | Some c => aligned_row (od_keys (fr_rows table)) c l
         | None => []
         end
         ++ concat (map (fun df => aligned_row (od_keys (fr_rows table)) df l) dfs).
Proof.
  revert cur. induction dfs as [|df dfs IH]; intros cur; simpl.
  - intros -> Hcur _. destruct (Hcur table eq_refl) as [? ?].
    split_and!; [done | done | by rewrite app_nil_r | | apply Forall_nil_2 |].
    + by intros c l [= ->].
    + intros l. rewrite app_nil_r. unfold aligned_row.
      by rewrite needs_fill_self.
  - intros Hjoin Hcur Hall. apply Forall_cons in Hall as [[Hrect Hnd] Hall].
    destruct (IH (join_frame cur df) Hjoin) as (H1 & H2 & H3 & H4 & H5 & H6); [|done|].
    { intros c Hc. destruct cur as [c0|]; simpl in Hc; injection Hc as <-.
      - destruct (Hcur c0 eq_refl) as [? ?].
        split; [by apply concat_columns_rectangular | by apply concat_columns_NoDup].
      - done. }
    split_and!; [done | done | | | |].
    + rewrite H3. destruct cur; simpl; [by rewrite <- app_assoc | done].
    + intros c l [= ->] Hin. apply (H4 (concat_columns c df)); [done|].
      apply concat_columns_labels. by left.
    + apply Forall_cons. split; [|done].
      intros l Hin. destruct cur as [c|]; simpl in H4.
      * apply (H4 (concat_columns c df)); [done|]. apply concat_columns_labels. by right.
      * by apply (H4 df).
    + intros l. rewrite H6. destruct cur as [c|]; simpl; [|done].
      rewrite app_assoc. f_equal.
      unfold aligned_row at 1. rewrite frame_row_concat, upcast_cells_app.
      unfold aligned_row. rewrite !upcast_cells_compose.
      rewrite !needs_fill_compose; [done | | | |].
      * intros l' Hin. apply concat_columns_labels. by right.
      * intros l' Hin. by apply (H4 (concat_columns c df)).
      * intros l' Hin. apply concat_columns_labels. by left.
      * intros l' Hin. by apply (H4 (concat_columns c df)).
Qed.

Lemma join_frames_Some c dfs : is_Some (join_frames (Some c) dfs).
Proof.
  revert c. induction dfs as [|df dfs IH]; intros c; simpl; [by eexists | apply IH].
Qed.

(** the column of an attribute in the joined table, when the file at
    position [j] is the first one that has the attribute *)
Lemma concat_segment (colss : list (list string)) (rowss : list (list cell))
    j cols cells name q :
  Forall2 (fun cs rs => length rs = length cs) colss rowss ->
  colss !! j = Some cols -> rowss !! j = Some cells ->
  col_pos name cols = Some q ->
  (forall j' cols', j' < j -> colss !! j' = Some cols' -> name ∉ cols') ->
  exists p, col_pos name (concat colss) = Some p
            /\ nth p (concat rowss) NaN = nth q cells NaN.
Proof.
  intros Hlen. revert j. induction Hlen as [|cs rs colss rowss Hl Hlen IH]; intros j.
  - by rewrite lookup_nil.
  - destruct j as [|j]; simpl.
    + intros [= ->] [= ->] Hq _. exists q. rewrite col_pos_app, Hq. split; [done|].
      apply app_nth1. rewrite Hl. by eapply col_pos_Some_lt.
    + intros Hcols Hcells Hq Hfirst.
      destruct (IH j Hcols Hcells Hq) as (p & Hp & Hnth).
      { intros j' cols' Hlt. apply (Hfirst (S j')). lia. }
      exists (length cs + p). rewrite col_pos_app.
      assert (col_pos name cs = None) as ->.
      { apply col_pos_None. apply (Hfirst 0); [lia | done]. }
      rewrite Hp. split; [done|].
      rewrite app_nth2 by lia. rewrite Hl.
      replace (length cs + p - length cs) with p by lia. done.
Qed.

Lemma fold_max_spec (rest : list Z) (x : Z) :
  (fold_left Z.max rest x ∈ x :: rest)
  /\ Forall (fun m => (m <= fold_left Z.max rest x)%Z) (x :: rest).
Proof.
  revert x. induction rest as [|y rest IH]; intros x; simpl.
  - split; [left | apply Forall_cons; split; [lia | apply Forall_nil_2]].
  - destruct (IH (Z.max x y)) as [Hin Hall]. split.
    + apply elem_of_cons in Hin as [Heq|Hin].
      * rewrite Heq. destruct (Z.max_spec x y) as [[_ ->]|[_ ->]]; [right; left | left].
      * right. by right.
    + apply Forall_cons in Hall as [Hmax Hall].
      repeat (apply Forall_cons; split); [lia | lia | done].
Qed.

Lemma column_max_spec l top :
  column_max l = Some top -> top ∈ l /\ Forall (fun m => (m <= top)%Z) l.
Proof.
  destruct l as [|x rest]; simpl; [done|]. intros [= <-]. apply fold_max_spec.
Qed.

Lemma int64_wrap_id z : (- 2 ^ 63 <= z < 2 ^ 63)%Z -> int64_wrap z = z.
Proof. intros Hz. unfold int64_wrap. rewrite Z.mod_small; lia. Qed.

Lemma synthetic_index_exact cardinality o d :
  (- 2 ^ 63 <= o * cardinality < 2 ^ 63)%Z ->
  (- 2 ^ 63 <= o * cardinality + d < 2 ^ 63)%Z ->
  synthetic_index cardinality o d = (o * cardinality + d)%Z.
Proof.
  intros H1 H2. unfold synthetic_index. by rewrite (int64_wrap_id _ H1), int64_wrap_id.
Qed.

(** the table and the cardinality after the loop over the maz_to_maz
    files *)
Lemma load_maz_to_maz_spec {skim_dict} cfg names
    (self self' : gmap string (pyval skim_dict)) cardinality cur :
  self !! "maz_to_maz_cardinality" = Some (card_val cardinality) ->
  self !! "maz_to_maz_df" = Some (frame_val cur) ->
  load_maz_to_maz cfg names self = (self', Ok tt) ->
  exists dfs,
    Forall2 (fun name df =>
               exists f, csv_files cfg !! name = Some f
                         /\ indexed_frame cardinality f = Ok df) names dfs
    /\ self' !! "maz_to_maz_cardinality" = Some (card_val cardinality)
    /\ self' !! "maz_to_maz_df" = Some (frame_val (join_frames cur dfs)).
Proof.
  revert self cur. induction names as [|name names IH]; intros self cur Hcard Hcur; simpl.
  - intros [= <-]. exists []. split_and!; [apply Forall2_nil_2 | done | done].
  - intros Hload.
    apply mbind_Ok in Hload as (f & s1 & Hread & Hload).
    unfold lift, read_csv in Hread.
    destruct (csv_files cfg !! name) as [f'|] eqn:Hf; [|done].
    injection Hread as <- <-.
    apply mbind_Ok in Hload as (v & s2 & Hget & Hload).
    unfold getattr in Hget. rewrite Hcard in Hget. injection Hget as <- <-.
    apply mbind_Ok in Hload as (c & s2 & Hc & Hload).
    assert (s2 = self /\ c = cardinality) as [-> ->].
    { destruct cardinality; simpl in Hc; unfold ret in Hc; by injection Hc as <- <-. }
    clear Hc.
    apply mbind_Ok in Hload as (df & s3 & Hdf & Hload).
    unfold lift in Hdf. injection Hdf as <- Hdf.
    apply mbind_Ok in Hload as (v & s4 & Hget & Hload).
    unfold getattr in Hget. rewrite Hcur in Hget. injection Hget as <- <-.
    apply mbind_Ok in Hload as ([] & s5 & Hset & Hload).
    assert (s5 = <["maz_to_maz_df" := frame_val (join_frame cur df)]> self) as ->.
    { destruct cur; simpl in Hset; unfold setattr in Hset; by injection Hset as <-. }
    clear Hset.
    assert ((<["maz_to_maz_df" := frame_val (join_frame cur df)]> self)
              !! "maz_to_maz_cardinality" = Some (card_val cardinality)) as Hcard'.
    { by rewrite lookup_insert_ne. }
    assert ((<["maz_to_maz_df" := frame_val (join_frame cur df)]> self)
              !! "maz_to_maz_df" = Some (frame_val (join_frame cur df))) as Hcur'.
    { apply lookup_insert_eq. }
    destruct (IH _ _ Hcard' Hcur' Hload) as (dfs & Hall & H1 & H2).
    exists (df :: dfs). split_and!; [|done..].
    apply Forall2_cons. split; [by exists f'|done].
Qed.

(** what a successful [load_all_tables] has read and stored, on an
    object of a two- or three-zone system without a table yet *)
Lemma load_all_tables_spec {skim_dict} cfg
    (self self' : gmap string (pyval skim_dict)) z :
  self !! "zone_system" = Some (VInt z) ->
  z ∈ [TWO_ZONE; THREE_ZONE] ->
  self !! "maz_to_maz_df" = Some VNone ->
  load_all_tables cfg self = (self', Ok tt) ->
  exists table_info taz_name taz_df maz spec dfs,
    let cardinality := (fun top => int64_add top 1) <$> column_max maz in
    self !! "table_info" = Some (VTableInfo table_info)
    /\ table_info !! "maz_to_taz" = Some (OneFile taz_name)
    /\ csv_files cfg !! taz_name = Some taz_df
    /\ csv_column "MAZ" taz_df = Ok maz
    /\ table_info !! "maz_to_maz" = Some spec
    /\ Forall2 (fun name df =>
                  exists f, csv_files cfg !! name = Some f
                            /\ indexed_frame cardinality f = Ok df)
         (as_file_list spec) dfs
    /\ self' !! "maz_to_maz_cardinality" = Some (card_val cardinality)
    /\ self' !! "maz_to_maz_df" = Some (frame_val (join_frames None dfs)).
Proof.
  intros Hz Hin Hcur Hload. unfold load_all_tables in Hload.
  apply mbind_Ok in Hload as (v & s1 & Hget & Hload).
  unfold getattr in Hget. rewrite Hz in Hget. injection Hget as <- <-.
  simpl in Hload. rewrite bool_decide_eq_true_2 in Hload by done.
  apply mbind_Ok in Hload as (table_info & s1 & Hinfo & Hload).
  unfold get_table_info in Hinfo.
  apply mbind_Ok in Hinfo as (v & s2 & Hget & Hinfo).
  unfold getattr in Hget.
  destruct (self !! "table_info") as [v'|] eqn:Hti; [|done].
  injection Hget as <- <-. destruct v'; try done. injection Hinfo as <- <-.
  destruct (d !! "maz_to_taz") as [[taz_name|]|] eqn:Htaz; try done.
  apply mbind_Ok in Hload as (taz_df & s1 & Hread & Hload).
  unfold lift, read_csv in Hread.
  destruct (csv_files cfg !! taz_name) as [f|] eqn:Hf; [|done].
  injection Hread as <- <-.
  apply mbind_Ok in Hload as ([] & s1 & Hset & Hload).
  unfold setattr in Hset. injection Hset as <-.
  apply mbind_Ok in Hload as (maz & s1 & Hmaz & Hload).
  unfold lift in Hmaz. injection Hmaz as <- Hmaz.
  apply mbind_Ok in Hload as ([] & s1 & Hset & Hload).
  unfold setattr in Hset. injection Hset as <-.
  apply mbind_Ok in Hload as (table_info' & s1 & Hinfo & Hload).
  unfold get_table_info in Hinfo.
  apply mbind_Ok in Hinfo as (v & s2 & Hget & Hinfo).
  unfold getattr in Hget.
  rewrite lookup_insert_ne, lookup_insert_ne, Hti in Hget by done.
  injection Hget as <- <-. injection Hinfo as <- <-.
  destruct (d !! "maz_to_maz") as [spec|] eqn:Hspec; [|done].
  assert (cardinality_val (skim_dict:=skim_dict) (column_max maz)
          = card_val ((fun top => int64_add top 1) <$> column_max maz)) as Hcv.
  { by destruct (column_max maz). }
  rewrite Hcv in Hload.
  eapply (load_maz_to_maz_spec _ _ _ _ _ None) in Hload as (dfs & Hall & H1 & H2).
  - exists d, taz_name, f, maz, spec, dfs. done.
  - by rewrite lookup_insert_eq.
  - rewrite lookup_insert_ne, lookup_insert_ne by done. done.
Qed.

Lemma get_mazpairs_eval {skim_dict} (self : gmap string (pyval skim_dict))
    cardinality table attribute p omaz dmaz :
  self !! "maz_to_maz_cardinality" = Some (VInt cardinality) ->
  self !! "maz_to_maz_df" = Some (VFrame table) ->
  col_pos attribute (fr_columns table) = Some p ->
  length omaz = length dmaz ->
  get_mazpairs omaz dmaz attribute self
  = (self, Ok (zip_with
                 (fun o d =>
                    nth p (frame_row table (At (synthetic_index cardinality o d))) NaN)
                 omaz dmaz)).
Proof.
  intros Hcard Hdf Hp Hlen. unfold get_mazpairs, mbind, getattr, lift.
  rewrite Hcard. unfold broadcast. rewrite decide_True by (by rewrite length_map).
  rewrite Hdf. unfold quick_loc_df. rewrite Hp. do 2 f_equal.
  clear Hcard Hdf Hp. revert dmaz Hlen.
  induction omaz as [|o omaz IH]; intros [|d dmaz] Hlen; simpl in *; try done.
  f_equal; [apply quick_loc_value | apply IH; lia].
Qed.

(** C2: after [load_all_tables] has returned on an object of a two- or
    three-zone system that had no maz_to_maz table yet, and when the
    MAZ column of the maz_to_taz table is not empty, the cardinality
    is the largest MAZ plus one (in int64 arithmetic) and, when
    maz_to_maz lists at least one file, the loaded table has pairwise
    distinct index labels and
    (1) for every attribute column and all origin and destination ids
    of equal length, [get_mazpairs] returns one value per position, in
    the order of the input, and the value at a position whose
    synthetic index [o * cardinality + d] labels a row of the table is
    the cell of that row in the attribute column;
    (2) for every row of a source file and every attribute column that
    this file is the first to provide, [get_mazpairs] on the OMAZ and
    DMAZ of the row returns the value that the table stores for the
    row: the int64 value of the file, or the float64 value nearest to
    it when the table has a label that the file lacks.
    With an empty MAZ column the cardinality is NaN. *)
Theorem get_mazpairs_stored_values {skim_dict} cfg
    (self self' : gmap string (pyval skim_dict)) z :
  self !! "zone_system" = Some (VInt z) ->
  z ∈ [TWO_ZONE; THREE_ZONE] ->
  self !! "maz_to_maz_df" = Some VNone ->
  load_all_tables cfg self = (self', Ok tt) ->
  exists table_info taz_name taz_df maz spec,
    self !! "table_info" = Some (VTableInfo table_info)
    /\ table_info !! "maz_to_taz" = Some (OneFile taz_name)
    /\ csv_files cfg !! taz_name = Some taz_df
    /\ csv_column "MAZ" taz_df = Ok maz
    /\ table_info !! "maz_to_maz" = Some spec
    /\ (maz = [] -> self' !! "maz_to_maz_cardinality" = Some VNaN)
    /\ (maz ≠ [] ->
        exists top,
          top ∈ maz /\ Forall (fun m => (m <= top)%Z) maz
          /\ self' !! "maz_to_maz_cardinality" = Some (VInt (int64_add top 1))
          /\ (as_file_list spec ≠ [] ->
              exists table,
                self' !! "maz_to_maz_df" = Some (VFrame table)
                /\ NoDup (od_keys (fr_rows table))
                /\ (forall attribute omaz dmaz,
                      attribute ∈ fr_columns table -> length omaz = length dmaz ->
                      exists p values,
                        col_pos attribute (fr_columns table) = Some p
                        /\ get_mazpairs omaz dmaz attribute self' = (self', Ok values)
                        /\ length values = length omaz
                        /\ forall k o d row,
                             omaz !! k = Some o -> dmaz !! k = Some d ->
                             (At (synthetic_index (int64_add top 1) o d), row)
                               ∈ fr_rows table ->
                             values !! k = Some (nth p row NaN))
                /\ (forall j name f df row attribute po pd pa,
                      as_file_list spec !! j = Some name ->
                      csv_files cfg !! name = Some f ->
                      indexed_frame (Some (int64_add top 1)) f = Ok df ->
                      row ∈ csv_rows f ->
                      col_pos "OMAZ" (csv_columns f) = Some po ->
                      col_pos "DMAZ" (csv_columns f) = Some pd ->
                      col_pos attribute (csv_columns f) = Some pa ->
                      attribute ∉ index_columns ->
                      (forall j' name' f',
                         j' < j -> as_file_list spec !! j' = Some name' ->
                         csv_files cfg !! name' = Some f' ->
                         attribute ∉ csv_columns f') ->
                      get_mazpairs [nth po row 0%Z] [nth pd row 0%Z] attribute self'
                      = (self', Ok [stored_cell table df (nth pa row 0%Z)])))).
Proof.
  intros Hz Hin Hcur Hload.
  destruct (load_all_tables_spec cfg self self' z Hz Hin Hcur Hload)
    as (table_info & taz_name & taz_df & maz & spec & dfs
        & Hti & Htaz & Hf & Hmaz & Hspec & Hall & Hcard & Hdf).
  exists table_info, taz_name, taz_df, maz, spec.
  split_and!; [done.. | |].
  { intros ->. exact Hcard. }
  intros Hmazne.
  destruct (column_max maz) as [top|] eqn:Htop; [|by destruct maz].
  simpl in Hall, Hcard.
  apply column_max_spec in Htop as [Htop Hmax].
  exists top. split_and!; [done.. |]. intros Hne.
  set (cardinality := int64_add top 1) in *.
  assert (Forall (fun df => rectangular df /\ NoDup (od_keys (fr_rows df))) dfs) as Hdfs.
  { clear -Hall. induction Hall as [|name df names dfs (f & _ & Hdf) _ IH];
      [apply Forall_nil_2|].
    apply Forall_cons. split; [|done].
    apply indexed_frame_facts in Hdf as (? & ? & _). done. }
  destruct (join_frames None dfs) as [table|] eqn:Hjoin.
  2:{ destruct Hall as [|name0 df0 names0 dfs0 _ _]; [done|]. simpl in Hjoin.
      destruct (join_frames_Some df0 dfs0) as [table Htable]. congruence. }
  destruct (join_frames_spec None dfs table Hjoin) as (Hrect & Hnd & Hcols & _ & _ & Hrows);
    [done | done |]. simpl in Hcols, Hrows.
  exists table. split_and!; [done | done | |].
  - intros attribute omaz dmaz Hattr Hlen.
    destruct (col_pos attribute (fr_columns table)) as [p|] eqn:Hp.
    2:{ by apply col_pos_None in Hp. }
    exists p. eexists. split; [done|].
    split; [by apply (get_mazpairs_eval self' cardinality table)|].
    split.
    + rewrite length_zip_with. lia.
    + intros k o d row Ho Hd Hrow. rewrite lookup_zip_with, Ho. simpl. rewrite Hd. simpl.
      unfold frame_row. by rewrite (od_get_NoDup _ _ _ Hnd Hrow).
  - intros j name f df row attribute po pd pa Hj Hfile Hdfj' Hrow Hpo Hpd Hpa Hkeep Hfirst.
    destruct (Forall2_lookup_l _ _ _ _ _ Hall Hj) as (df' & Hdfj & f0 & Hf0 & Hindexed).
    rewrite Hfile in Hf0. injection Hf0 as <-.
    rewrite Hdfj' in Hindexed. injection Hindexed as <-.
    destruct (indexed_frame_facts _ _ _ Hdfj') as (_ & _ & Hdfcols & Hdfrow).
    specialize (Hdfrow row po pd Hrow Hpo Hpd). simpl in Hdfrow.
    destruct (kept_cells_nth (csv_columns f) row attribute pa Hpa Hkeep) as (q & Hq & Hnth).
    set (l := At (synthetic_index cardinality (nth po row 0%Z) (nth pd row 0%Z))) in *.
    set (labels := od_keys (fr_rows table)) in *.
    destruct (concat_segment (map fr_columns dfs)
                (map (fun df => aligned_row labels df l) dfs)
                j (fr_columns df) (aligned_row labels df l) attribute q) as (p & Hp & Hcell).
    + clear -Hdfs. induction Hdfs as [|df dfs [Hrect _] _ IH]; simpl;
        [apply Forall2_nil_2 | apply Forall2_cons; split; [|done]].
      unfold aligned_row. rewrite upcast_cells_length. apply Hrect.
    + by rewrite list_lookup_fmap, Hdfj.
    + by rewrite list_lookup_fmap, Hdfj.
    + by rewrite Hdfcols.
    + intros j' cols' Hlt Hcols'. rewrite list_lookup_fmap in Hcols'.
      destruct (dfs !! j') as [df'|] eqn:Hdf'; [|done]. injection Hcols' as <-.
      destruct (Forall2_lookup_r _ _ _ _ _ Hall Hdf') as (name' & Hname' & f' & Hf' & Hind').
      apply indexed_frame_facts in Hind' as (_ & _ & -> & _).
      intros Hin'. apply (Hfirst j' name' f' Hlt Hname' Hf').
      unfold kept_columns in Hin'. by apply list_elem_of_filter in Hin' as [_ ?].
    + rewrite <- Hcols in Hp. rewrite <- Hrows in Hcell.
      rewrite (get_mazpairs_eval self' cardinality table attribute p) by done.
      simpl. fold l. rewrite Hcell. unfold aligned_row.
      rewrite upcast_cells_nth, Hdfrow, Hnth. unfold stored_cell. fold labels.
      by destruct (needs_fill labels df).
Qed.

Lemma get_mazpairs_stored_values_witness :
  get_mazpairs [1]%Z [2]%Z "bike_dist" SampleTables.loaded_object
  = (SampleTables.loaded_object, Ok [FVal 9]).
Proof.
  assert (load_all_tables SampleTables.cfg SampleTables.new_object
          = (SampleTables.loaded_object, Ok tt)) as Hload.
  { vm_compute. reflexivity. }
  destruct (get_mazpairs_stored_values SampleTables.cfg SampleTables.new_object
              SampleTables.loaded_object 2%Z)
    as (table_info & taz_name & taz_df & maz & spec
        & Hti & Htaz & Hf & Hmaz & Hspec & _ & Htable).
  - vm_compute. reflexivity.
  - left.
  - vm_compute. reflexivity.
  - exact Hload.
  - vm_compute in Hti. injection Hti as <-.
    vm_compute in Htaz. injection Htaz as <-.
    vm_compute in Hf. injection Hf as <-.
    vm_compute in Hmaz. injection Hmaz as <-.
    vm_compute in Hspec. injection Hspec as <-.
    destruct Htable as (top & Htop & Hmax & _ & Htable); [discriminate|].
    assert (top = 2%Z) as ->.
    { apply Forall_cons in Hmax as [_ Hmax]. apply Forall_cons in Hmax as [_ Hmax].
      apply Forall_cons in Hmax as [Hle _].
      repeat (apply elem_of_cons in Htop as [->|Htop]; [lia|]).
      by apply elem_of_nil in Htop. }
    destruct Htable as (table & Hdf & _ & _ & Hrows); [discriminate|].
    vm_compute in Hdf. injection Hdf as <-.
    etrans; [|reflexivity].
    apply (Hrows 1 "bike.csv" SampleTables.bike _ [1; 2; 9]%Z "bike_dist" 0 1 2
             eq_refl eq_refl eq_refl).
    + left.
    + reflexivity.
    + reflexivity.
    + reflexivity.
    + intros Hin. repeat (apply elem_of_cons in Hin as [Hin|Hin]; [discriminate|]).
      by apply elem_of_nil in Hin.
    + intros j' name' f' Hlt Hname Hf.
      destruct j' as [|j']; [|lia]. injection Hname as <-.
      vm_compute in Hf. injection Hf as <-.
      intros Hin. repeat (apply elem_of_cons in Hin as [Hin|Hin]; [discriminate|]).
      by apply elem_of_nil in Hin.
Defined.

(** * Further properties *)

(** ** The catalog *)

Lemma block_offsets_dense_witness :
  exists info,
    load_skim_info Sample.data "taz" ["dist.omx"; "time.omx"] Sample.am_pm = Ok info
    /\ od_values (block_offsets info) ≡ₚ seq 0 (num_skims info).
Proof.
  eexists. split; [vm_compute; reflexivity|].
  apply (block_offsets_dense Sample.data "taz" ["dist.omx"; "time.omx"] Sample.am_pm _ eq_refl).
  intros k Hin Hin'. vm_compute in Hin, Hin'.
  apply elem_of_cons in Hin as [Heq|Hin].
  - injection Heq as ->.
    repeat (apply elem_of_cons in Hin' as [Hin'|Hin']; [discriminate|]).
    by apply elem_of_nil in Hin'.
  - repeat (apply elem_of_cons in Hin as [Hin|Hin]; [discriminate|]).
    by apply elem_of_nil in Hin.
Defined.

(** X2: the keys of a catalog.  Two matrix names never share a skim
    key; a returned catalog has exactly one key per retained matrix
    name, in the order of the manifest, [omx_keys] maps every key back
    to its matrix name, and [num_skims] counts the retained names. *)
Theorem catalog_keys data tag names periods info :
  load_skim_info data tag names periods = Ok info ->
  let retained :=
    filter (fun x => skipped (tags_to_load_of periods) x = false)
      (od_keys (omx_manifest info)) in
  (forall a b, skim_key_of a = skim_key_of b -> a = b)
  /\ od_keys (omx_keys info) = map skim_key_of retained
  /\ od_values (omx_keys info) = retained
  /\ NoDup (od_keys (omx_keys info))
  /\ num_skims info = length retained
  /\ forall x, x ∈ retained -> od_get (skim_key_of x) (omx_keys info) = Some x.
Proof.
  intros Hload retained.
  destruct (load_skim_info_files_exist _ _ _ _ _ Hload) as [fs Hfs].
  pose proof (load_skim_info_spec data tag names periods fs Hfs) as Hspec.
  rewrite Hload in Hspec.
  destruct Hspec as (_ & Hnd & _ & _ & _ & _ & _ & Hman & _ & Hkeys & Hnum & _).
  assert (od_keys (omx_manifest info) = all_names fs) as Hnames.
  { rewrite Hman. apply od_keys_manifest_of. by eapply files_of_length. }
  unfold retained. rewrite Hnames.
  assert (od_keys (omx_keys info)
          = map skim_key_of
              (filter (fun x => skipped (tags_to_load_of periods) x = false) (all_names fs)))
    as Hk.
  { rewrite Hkeys. unfold od_keys. rewrite map_map. done. }
  assert (NoDup (od_keys (omx_keys info))) as Hndk.
  { rewrite Hk. by apply retained_keys_NoDup. }
  split_and!.
  - apply skim_key_of_inj.
  - done.
  - rewrite Hkeys. unfold od_values. rewrite map_map. simpl. apply map_id.
  - done.
  - rewrite Hnum, Hkeys. by rewrite length_map.
  - intros x Hx. apply od_get_NoDup; [done|].
    rewrite Hkeys. apply list_elem_of_fmap. by exists x.
Qed.

Lemma catalog_keys_witness :
  exists info,
    load_skim_info Sample.data "taz" ["dist.omx"; "time.omx"] Sample.am_pm = Ok info
    /\ od_values (omx_keys info) = ["DIST"; "TIME__AM"; "TIME__PM"]
    /\ num_skims info = 3.
Proof.
  eexists. split; [vm_compute; reflexivity|].
  pose proof (catalog_keys Sample.data "taz" ["dist.omx"; "time.omx"] Sample.am_pm _ eq_refl)
    as (_ & _ & Hvals & _ & Hnum & _).
  split; [exact Hvals | exact Hnum].
Defined.

(** X3: the shape of a catalog.  When [load_skim_info] returns, every
    listed file exists and reports the shape recorded as [omx_shape],
    the manifest holds the matrix names of all files in the order of
    enumeration, and [omx_shape] is None exactly when no file was
    listed (then the catalog has no skims). *)
Theorem catalog_shape data tag names periods info :
  load_skim_info data tag names periods = Ok info ->
  exists fs,
    files_of data names = Some fs
    /\ Forall (fun f => omx_shape info = Some (file_shape f)) fs
    /\ od_keys (omx_manifest info) = all_names fs
    /\ (omx_shape info = None <-> names = [])
    /\ (names = [] -> num_skims info = 0).
Proof.
  intros Hload.
  destruct (load_skim_info_files_exist _ _ _ _ _ Hload) as [fs Hfs].
  pose proof (load_skim_info_spec data tag names periods fs Hfs) as Hspec.
  rewrite Hload in Hspec.
  destruct Hspec as (Hagree & _ & _ & _ & _ & _ & Hshape & Hman & _ & Hkeys & Hnum & _).
  pose proof (files_of_length _ _ _ Hfs) as Hlen.
  exists fs. split_and!.
  - done.
  - rewrite Hshape. destruct fs as [|f fs]; [apply Forall_nil_2|]. simpl in *.
    eapply Forall_impl; [exact Hagree|]. intros f' Hf'. simpl in Hf'. by rewrite Hf'.
  - rewrite Hman. by apply od_keys_manifest_of.
  - rewrite Hshape. destruct fs, names; simpl in *; try done.
  - intros ->. destruct fs; [|done]. rewrite Hnum, Hkeys. done.
Qed.

Lemma catalog_shape_witness :
  exists info,
    load_skim_info Sample.data "taz" ["dist.omx"; "time.omx"] Sample.am_pm = Ok info
    /\ omx_shape info = Some (2, 2).
Proof.
  eexists. split; [vm_compute; reflexivity|].
  destruct (catalog_shape Sample.data "taz" ["dist.omx"; "time.omx"] Sample.am_pm _ eq_refl)
    as (fs & Hfs & Hall & _).
  vm_compute in Hfs. injection Hfs as <-.
  apply Forall_cons in Hall as [Hshape _]. exact Hshape.
Defined.

(** ** The constructor and the methods *)

Lemma od_mem_false {V} (k : string) (d : list (string * V)) :
  od_mem k d = false <-> k ∉ od_keys d.
Proof.
  unfold od_mem. rewrite <- od_get_None. destruct (od_get k d); split; done.
Qed.

Lemma od_mem_true {V} (k : string) (d : list (string * V)) :
  od_mem k d = true <-> k ∈ od_keys d.
Proof.
  rewrite <- od_get_is_Some. unfold od_mem.
  destruct (od_get k d); split; try done; by intros [? ?].
Qed.

(** what a returned loop of lines 387-390 has stored *)
Lemma load_all_skim_info_spec {skim_dict} cfg items
    (self self' : gmap string (pyval skim_dict)) infos p :
  self !! "skim_info" = Some (VSkimInfo infos) ->
  self !! "skim_time_periods" = Some (periods_val p) ->
  load_all_skim_info cfg items self = (self', Ok tt) ->
  exists added,
    self' !! "skim_info" = Some (VSkimInfo (infos ++ added))
    /\ (forall name, name ≠ "skim_info" -> self' !! name = self !! name)
    /\ NoDup (od_keys added)
    /\ (forall tag, tag ∈ od_keys added -> tag ∉ od_keys infos)
    /\ Forall2 (fun item entry =>
                  entry.1 = item.1
                  /\ load_skim_info (omx_files cfg) item.1 (as_file_list item.2) p
                     = Ok entry.2) items added.
Proof.
  revert self infos. induction items as [|[tag spec] items IH]; intros self infos Hinfo Hper; simpl.
  - intros [= <-]. exists []. rewrite app_nil_r.
    split_and!; [done | done | apply NoDup_nil_2 | by intros ? ?%elem_of_nil | apply Forall2_nil_2].
  - intros Hload.
    apply mbind_Ok in Hload as (info & s1 & Hmeth & Hload).
    unfold load_skim_info_method in Hmeth.
    apply mbind_Ok in Hmeth as (infos0 & s0 & Hget & Hmeth).
    unfold get_skim_info in Hget.
    apply mbind_Ok in Hget as (v & s00 & Hget & Hv).
    unfold getattr in Hget. rewrite Hinfo in Hget. injection Hget as <- <-.
    unfold ret in Hv. injection Hv as <- <-.
    destruct (od_mem tag infos) eqn:Hmem; [done|].
    apply od_mem_false in Hmem.
    apply mbind_Ok in Hmeth as (v & s00 & Hget & Hmeth).
    unfold getattr in Hget. rewrite Hper in Hget. injection Hget as <- <-.
    assert (s1 = self /\ load_skim_info (omx_files cfg) tag (as_file_list spec) p = Ok info)
      as [-> Hinfo1].
    { destruct p; simpl in Hmeth; unfold lift in Hmeth; by injection Hmeth as <- ->. }
    clear Hmeth.
    apply mbind_Ok in Hload as (infos0 & s0 & Hget & Hload).
    unfold get_skim_info in Hget.
    apply mbind_Ok in Hget as (v & s00 & Hget & Hv).
    unfold getattr in Hget. rewrite Hinfo in Hget. injection Hget as <- <-.
    unfold ret in Hv. injection Hv as <- <-.
    apply mbind_Ok in Hload as ([] & s2 & Hset & Hload).
    unfold setattr in Hset. injection Hset as <-.
    rewrite od_set_absent in Hload by by apply od_get_None.
    eapply IH in Hload as (added & Hinfo' & Hframe & Hnd & Hfresh & Hall);
      [| apply lookup_insert_eq | by rewrite lookup_insert_ne].
    exists ((tag, info) :: added).
    split_and!.
    + by rewrite <- app_assoc in Hinfo'.
    + intros name Hname. rewrite (Hframe name Hname). by rewrite lookup_insert_ne.
    + simpl. apply NoDup_cons. split; [|done].
      intros Hin. apply (Hfresh tag Hin).
      unfold od_keys. rewrite map_app. simpl. apply elem_of_app. right. apply list_elem_of_singleton. done.
    + intros t Ht. simpl in Ht. apply elem_of_cons in Ht as [->|Ht]; [done|].
      intros Hin. apply (Hfresh t Ht).
      unfold od_keys. rewrite map_app. apply elem_of_app. by left.
    + apply Forall2_cons. split; [done|done].
Qed.

Lemma check_required_tables_spec {skim_dict} names
    (self self' : gmap string (pyval skim_dict)) table_info :
  self !! "table_info" = Some (VTableInfo table_info) ->
  check_required_tables names self = (self', Ok tt) ->
  self' = self /\ forall name, name ∈ names -> is_Some (table_info !! name).
Proof.
  intros Hti. induction names as [|name names IH]; simpl.
  - intros [= <-]. split; [done|]. by intros ? ?%elem_of_nil.
  - intros Hc.
    apply mbind_Ok in Hc as (ti & s0 & Hget & Hc).
    unfold get_table_info in Hget.
    apply mbind_Ok in Hget as (v & s00 & Hget & Hv).
    unfold getattr in Hget. rewrite Hti in Hget. injection Hget as <- <-.
    unfold ret in Hv. injection Hv as <- <-.
    destruct (table_info !! name) eqn:Hname; [|done].
    destruct (IH Hc) as [-> Hall]. split; [done|].
    intros n [->|Hn]%elem_of_cons; [by eexists | by apply Hall].
Qed.

Ltac attr_lookup :=
  repeat first [ rewrite lookup_insert_eq | rewrite lookup_insert_ne by done ].

(** the object that a returned constructor leaves *)
Lemma Network_LOS_spec {skim_dict} cfg (self : gmap string (pyval skim_dict)) :
  Network_LOS cfg = Ok self ->
  exists los z items infos,
    constructed cfg los z infos self
    /\ z ∈ [ONE_ZONE; TWO_ZONE]
    /\ skims los = Some items
    /\ catalogs_of cfg items infos
    /\ NoDup (od_keys infos)
    /\ "taz" ∈ od_keys infos
    /\ (z = TWO_ZONE ->
        forall name, name ∈ REQUIRED_TWO_ZONE_TABLES ->
                     is_Some (default ∅ (tables los) !! name)).
Proof.
  unfold Network_LOS.
  destruct (__init__ cfg ∅) as [s r] eqn:Hinit. destruct r as [[]|e]; [|done].
  intros [= ->].
  unfold __init__ in Hinit.
  repeat (apply mbind_Ok in Hinit as ([] & ? & [= <-] & Hinit)).
  unfold read_los_settings in Hinit.
  destruct (network_los cfg) as [los|] eqn:Hlos; [|done].
  apply mbind_Ok in Hinit as ([] & ? & [= <-] & Hinit).
  apply mbind_Ok in Hinit as (zs & ? & Hget & Hinit).
  unfold getattr in Hget. rewrite lookup_insert_eq in Hget. injection Hget as <- <-.
  destruct (zone_system los) as [z|] eqn:Hz; [|done].
  simpl in Hinit.
  destruct (bool_decide (z ∈ [ONE_ZONE; TWO_ZONE])) eqn:Hzin; [|done].
  apply bool_decide_eq_true in Hzin. simpl in Hinit.
  destruct (skims los) as [items|] eqn:Hitems; [|done].
  apply mbind_Ok in Hinit as ([] & s1 & Hall & Hinit).
  eapply (load_all_skim_info_spec _ _ _ _ [] (skim_time_periods cfg)) in Hall
    as (infos & Hinfo & Hframe & Hnd & _ & Hcat); [|done..].
  simpl in Hinfo.
  apply mbind_Ok in Hinit as (infos0 & ? & Hget & Hinit).
  unfold get_skim_info in Hget.
  apply mbind_Ok in Hget as (v & s00 & Hget & Hv).
  unfold getattr in Hget. rewrite Hinfo in Hget. injection Hget as <- <-.
  unfold ret in Hv. injection Hv as <- <-.
  destruct (od_mem "taz" infos) eqn:Htaz; [|done].
  apply od_mem_true in Htaz. simpl in Hinit.
  apply mbind_Ok in Hinit as (zs & ? & Hget & Hinit).
  unfold getattr in Hget. rewrite Hframe in Hget by done.
  rewrite lookup_insert_eq in Hget. injection Hget as <- <-.
  apply mbind_Ok in Hinit as ([] & s2 & Htab & Hinit).
  unfold setattr in Hinit. injection Hinit as <-.
  assert (z = TWO_ZONE \/ z = ONE_ZONE) as Hcases.
  { apply elem_of_cons in Hzin as [->|Hzin]; [by right|].
    apply list_elem_of_singleton in Hzin. by left. }
  assert ((z = TWO_ZONE
           /\ s2 = <["table_info" := VTableInfo (default ∅ (tables los))]> s1
           /\ forall name, name ∈ REQUIRED_TWO_ZONE_TABLES ->
                           is_Some (default ∅ (tables los) !! name))
          \/ (z = ONE_ZONE /\ s2 = s1)) as Hstep.
  { unfold val_in in Htab. destruct Hcases as [-> | ->].
    - left. rewrite bool_decide_eq_true_2 in Htab by (apply elem_of_cons; by left).
      apply mbind_Ok in Htab as ([] & ? & [= <-] & Htab).
      apply (check_required_tables_spec REQUIRED_TWO_ZONE_TABLES _ _
               (default ∅ (tables los))) in Htab as [-> Hall]; [|apply lookup_insert_eq].
      done.
    - right. rewrite bool_decide_eq_false_2 in Htab.
      + by injection Htab as <-.
      + intros [Hc|Hc]%elem_of_cons; [done|].
        apply list_elem_of_singleton in Hc. done. }
  clear Htab.
  exists los, z, items, infos.
  split_and!; [| done..|].
  - split; [done | done | ..];
      try (rewrite lookup_insert_ne by done;
           destruct Hstep as [(_ & -> & _) | (_ & ->)];
           rewrite ?(lookup_insert_ne _ "table_info") by done;
           first [ exact Hinfo | rewrite Hframe by done; by attr_lookup ]).
    + apply lookup_insert_eq.
    + rewrite lookup_insert_ne by done.
      destruct Hstep as [(-> & -> & _) | (-> & ->)].
      * by rewrite lookup_insert_eq.
      * rewrite Hframe by done. by attr_lookup.
  - intros Hz2. destruct Hstep as [(_ & _ & Hall) | (-> & _)]; done.
Qed.

(** name the attributes of a constructed object *)
Ltac ctor_fields Hc :=
  destruct Hc as [Hc_settings Hc_zone_setting Hc_zone_system Hc_skim_time_periods
                  Hc_skim_info Hc_skim_dicts Hc_skim_buffers Hc_table_info
                  Hc_maz_to_taz_df Hc_maz_to_maz_df Hc_maz_to_maz_cardinality].

Lemma catalogs_of_keys cfg items infos :
  catalogs_of cfg items infos -> od_keys infos = map fst items.
Proof.
  unfold catalogs_of. induction 1 as [|item entry items infos [Hk _] _ IH]; [done|].
  simpl. by rewrite Hk, IH.
Qed.

Lemma catalogs_of_get cfg items infos tag spec :
  catalogs_of cfg items infos ->
  NoDup (od_keys infos) ->
  (tag, spec) ∈ items ->
  exists info,
    od_get tag infos = Some info
    /\ load_skim_info (omx_files cfg) tag (as_file_list spec) (skim_time_periods cfg)
       = Ok info.
Proof.
  intros Hcat Hnd Hin.
  apply list_elem_of_lookup in Hin as [i Hi].
  destruct (Forall2_lookup_l _ _ _ _ _ Hcat Hi) as ([tag' info] & Hentry & Hk & Hload).
  simpl in Hk, Hload. subst tag'. exists info. split; [|done].
  apply od_get_NoDup; [done|]. by eapply list_elem_of_lookup_2.
Qed.

Lemma catalogs_of_entry cfg items infos tag info :
  catalogs_of cfg items infos ->
  (tag, info) ∈ infos ->
  exists spec,
    (tag, spec) ∈ items
    /\ load_skim_info (omx_files cfg) tag (as_file_list spec) (skim_time_periods cfg)
       = Ok info.
Proof.
  intros Hcat Hin.
  apply list_elem_of_lookup in Hin as [i Hi].
  destruct (Forall2_lookup_r _ _ _ _ _ Hcat Hi) as ([tag' spec] & Hitem & Hk & Hload).
  simpl in Hk, Hload. subst tag'. exists spec. split; [|done].
  by eapply list_elem_of_lookup_2.
Qed.

(** X4: the new object.  When the constructor returns, the settings
    name zone system 1 or 2, the object holds one catalog per entry of
    the setting [skims], in the order of the entries and each the
    result of [load_skim_info] for that entry, the tags are distinct
    and include 'taz', no skim dictionary or buffer exists yet, and
    on a two-zone system both required tables are listed in
    [table_info]. *)
Theorem constructor_postcondition {skim_dict} cfg (self : gmap string (pyval skim_dict)) :
  Network_LOS cfg = Ok self ->
  exists los z items infos,
    network_los cfg = Some los
    /\ zone_system los = Some z
    /\ z ∈ [ONE_ZONE; TWO_ZONE]
    /\ skims los = Some items
    /\ self !! "zone_system" = Some (VInt z)
    /\ self !! "skim_info" = Some (VSkimInfo infos)
    /\ od_keys infos = map fst items
    /\ NoDup (map fst items)
    /\ "taz" ∈ map fst items
    /\ (forall tag spec, (tag, spec) ∈ items ->
          exists info,
            od_get tag infos = Some info
            /\ load_skim_info (omx_files cfg) tag (as_file_list spec)
                 (skim_time_periods cfg) = Ok info)
    /\ self !! "skim_dicts" = Some (VSkimDicts [])
    /\ self !! "skim_buffers" = Some (VSkimBuffers [])
    /\ self !! "maz_to_maz_df" = Some VNone
    /\ (z = TWO_ZONE ->
        exists table_info,
          self !! "table_info" = Some (VTableInfo table_info)
          /\ forall name, name ∈ REQUIRED_TWO_ZONE_TABLES -> is_Some (table_info !! name)).
Proof.
  intros Hnew.
  apply Network_LOS_spec in Hnew
    as (los & z & items & infos & Hc & Hz & Hitems & Hcat & Hnd & Htaz & Htab).
  pose proof (catalogs_of_keys _ _ _ Hcat) as Hkeys.
  exists los, z, items, infos. ctor_fields Hc.
  split_and!; try done.
  - by rewrite <- Hkeys.
  - by rewrite <- Hkeys.
  - intros tag spec Hin. by eapply catalogs_of_get.
  - intros ->. eexists. split; [|by apply Htab].
    rewrite Hc_table_info. by rewrite decide_True.
Qed.

Lemma constructor_postcondition_witness :
  Network_LOS SampleObject.cfg = Ok SampleObject.one_zone_object
  /\ SampleObject.one_zone_object !! "skim_buffers" = Some (VSkimBuffers []).
Proof.
  assert (Network_LOS SampleObject.cfg = Ok SampleObject.one_zone_object) as Hnew.
  { vm_compute. reflexivity. }
  split; [exact Hnew|].
  destruct (constructor_postcondition SampleObject.cfg SampleObject.one_zone_object Hnew)
    as (los & z & items & infos & _ & _ & _ & _ & _ & _ & _ & _ & _ & _ & _ & Hb & _).
  exact Hb.
Defined.

(** X5: the settings are read once.  On an object that the constructor
    returned, a further call of [read_los_settings] always stops at the
    assertion of [load_skim_info] for the first entry of the setting
    [skims], whose tag is already loaded, and leaves the object as it
    was. *)
Theorem read_los_settings_again {skim_dict} cfg (self : gmap string (pyval skim_dict)) :
  Network_LOS cfg = Ok self ->
  exists los tag spec rest,
    network_los cfg = Some los
    /\ skims los = Some ((tag, spec) :: rest)
    /\ read_los_settings cfg self = (self, Err (SkimTagLoaded tag)).
Proof.
  intros Hnew.
  apply Network_LOS_spec in Hnew
    as (los & z & items & infos & Hc & Hz & Hitems & Hcat & Hnd & Htaz & Htab).
  ctor_fields Hc.
  destruct Hcat as [|[tag spec] [tag' info] items infos [Hk _] Hcat].
  { by apply elem_of_nil in Htaz. }
  simpl in Hk. subst tag'.
  exists los, tag, spec, items. split_and!; [done..|].
  unfold read_los_settings. rewrite Hc_settings, Hitems, Hc_zone_setting.
  unfold mbind at 1. unfold setattr at 1. simpl int_val.
  rewrite (insert_id self "zone_system" (VInt z)) by done.
  unfold mbind at 1. unfold getattr at 1. rewrite Hc_zone_system.
  unfold val_in at 1. rewrite bool_decide_eq_true_2 by done.
  cbn [negb].
  cbn [load_all_skim_info]. unfold load_skim_info_method, get_skim_info.
  unfold mbind, getattr, ret. rewrite Hc_skim_info.
  unfold od_mem. cbn [od_get]. rewrite decide_True by done. done.
Qed.

Lemma read_los_settings_again_witness :
  read_los_settings SampleObject.cfg SampleObject.one_zone_object
  = (SampleObject.one_zone_object, Err (SkimTagLoaded "taz")).
Proof.
  assert (Network_LOS SampleObject.cfg = Ok SampleObject.one_zone_object) as Hnew.
  { vm_compute. reflexivity. }
  destruct (read_los_settings_again SampleObject.cfg SampleObject.one_zone_object Hnew)
    as (los & tag & spec & rest & Hlos & Hskims & Hread).
  vm_compute in Hlos. injection Hlos as <-.
  vm_compute in Hskims. injection Hskims as <- _ _.
  exact Hread.
Defined.

(** X6: one-zone systems have no zone-pair table.  On a new object of
    zone system 1, [load_all_tables] returns without reading a file or
    changing the object, and [get_mazpairs] called for at least one
    origin then fails with the TypeError of multiplying by the
    cardinality None. *)
Theorem one_zone_has_no_tables {skim_dict} cfg (self : gmap string (pyval skim_dict))
    omaz dmaz attribute :
  Network_LOS cfg = Ok self ->
  self !! "zone_system" = Some (VInt ONE_ZONE) ->
  omaz ≠ [] ->
  load_all_tables cfg self = (self, Ok tt)
  /\ get_mazpairs omaz dmaz attribute self = (self, Err TypeError).
Proof.
  intros Hnew Hzone _.
  apply Network_LOS_spec in Hnew
    as (los & z & items & infos & Hc & _).
  ctor_fields Hc. split.
  - unfold load_all_tables, mbind, getattr. rewrite Hzone.
    unfold val_in. rewrite bool_decide_eq_false_2; [done|].
    intros [Hc|Hc]%elem_of_cons; [done|]. by apply list_elem_of_singleton in Hc.
  - unfold get_mazpairs, mbind, getattr. by rewrite Hc_maz_to_maz_cardinality.
Qed.

Lemma one_zone_has_no_tables_witness :
  load_all_tables SampleObject.cfg SampleObject.one_zone_object
  = (SampleObject.one_zone_object, Ok tt)
  /\ get_mazpairs [1]%Z [2]%Z "walk_dist" SampleObject.one_zone_object
     = (SampleObject.one_zone_object, Err TypeError).
Proof.
  apply (one_zone_has_no_tables SampleObject.cfg SampleObject.one_zone_object).
  - vm_compute. reflexivity.
  - vm_compute. reflexivity.
  - discriminate.
Defined.

(** the shared buffer of a catalog of [load_skim_info] *)
Lemma catalog_shared_buffer data tag names periods info :
  load_skim_info data tag names periods = Ok info ->
  omx_file_names info = names
  /\ allocate_skim_buffer info true
     = match omx_shape info with
       | Some (r, c) => Ok (RawArray "f" (repeat Byte.x00 (r * c * num_skims info * 4)))
       | None => Err TypeError
       end.
Proof.
  unfold load_skim_info.
  destruct (scan_files data names scan_init) as [st|e]; [|done]. simpl.
  destruct (build_block_offsets _ _ _ _) as [offsets|e]; [|done]. simpl.
  intros [= <-]. split; [done|].
  unfold allocate_skim_buffer. simpl.
  destruct (st_shape st) as [[r c]|]; [|done]. simpl. done.
Qed.

(** a catalog has no shape exactly when no file was listed *)
Lemma catalog_no_shape data tag names periods info :
  load_skim_info data tag names periods = Ok info ->
  omx_shape info = None <-> names = [].
Proof.
  intros Hload.
  destruct (load_skim_info_files_exist _ _ _ _ _ Hload) as [fs Hfs].
  pose proof (load_skim_info_spec data tag names periods fs Hfs) as Hspec.
  rewrite Hload in Hspec.
  destruct Hspec as (_ & _ & _ & _ & _ & _ & Hshape & _).
  pose proof (files_of_length _ _ _ Hfs) as Hlen.
  rewrite Hshape. destruct fs, names; simpl in *; done.
Qed.

(** the loop of lines 473-474 when every buffer can be allocated *)
Lemma allocate_buffers_spec {skim_dict} tags
    (self : gmap string (pyval skim_dict)) infos buffers news :
  self !! "skim_info" = Some (VSkimInfo infos) ->
  self !! "skim_buffers" = Some (VSkimBuffers buffers) ->
  Forall2 (fun tag new =>
             new.1 = tag
             /\ exists info, od_get tag infos = Some info
                             /\ allocate_skim_buffer info true = Ok new.2) tags news ->
  NoDup tags ->
  (forall tag, tag ∈ tags -> tag ∉ od_keys buffers) ->
  allocate_buffers tags self
  = (<["skim_buffers" := VSkimBuffers (buffers ++ news)]> self, Ok tt).
Proof.
  intros Hinfo Hbuf Hall. revert self buffers Hinfo Hbuf.
  induction Hall as [|tag [tag' b] tags news (Hk & info & Hget & Halloc) _ IH];
    intros self buffers Hinfo Hbuf Hnd Hfresh.
  - simpl. rewrite app_nil_r. by rewrite insert_id.
  - simpl in Hk, Halloc. subst tag'.
    apply NoDup_cons in Hnd as [Hnotin Hnd].
    cbn [allocate_buffers]. unfold get_skim_info, get_skim_buffers.
    unfold mbind at 1. unfold mbind at 1. unfold getattr at 1. rewrite Hinfo.
    unfold ret at 1. rewrite Hget.
    unfold mbind at 1. unfold lift. rewrite Halloc.
    unfold mbind at 1. unfold mbind at 1. unfold getattr at 1. rewrite Hbuf.
    unfold ret at 1.
    unfold mbind at 1. unfold setattr at 1.
    rewrite od_set_absent.
    2:{ apply od_get_None. apply Hfresh. apply elem_of_cons. by left. }
    rewrite (IH _ (buffers ++ [(tag, b)])).
    + rewrite insert_insert_eq. by rewrite <- app_assoc.
    + by rewrite lookup_insert_ne.
    + apply lookup_insert_eq.
    + done.
    + intros t Ht. unfold od_keys. rewrite map_app. simpl.
      intros [Hin|Hin]%elem_of_app.
      * apply (Hfresh t); [apply elem_of_cons; by right | done].
      * apply list_elem_of_singleton in Hin. by subst t.
Qed.

(** the loop of lines 473-474 when the catalog of some tag has no
    shape: the allocation for the first such tag raises a TypeError *)
Lemma allocate_buffers_fails {skim_dict} tags
    (self : gmap string (pyval skim_dict)) infos buffers :
  self !! "skim_info" = Some (VSkimInfo infos) ->
  self !! "skim_buffers" = Some (VSkimBuffers buffers) ->
  Forall (fun tag =>
            exists info, od_get tag infos = Some info
                         /\ (is_ok (allocate_skim_buffer info true) = true
                             \/ allocate_skim_buffer info true = Err TypeError)) tags ->
  Exists (fun tag =>
            exists info, od_get tag infos = Some info
                         /\ allocate_skim_buffer info true = Err TypeError) tags ->
  (allocate_buffers tags self).2 = Err TypeError.
Proof.
  intros Hinfo Hbuf Hall. revert self buffers Hinfo Hbuf.
  induction Hall as [|tag tags (info & Hget & Hcase) _ IH];
    intros self buffers Hinfo Hbuf Hex.
  - by apply Exists_nil in Hex.
  - cbn [allocate_buffers]. unfold get_skim_info, get_skim_buffers.
    unfold mbind at 1. unfold mbind at 1. unfold getattr at 1. rewrite Hinfo.
    unfold ret at 1. rewrite Hget.
    unfold mbind at 1. unfold lift.
    destruct (allocate_skim_buffer info true) as [b|e] eqn:Halloc.
    + unfold mbind at 1. unfold mbind at 1. unfold getattr at 1. rewrite Hbuf.
      unfold ret at 1. unfold mbind at 1. unfold setattr at 1.
      apply (IH _ (od_set tag b buffers)).
      * by rewrite lookup_insert_ne.
      * apply lookup_insert_eq.
      * apply Exists_cons in Hex as [(info' & Hget' & Hbad)|Hex]; [|done].
        rewrite Hget in Hget'. injection Hget' as <-. by rewrite Halloc in Hbad.
    + destruct Hcase as [Hc|Hc]; [done|]. by injection Hc as ->.
Qed.

(** X7: shared buffers of a new object.  On an object that the
    constructor returned, [allocate_shared_skim_buffers] succeeds when
    every entry of the setting [skims] lists at least one file: it
    stores and returns one zero-filled RawArray of typecode 'f' per
    skim tag, in the order of the tags, of rows * columns * num_skims
    four-byte elements, and a second call fails because buffers
    exist.  When some entry lists no file the call raises TypeError. *)
Theorem shared_buffers_of_new_object {skim_dict} cfg (self : gmap string (pyval skim_dict)) :
  Network_LOS cfg = Ok self ->
  exists los items infos,
    network_los cfg = Some los
    /\ skims los = Some items
    /\ self !! "skim_info" = Some (VSkimInfo infos)
    /\ ((forall tag spec, (tag, spec) ∈ items -> as_file_list spec ≠ []) ->
        exists buffers,
          let self' := <["skim_buffers" := VSkimBuffers buffers]> self in
          allocate_shared_skim_buffers self = (self', Ok buffers)
          /\ Forall2 (fun (entry : string * skim_info) (b : string * skim_buffer) =>
                        b.1 = entry.1
                        /\ exists r c,
                             omx_shape entry.2 = Some (r, c)
                             /\ b.2 = RawArray "f"
                                        (repeat Byte.x00 (r * c * num_skims entry.2 * 4)))
               infos buffers
          /\ allocate_shared_skim_buffers self' = (self', Err BuffersAllocated))
    /\ ((exists tag spec, (tag, spec) ∈ items /\ as_file_list spec = []) ->
        (allocate_shared_skim_buffers self).2 = Err TypeError).
Proof.
  intros Hnew.
  apply Network_LOS_spec in Hnew
    as (los & z & items & infos & Hc & Hz & Hitems & Hcat & Hnd & Htaz & Htab).
  ctor_fields Hc.
  exists los, items, infos. split_and!; [done..| |].
  - intros Hfiles.
    set (buffer_of := fun info : skim_info =>
           RawArray "f"
             (repeat Byte.x00
                (match omx_shape info with
                 | Some (r, c) => r * c * num_skims info * 4
                 | None => 0
                 end))).
    set (news := map (fun entry : string * skim_info => (entry.1, buffer_of entry.2)) infos).
    assert (forall tag info, (tag, info) ∈ infos ->
              exists r c, omx_shape info = Some (r, c)
                          /\ allocate_skim_buffer info true = Ok (buffer_of info)) as Hentry.
    { intros tag info Hin.
      destruct (catalogs_of_entry _ _ _ _ _ Hcat Hin) as (spec & Hspec & Hload).
      destruct (catalog_shared_buffer _ _ _ _ _ Hload) as [_ Halloc].
      pose proof (catalog_no_shape _ _ _ _ _ Hload) as Hnone.
      unfold buffer_of.
      destruct (omx_shape info) as [[r c]|].
      - by exists r, c.
      - exfalso. apply (Hfiles tag spec Hspec). by apply Hnone. }
    exists news. cbv zeta. split_and!.
    + unfold allocate_shared_skim_buffers, get_skim_buffers, get_skim_info.
      unfold mbind at 1. unfold mbind at 1. unfold getattr at 1.
      rewrite Hc_skim_buffers. unfold ret at 1.
      unfold mbind at 1. unfold mbind at 1. unfold getattr at 1.
      rewrite Hc_skim_info. unfold ret at 1.
      unfold mbind at 1.
      rewrite (allocate_buffers_spec (od_keys infos) self infos [] news); try done.
      * unfold mbind, getattr, ret. by rewrite lookup_insert_eq.
      * unfold news, od_keys. apply Forall2_fmap. apply Forall_Forall2_diag.
        apply Forall_forall. intros [tag info] Hin. simpl. split; [done|].
        exists info. split; [by apply od_get_NoDup|].
        by destruct (Hentry _ _ Hin) as (r & c & _ & Halloc).
      * by intros ? _ ?%elem_of_nil.
    + unfold news. apply Forall2_fmap_r. apply Forall_Forall2_diag.
      apply Forall_forall. intros [tag info] Hin. simpl. split; [done|].
      destruct (Hentry _ _ Hin) as (r & c & Hshape & _).
      exists r, c. split; [done|]. unfold buffer_of. by rewrite Hshape.
    + unfold allocate_shared_skim_buffers, get_skim_buffers.
      unfold mbind, getattr, ret. rewrite lookup_insert_eq.
      unfold news. destruct infos; [by apply elem_of_nil in Htaz | done].
  - intros (tag & spec & Hin & Hempty).
    unfold allocate_shared_skim_buffers, get_skim_buffers, get_skim_info.
    unfold mbind at 1. unfold mbind at 1. unfold getattr at 1.
    rewrite Hc_skim_buffers. unfold ret at 1.
    unfold mbind at 1. unfold mbind at 1. unfold getattr at 1.
    rewrite Hc_skim_info. unfold ret at 1.
    unfold mbind at 1.
    pose proof (allocate_buffers_fails (od_keys infos) self infos [] Hc_skim_info
                  Hc_skim_buffers) as Hfail.
    destruct (allocate_buffers (od_keys infos) self) as [s r]. simpl in Hfail.
    rewrite Hfail; [done| |].
    + apply Forall_forall. intros t Ht.
      apply od_get_is_Some in Ht as [info Hget]. exists info. split; [done|].
      destruct (catalogs_of_entry _ _ _ _ _ Hcat (od_get_elem_of _ _ _ Hget))
        as (spec' & _ & Hload).
      destruct (catalog_shared_buffer _ _ _ _ _ Hload) as [_ ->].
      destruct (omx_shape info) as [[r' c']|]; [by left | by right].
    + apply Exists_exists. exists tag.
      destruct (catalogs_of_get _ _ _ _ _ Hcat Hnd Hin) as (info & Hget & Hload).
      split; [by eapply od_get_Some_keys|].
      exists info. split; [done|].
      destruct (catalog_shared_buffer _ _ _ _ _ Hload) as [_ ->].
      by rewrite (proj2 (catalog_no_shape _ _ _ _ _ Hload) Hempty).
Qed.

Lemma shared_buffers_of_new_object_witness :
  exists buffers,
    allocate_shared_skim_buffers SampleObject.one_zone_object
    = (<["skim_buffers" := VSkimBuffers buffers]> SampleObject.one_zone_object, Ok buffers).
Proof.
  assert (Network_LOS SampleObject.cfg = Ok SampleObject.one_zone_object) as Hnew.
  { vm_compute. reflexivity. }
  destruct (shared_buffers_of_new_object SampleObject.cfg SampleObject.one_zone_object Hnew)
    as (los & items & infos & Hlos & Hitems & _ & Hok & _).
  vm_compute in Hlos. injection Hlos as <-.
  vm_compute in Hitems. injection Hitems as <-.
  destruct Hok as (buffers & Halloc & _).
  - intros tag spec Hin. apply list_elem_of_singleton in Hin.
    injection Hin as -> ->. discriminate.
  - exists buffers. exact Halloc.
Defined.

(** the loop of lines 458-459 when every dictionary can be created *)
Lemma load_skim_dicts_spec {skim_dict}
    (create_skim_dict : string -> skim_info -> result skim_dict) tags
    (self : gmap string (pyval skim_dict)) infos dicts news :
  self !! "skim_info" = Some (VSkimInfo infos) ->
  self !! "skim_dicts" = Some (VSkimDicts dicts) ->
  Forall2 (fun tag new =>
             new.1 = tag
             /\ exists info, od_get tag infos = Some info
                             /\ create_skim_dict tag info = Ok new.2) tags news ->
  NoDup tags ->
  (forall tag, tag ∈ tags -> tag ∉ od_keys dicts) ->
  load_skim_dicts create_skim_dict tags self
  = (<["skim_dicts" := VSkimDicts (dicts ++ news)]> self, Ok tt).
Proof.
  intros Hinfo Hdicts Hall. revert self dicts Hinfo Hdicts.
  induction Hall as [|tag [tag' sd] tags news (Hk & info & Hget & Hmake) _ IH];
    intros self dicts Hinfo Hdicts Hnd Hfresh.
  - simpl. rewrite app_nil_r. by rewrite insert_id.
  - simpl in Hk, Hmake. subst tag'.
    apply NoDup_cons in Hnd as [Hnotin Hnd].
    cbn [load_skim_dicts]. unfold create_skim_dict_method, get_skim_info, get_skim_dicts.
    unfold mbind at 1. unfold mbind at 1. unfold mbind at 1. unfold getattr at 1.
    rewrite Hinfo. unfold ret at 1. rewrite Hget. unfold lift. rewrite Hmake.
    unfold mbind at 1. unfold mbind at 1. unfold getattr at 1. rewrite Hdicts.
    unfold ret at 1.
    unfold mbind at 1. unfold setattr at 1.
    rewrite od_set_absent.
    2:{ apply od_get_None. apply Hfresh. apply elem_of_cons. by left. }
    rewrite (IH _ (dicts ++ [(tag, sd)])).
    + rewrite insert_insert_eq. by rewrite <- app_assoc.
    + by rewrite lookup_insert_ne.
    + apply lookup_insert_eq.
    + done.
    + intros t Ht. unfold od_keys. rewrite map_app. simpl.
      intros [Hin|Hin]%elem_of_app.
      * apply (Hfresh t); [apply elem_of_cons; by right | done].
      * apply list_elem_of_singleton in Hin. by subst t.
Qed.

(** the loop of lines 458-459 raises only what [create_skim_dict]
    raises for one of the tags *)
Lemma load_skim_dicts_errors {skim_dict}
    (create_skim_dict : string -> skim_info -> result skim_dict) tags
    (self : gmap string (pyval skim_dict)) infos dicts e :
  self !! "skim_info" = Some (VSkimInfo infos) ->
  self !! "skim_dicts" = Some (VSkimDicts dicts) ->
  (forall tag, tag ∈ tags -> tag ∈ od_keys infos) ->
  (load_skim_dicts create_skim_dict tags self).2 = Err e ->
  exists tag info,
    tag ∈ tags /\ od_get tag infos = Some info /\ create_skim_dict tag info = Err e.
Proof.
  revert self dicts. induction tags as [|tag tags IH]; intros self dicts Hinfo Hdicts Hin.
  - done.
  - cbn [load_skim_dicts]. unfold create_skim_dict_method, get_skim_info, get_skim_dicts.
    unfold mbind at 1. unfold mbind at 1. unfold mbind at 1. unfold getattr at 1.
    rewrite Hinfo. unfold ret at 1.
    destruct (od_get tag infos) as [info|] eqn:Hget.
    2:{ apply od_get_None in Hget. destruct Hget. apply Hin. apply elem_of_cons. by left. }
    unfold lift.
    destruct (create_skim_dict tag info) as [sd|e'] eqn:Hmake.
    + unfold mbind at 1. unfold mbind at 1. unfold getattr at 1. rewrite Hdicts.
      unfold ret at 1. unfold mbind at 1. unfold setattr at 1.
      intros Herr.
      apply (IH _ (od_set tag sd dicts)) in Herr as (t & i & Ht & Hgt & Hc).
      * exists t, i. split_and!; [apply elem_of_cons; by right | done..].
      * by rewrite lookup_insert_ne.
      * apply lookup_insert_eq.
      * intros t Ht. apply Hin. apply elem_of_cons. by right.
    + simpl. intros [= ->]. exists tag, info. split_and!; [apply elem_of_cons; by left | done..].
Qed.

(** X8: the skim dictionaries of a new object.  On an object that the
    constructor returned, [get_skim_dict] fails for every tag; when
    [create_skim_dict] succeeds for every catalog, [load_all_skims]
    returns and [get_skim_dict] then gives, for every tag of the
    settings, the dictionary that [create_skim_dict] made from the
    catalog of that tag, and still fails for any other tag; and
    [load_all_skims] raises nothing but what [create_skim_dict] raised
    for one of the catalogs. *)
Theorem skim_dicts_of_new_object {skim_dict}
    (create_skim_dict : string -> skim_info -> result skim_dict)
    cfg (self : gmap string (pyval skim_dict)) :
  Network_LOS cfg = Ok self ->
  exists infos,
    self !! "skim_info" = Some (VSkimInfo infos)
    /\ (forall tag, get_skim_dict tag self = (self, Err (SkimDictMissing tag)))
    /\ ((forall tag info, (tag, info) ∈ infos ->
                          is_ok (create_skim_dict tag info) = true) ->
        exists dicts,
          let self' := <["skim_dicts" := VSkimDicts dicts]> self in
          load_all_skims create_skim_dict self = (self', Ok tt)
          /\ forall tag,
               get_skim_dict tag self'
               = (self', match od_get tag infos with
                         | Some info => create_skim_dict tag info
                         | None => Err (SkimDictMissing tag)
                         end))
    /\ (forall e, (load_all_skims create_skim_dict self).2 = Err e ->
                  exists tag info, (tag, info) ∈ infos /\ create_skim_dict tag info = Err e).
Proof.
  intros Hnew.
  apply Network_LOS_spec in Hnew
    as (los & z & items & infos & Hc & Hz & Hitems & Hcat & Hnd & Htaz & Htab).
  ctor_fields Hc.
  exists infos. split_and!; [done| | |].
  - intros tag. unfold get_skim_dict, get_skim_dicts, mbind, getattr, ret.
    by rewrite Hc_skim_dicts.
  - intros Hok.
    assert (forall l, (forall entry, entry ∈ l -> entry ∈ infos) ->
              exists news,
                Forall2 (fun tag new =>
                           new.1 = tag
                           /\ exists info, od_get tag infos = Some info
                                           /\ create_skim_dict tag info = Ok new.2)
                  (od_keys l) news) as Hmake.
    { induction l as [|[tag info] l IH]; intros Hl.
      - exists []. apply Forall2_nil_2.
      - destruct IH as [news Hnews].
        { intros entry Hin. apply Hl. apply elem_of_cons. by right. }
        pose proof (Hl (tag, info) (list_elem_of_here _ _)) as Hin.
        pose proof (Hok tag info Hin) as Hsd.
        destruct (create_skim_dict tag info) as [sd|] eqn:Hcreate; [|done].
        exists ((tag, sd) :: news). simpl. apply Forall2_cons. split; [|done].
        split; [done|]. exists info. split; [by apply od_get_NoDup | done]. }
    destruct (Hmake infos) as [news Hnews]; [done|].
    exists news. cbv zeta.
    assert (od_keys news = od_keys infos) as Hkeys.
    { clear -Hnews. induction Hnews as [|? ? ? ? [Hk _] _ IH]; [done|].
      simpl. by rewrite Hk, IH. }
    split.
    + unfold load_all_skims, get_skim_info.
      unfold mbind at 1. unfold mbind at 1. unfold getattr at 1.
      rewrite Hc_skim_info. unfold ret at 1.
      apply (load_skim_dicts_spec create_skim_dict (od_keys infos) self infos [] news);
        try done.
      by intros ? _ ?%elem_of_nil.
    + intros tag. unfold get_skim_dict, get_skim_dicts, mbind, getattr, ret.
      rewrite lookup_insert_eq.
      destruct (od_get tag infos) as [info|] eqn:Hget.
      * pose proof (od_get_Some_keys _ _ _ Hget) as Hin.
        apply list_elem_of_lookup in Hin as [i Hi].
        destruct (Forall2_lookup_l _ _ _ _ _ Hnews Hi)
          as ([tag' sd] & Hnew & Hk & info' & Hget' & Hcreate).
        simpl in Hk, Hcreate. subst tag'.
        rewrite Hget in Hget'. injection Hget' as <-.
        rewrite (od_get_NoDup tag sd news).
        -- by rewrite Hcreate.
        -- by rewrite Hkeys.
        -- by eapply list_elem_of_lookup_2.
      * apply od_get_None in Hget. rewrite <- Hkeys in Hget.
        apply od_get_None in Hget. by rewrite Hget.
  - intros e Herr.
    unfold load_all_skims, get_skim_info in Herr.
    unfold mbind at 1 in Herr. unfold mbind at 1 in Herr. unfold getattr at 1 in Herr.
    rewrite Hc_skim_info in Herr. unfold ret at 1 in Herr.
    eapply load_skim_dicts_errors in Herr as (tag & info & _ & Hget & Hcreate); [|done..].
    exists tag, info. split; [by apply od_get_elem_of | done].
Qed.

Lemma skim_dicts_of_new_object_witness :
  (load_all_skims SampleConfig.no_skim_dict SampleObject.one_zone_object).2 = Ok tt.
Proof.
  assert (Network_LOS SampleObject.cfg = Ok SampleObject.one_zone_object) as Hnew.
  { vm_compute. reflexivity. }
  destruct (skim_dicts_of_new_object SampleConfig.no_skim_dict
              SampleObject.cfg SampleObject.one_zone_object Hnew)
    as (infos & _ & _ & Hok & _).
  destruct Hok as (dicts & Hload & _).
  - intros tag info _. reflexivity.
  - by rewrite Hload.
Defined.

(** ** The cache files *)








(** X10: the cache is not checked against the catalog.  After
    [write_skim_cache] stored an array, [read_skim_cache] for the same
    tag and element type fills any array of at most that many elements
    with the leading bytes of the file, whatever its shape, and fails
    (the memory map is longer than the file) for an array of more
    elements. *)
Theorem cache_of_other_size convert cfg dirs fs info written fs' skim_data :
  nd_wf written ->
  nd_dtype written = dtype info ->
  nd_dtype skim_data = dtype info ->
  write_skim_cache convert cfg dirs fs info written = (fs', Ok tt) ->
  read_skim_cache convert cfg fs' info skim_data
  = if decide (nd_size written < nd_size skim_data) then Err MmapLength
    else Ok {| nd_shape := nd_shape skim_data;
               nd_dtype := nd_dtype skim_data;
               nd_raw := take (nd_nbytes skim_data) (nd_raw written) |}.
Proof.
  intros Hwf Hd Hd' Hwrite. unfold nd_wf, nd_nbytes in *.
  unfold write_skim_cache in Hwrite.
  destruct (can_create dirs (skim_cache_path cfg info)); [|done].
  destruct (decide (nd_size written * itemsize (dtype info) = 0)) as [|Hbytes]; [done|].
  injection Hwrite as <-.
  unfold read_skim_cache. rewrite lookup_insert_eq.
  assert (assign_raw convert (dtype info) written = nd_raw written) as ->.
  { unfold assign_raw. by rewrite decide_True. }
  rewrite decide_False.
  2:{ intros [_ Hnil]. rewrite Hnil in Hwf. simpl in Hwf. rewrite Hd in Hwf. done. }
  unfold assign_raw. simpl. rewrite (decide_True (P := dtype info = nd_dtype skim_data)) by done.
  rewrite Hwf, Hd, Hd'.
  assert (0 < itemsize (dtype info)) as Hpos by (destruct (dtype info); simpl; lia).
  destruct (decide (nd_size written < nd_size skim_data)) as [Hlt|Hge].
  - rewrite decide_True; [done|]. by apply Nat.mul_lt_mono_pos_r.
  - rewrite decide_False; [done|].
    intros Hlt. apply Hge. by apply Nat.mul_lt_mono_pos_r in Hlt.
Qed.

Lemma cache_of_other_size_witness :
  exists fs',
    write_skim_cache SampleCache.no_convert SampleCache.cfg SampleCache.dirs ∅
      SampleCache.info SampleCache.skim_data = (fs', Ok tt)
    /\ read_skim_cache SampleCache.no_convert SampleCache.cfg fs' SampleCache.info
         SampleCaches.one_skim
       = Ok {| nd_shape := [1; 1; 1]; nd_dtype := Float32;
               nd_raw := [Byte.x00; Byte.x00; Byte.x80; Byte.x3f] |}.
Proof.
  exists (<[skim_cache_path SampleCache.cfg SampleCache.info
            := nd_raw SampleCache.skim_data]> ∅).
  split; [reflexivity|].
  rewrite (cache_of_other_size SampleCache.no_convert SampleCache.cfg SampleCache.dirs ∅
             SampleCache.info SampleCache.skim_data
             (<[skim_cache_path SampleCache.cfg SampleCache.info
                := nd_raw SampleCache.skim_data]> ∅)
             SampleCaches.one_skim);
    reflexivity.
Defined.

(** ** Buffers and their views *)

Lemma itemsize_pos d : 0 < itemsize d.
Proof. destruct d; simpl; lia. Qed.

Lemma select_typecode_size d typecode :
  select_typecode d = Ok typecode -> typecode_size typecode = itemsize d.
Proof.
  unfold select_typecode, issubdtype. destruct d; simpl; intros [= <-]; done.
Qed.

(** a fresh buffer: its bytes and its number of elements *)
Lemma allocate_skim_buffer_Ok info shared b :
  allocate_skim_buffer info shared = Ok b ->
  exists r c,
    omx_shape info = Some (r, c)
    /\ buffer_raw b = repeat Byte.x00 (r * c * num_skims info * itemsize (dtype info))
    /\ buffer_len b = r * c * num_skims info.
Proof.
  unfold allocate_skim_buffer.
  destruct (omx_shape info) as [[r c]|]; [|done]. simpl.
  intros Halloc. exists r, c. split; [done|].
  pose proof (itemsize_pos (dtype info)) as Hpos.
  destruct shared.
  - destruct (select_typecode (dtype info)) as [typecode|] eqn:Hcode; [|done].
    simpl in Halloc. injection Halloc as <-. simpl.
    rewrite (select_typecode_size _ _ Hcode).
    split; [done|]. rewrite repeat_length. by apply Nat.div_mul, Nat.neq_0_lt_0.
  - injection Halloc as <-. simpl.
    split; [done|]. rewrite repeat_length. by apply Nat.div_mul, Nat.neq_0_lt_0.
Qed.

(** X11: the view of a fresh buffer.  Whenever [allocate_skim_buffer]
    returns a buffer for a catalog, shared or not,
    [skim_data_from_buffer] accepts it for that catalog: the assertion
    on the length holds and neither [frombuffer] nor [reshape] fails.
    The view has shape rows x columns x num_skims, the element type of
    the catalog, exactly the bytes of its elements, all zero.  For a
    catalog with another number of elements the same buffer fails the
    assertion. *)
Theorem view_of_fresh_buffer info shared b :
  allocate_skim_buffer info shared = Ok b ->
  exists r c skim_data,
    omx_shape info = Some (r, c)
    /\ skim_data_from_buffer info b = View skim_data
    /\ nd_shape skim_data = [r; c; num_skims info]
    /\ nd_dtype skim_data = dtype info
    /\ nd_raw skim_data = repeat Byte.x00 (nd_nbytes skim_data)
    /\ nd_wf skim_data
    /\ forall other size,
         skims_size other = Some size ->
         size ≠ r * c * num_skims info ->
         skim_data_from_buffer other b = ViewErr (Raised BufferLength).
Proof.
  intros Halloc.
  destruct (allocate_skim_buffer_Ok _ _ _ Halloc) as (r & c & Hshape & Hraw & Hlen).
  pose proof (itemsize_pos (dtype info)) as Hpos.
  exists r, c.
  exists {| nd_shape := [r; c; num_skims info]; nd_dtype := dtype info;
            nd_raw := buffer_raw b |}.
  assert (nd_nbytes {| nd_shape := [r; c; num_skims info]; nd_dtype := dtype info;
                       nd_raw := buffer_raw b |}
          = r * c * num_skims info * itemsize (dtype info)) as Hbytes.
  { unfold nd_nbytes, nd_size. simpl. f_equal. lia. }
  split_and!; try done.
  - unfold skim_data_from_buffer. rewrite Hshape. simpl.
    rewrite Hlen. rewrite decide_True by done.
    rewrite Hraw, repeat_length.
    rewrite decide_True by (by apply Nat.Div0.mod_mul).
    rewrite decide_True by (by apply Nat.div_mul, Nat.neq_0_lt_0).
    done.
  - by rewrite Hbytes.
  - unfold nd_wf. rewrite Hbytes. simpl. by rewrite Hraw, repeat_length.
  - intros other size Hsize Hne.
    unfold skims_size in Hsize. unfold skim_data_from_buffer.
    destruct (omx_shape other) as [[r' c']|]; [|done]. injection Hsize as <-. simpl.
    rewrite Hlen. by rewrite decide_False.
Qed.

Lemma view_of_fresh_buffer_witness :
  exists skim_data,
    skim_data_from_buffer SampleCache.info (NpZeros Float32 (repeat Byte.x00 8))
    = View skim_data
    /\ nd_shape skim_data = [1; 1; 2].
Proof.
  destruct (view_of_fresh_buffer SampleCache.info false
              (NpZeros Float32 (repeat Byte.x00 8)) eq_refl)
    as (r & c & skim_data & Hshape & Hview & Hs & _).
  injection Hshape as <- <-.
  exists skim_data. split; [exact Hview | exact Hs].
Defined.
